(** * kpi_dashboard.py: a shallow embedding and its verified properties

    The program loads a [key=value] configuration file, runs six aggregate
    queries, outer-joins their results on the [dossier] column, sorts the
    merged table and renders an HTML report.

    Conventions of the embedding.
    - A Python [str] is a [string]: the bytes of its UTF-8 encoding.
      Whitespace ([str.strip]), case ([str.lower]), digits ([int]) and [repr]
      are those of CPython 3.11 (Unicode 14.0), with the interpreter's
      default limit of 4300 digits on [int] of a text.
    - A numeric cell (an SQL [COUNT], [int64] or integer-valued [float64]) is
      a [Z], exact up to 2^53 in magnitude (past it a [float64] column
      rounds and an [int64] sum wraps); a missing cell ([NaN], or [None] in
      a column of objects) is [VNaN].
    - A call that may raise returns [except]: [OK v] or [Raise e].
    - The outside world (file system, database, clock) is a record of
      oracles, [World]; a run produces the list of its observable events. *)

From Stdlib Require Import String Ascii List ZArith NArith Lia Bool.
From Stdlib Require Import Permutation Sorted DecimalString.
From Stdlib Require DecimalNat.
Import ListNotations.

Local Open Scope string_scope.
Local Open Scope Z_scope.

(** ** Exceptions and results *)

Inductive exn : Type :=
| KeyError (what : string)
| ValueError (what : string)
| TypeError (what : string)
| MergeError (what : string)
| DatabaseError (what : string)
| OSError (what : string)
| UnicodeDecodeError.

Inductive except (A : Type) : Type :=
| OK (a : A)
| Raise (e : exn).

Arguments OK {A} a.
Arguments Raise {A} e.

Definition bind {A B : Type} (m : except A) (f : A -> except B) : except B :=
  match m with
  | OK a => f a
  | Raise e => Raise e
  end.

Notation "x <- m ;; k" := (bind m (fun x => k))
  (at level 100, m at next level, right associativity).

(** ** Text

    A [str] is held as its UTF-8 bytes.  The ASCII bytes never occur inside
    the encoding of another character, so looking for [=], [#] or a newline
    is the same on the bytes as on the characters; trimming, lower-casing,
    [int] and [repr] go through the characters. *)

Module Utf8.

Definition continuation (b : N) : bool := ((128 <=? b) && (b <=? 191))%N.

(** The second byte after the first byte [a] of a three-byte sequence: no
    overlong form and no surrogate. *)
Definition second_of_three (a b : N) : bool :=
  (if a =? 224 then (160 <=? b) && (b <=? 191)
   else if a =? 237 then (128 <=? b) && (b <=? 159)
   else continuation b)%N.

(** The second byte after the first byte [a] of a four-byte sequence: no
    overlong form and nothing above U+10FFFF. *)
Definition second_of_four (a b : N) : bool :=
  (if a =? 240 then (144 <=? b) && (b <=? 191)
   else if a =? 244 then (128 <=? b) && (b <=? 143)
   else continuation b)%N.

(** [bytes.decode('utf-8')]: the characters, [None] for
    [UnicodeDecodeError]. *)
Fixpoint decode (s : string) : option (list N) :=
  match s with
  | EmptyString => Some []
  | String a1 r1 =>
      let a := N_of_ascii a1 in
      if (a <? 128)%N then option_map (cons a) (decode r1)
      else
        match r1 with
        | EmptyString => None
        | String b1 r2 =>
            let b := N_of_ascii b1 in
            if ((194 <=? a) && (a <=? 223))%N then
              if continuation b
              then option_map (cons ((a - 192) * 64 + (b - 128))%N) (decode r2)
              else None
            else
              match r2 with
              | EmptyString => None
              | String c1 r3 =>
                  let c := N_of_ascii c1 in
                  if ((224 <=? a) && (a <=? 239))%N then
                    if second_of_three a b && continuation c
                    then option_map
                           (cons ((a - 224) * 4096 + (b - 128) * 64 + (c - 128))%N)
                           (decode r3)
                    else None
                  else
                    match r3 with
                    | EmptyString => None
                    | String d1 r4 =>
                        let d := N_of_ascii d1 in
                        if ((240 <=? a) && (a <=? 244))%N
                           && second_of_four a b && continuation c && continuation d
                        then option_map
                               (cons ((a - 240) * 262144 + (b - 128) * 4096
                                      + (c - 128) * 64 + (d - 128))%N)
                               (decode r4)
                        else None
                    end
              end
        end
  end.

Definition encode_char (c : N) : list N :=
  (if c <? 128 then [c]
   else if c <? 2048 then [192 + c / 64; 128 + c mod 64]
   else if c <? 65536 then [224 + c / 4096; 128 + (c / 64) mod 64; 128 + c mod 64]
   else [240 + c / 262144; 128 + (c / 4096) mod 64; 128 + (c / 64) mod 64;
         128 + c mod 64])%N.

(** [str.encode('utf-8')] *)
Definition encode (t : list N) : string :=
  string_of_list_ascii (map ascii_of_N (flat_map encode_char t)).

End Utf8.

(** The character data of CPython 3.11 (Unicode 14.0), as ranges of code
    points. *)
Module Unicode.

Definition in_ranges (ranges : list (N * N)) (c : N) : bool :=
  existsb (fun '(first, last) => ((first <=? c) && (c <=? last))%N) ranges.

(** [str.isspace]: the characters [str.strip] removes. *)
Definition whitespace : list (N * N) :=
  [(9, 13); (28, 32); (133, 133); (160, 160); (5760, 5760); (8192, 8202);
   (8232, 8233); (8239, 8239); (8287, 8287); (12288, 12288)]%N.

(** The digit zero of each decimal script; its nine successors are the
    digits 1 to 9. *)
Definition decimal_zeros : list N :=
  [48; 1632; 1776; 1984; 2406; 2534; 2662; 2790; 2918; 3046;
   3174; 3302; 3430; 3558; 3664; 3792; 3872; 4160; 4240; 6112;
   6160; 6470; 6608; 6784; 6800; 6992; 7088; 7232; 7248; 42528;
   43216; 43264; 43472; 43504; 43600; 44016; 65296; 66720; 68912; 69734;
   69872; 69942; 70096; 70384; 70736; 70864; 71248; 71360; 71472; 71904;
   72016; 72784; 73040; 73120; 92768; 92864; 93008; 120782; 120792; 120802;
   120812; 120822; 123200; 123632; 125264; 130032]%N.

(** [str.lower] on one character, as runs [(first, last, stride, image of
    first)]: the characters [first], [first + stride], ... of a run map to the
    image shifted by their offset.  U+0130 and U+03A3 are apart. *)
Definition lowercase : list (N * N * N * N) :=
  [(65, 90, 1, 97); (192, 214, 1, 224); (216, 222, 1, 248); (256, 302, 2, 257);
   (306, 310, 2, 307); (313, 327, 2, 314); (330, 374, 2, 331); (376, 376, 1, 255);
   (377, 381, 2, 378); (385, 385, 1, 595); (386, 388, 2, 387); (390, 390, 1, 596);
   (391, 391, 1, 392); (393, 394, 1, 598); (395, 395, 1, 396); (398, 398, 1, 477);
   (399, 399, 1, 601); (400, 400, 1, 603); (401, 401, 1, 402); (403, 403, 1, 608);
   (404, 404, 1, 611); (406, 406, 1, 617); (407, 407, 1, 616); (408, 408, 1, 409);
   (412, 412, 1, 623); (413, 413, 1, 626); (415, 415, 1, 629); (416, 420, 2, 417);
   (422, 422, 1, 640); (423, 423, 1, 424); (425, 425, 1, 643); (428, 428, 1, 429);
   (430, 430, 1, 648); (431, 431, 1, 432); (433, 434, 1, 650); (435, 437, 2, 436);
   (439, 439, 1, 658); (440, 440, 1, 441); (444, 444, 1, 445); (452, 452, 1, 454);
   (453, 453, 1, 454); (455, 455, 1, 457); (456, 456, 1, 457); (458, 458, 1, 460);
   (459, 475, 2, 460); (478, 494, 2, 479); (497, 497, 1, 499); (498, 500, 2, 499);
   (502, 502, 1, 405); (503, 503, 1, 447); (504, 542, 2, 505); (544, 544, 1, 414);
   (546, 562, 2, 547); (570, 570, 1, 11365); (571, 571, 1, 572); (573, 573, 1, 410);
   (574, 574, 1, 11366); (577, 577, 1, 578); (579, 579, 1, 384); (580, 580, 1, 649);
   (581, 581, 1, 652); (582, 590, 2, 583); (880, 882, 2, 881); (886, 886, 1, 887);
   (895, 895, 1, 1011); (902, 902, 1, 940); (904, 906, 1, 941); (908, 908, 1, 972);
   (910, 911, 1, 973); (913, 929, 1, 945); (931, 939, 1, 963); (975, 975, 1, 983);
   (984, 1006, 2, 985); (1012, 1012, 1, 952); (1015, 1015, 1, 1016); (1017, 1017, 1, 1010);
   (1018, 1018, 1, 1019); (1021, 1023, 1, 891); (1024, 1039, 1, 1104); (1040, 1071, 1, 1072);
   (1120, 1152, 2, 1121); (1162, 1214, 2, 1163); (1216, 1216, 1, 1231); (1217, 1229, 2, 1218);
   (1232, 1326, 2, 1233); (1329, 1366, 1, 1377); (4256, 4293, 1, 11520); (4295, 4295, 1, 11559);
   (4301, 4301, 1, 11565); (5024, 5103, 1, 43888); (5104, 5109, 1, 5112); (7312, 7354, 1, 4304);
   (7357, 7359, 1, 4349); (7680, 7828, 2, 7681); (7838, 7838, 1, 223); (7840, 7934, 2, 7841);
   (7944, 7951, 1, 7936); (7960, 7965, 1, 7952); (7976, 7983, 1, 7968); (7992, 7999, 1, 7984);
   (8008, 8013, 1, 8000); (8025, 8031, 2, 8017); (8040, 8047, 1, 8032); (8072, 8079, 1, 8064);
   (8088, 8095, 1, 8080); (8104, 8111, 1, 8096); (8120, 8121, 1, 8112); (8122, 8123, 1, 8048);
   (8124, 8124, 1, 8115); (8136, 8139, 1, 8050); (8140, 8140, 1, 8131); (8152, 8153, 1, 8144);
   (8154, 8155, 1, 8054); (8168, 8169, 1, 8160); (8170, 8171, 1, 8058); (8172, 8172, 1, 8165);
   (8184, 8185, 1, 8056); (8186, 8187, 1, 8060); (8188, 8188, 1, 8179); (8486, 8486, 1, 969);
   (8490, 8490, 1, 107); (8491, 8491, 1, 229); (8498, 8498, 1, 8526); (8544, 8559, 1, 8560);
   (8579, 8579, 1, 8580); (9398, 9423, 1, 9424); (11264, 11311, 1, 11312); (11360, 11360, 1, 11361);
   (11362, 11362, 1, 619); (11363, 11363, 1, 7549); (11364, 11364, 1, 637); (11367, 11371, 2, 11368);
   (11373, 11373, 1, 593); (11374, 11374, 1, 625); (11375, 11375, 1, 592); (11376, 11376, 1, 594);
   (11378, 11378, 1, 11379); (11381, 11381, 1, 11382); (11390, 11391, 1, 575); (11392, 11490, 2, 11393);
   (11499, 11501, 2, 11500); (11506, 11506, 1, 11507); (42560, 42604, 2, 42561); (42624, 42650, 2, 42625);
   (42786, 42798, 2, 42787); (42802, 42862, 2, 42803); (42873, 42875, 2, 42874); (42877, 42877, 1, 7545);
   (42878, 42886, 2, 42879); (42891, 42891, 1, 42892); (42893, 42893, 1, 613); (42896, 42898, 2, 42897);
   (42902, 42920, 2, 42903); (42922, 42922, 1, 614); (42923, 42923, 1, 604); (42924, 42924, 1, 609);
   (42925, 42925, 1, 620); (42926, 42926, 1, 618); (42928, 42928, 1, 670); (42929, 42929, 1, 647);
   (42930, 42930, 1, 669); (42931, 42931, 1, 43859); (42932, 42946, 2, 42933); (42948, 42948, 1, 42900);
   (42949, 42949, 1, 642); (42950, 42950, 1, 7566); (42951, 42953, 2, 42952); (42960, 42960, 1, 42961);
   (42966, 42968, 2, 42967); (42997, 42997, 1, 42998); (65313, 65338, 1, 65345); (66560, 66599, 1, 66600);
   (66736, 66771, 1, 66776); (66928, 66938, 1, 66967); (66940, 66954, 1, 66979); (66956, 66962, 1, 66995);
   (66964, 66965, 1, 67003); (68736, 68786, 1, 68800); (71840, 71871, 1, 71872); (93760, 93791, 1, 93792);
   (125184, 125217, 1, 125218)]%N.

(** Case-ignorable characters, which the final-sigma rule skips. *)
Definition case_ignorable : list (N * N) :=
  [(39, 39); (46, 46); (58, 58); (94, 94); (96, 96); (168, 168);
   (173, 173); (175, 175); (180, 180); (183, 184); (688, 879); (884, 885);
   (890, 890); (900, 901); (903, 903); (1155, 1161); (1369, 1369); (1375, 1375);
   (1425, 1469); (1471, 1471); (1473, 1474); (1476, 1477); (1479, 1479); (1524, 1524);
   (1536, 1541); (1552, 1562); (1564, 1564); (1600, 1600); (1611, 1631); (1648, 1648);
   (1750, 1757); (1759, 1768); (1770, 1773); (1807, 1807); (1809, 1809); (1840, 1866);
   (1958, 1968); (2027, 2037); (2042, 2042); (2045, 2045); (2070, 2093); (2137, 2139);
   (2184, 2184); (2192, 2193); (2200, 2207); (2249, 2306); (2362, 2362); (2364, 2364);
   (2369, 2376); (2381, 2381); (2385, 2391); (2402, 2403); (2417, 2417); (2433, 2433);
   (2492, 2492); (2497, 2500); (2509, 2509); (2530, 2531); (2558, 2558); (2561, 2562);
   (2620, 2620); (2625, 2626); (2631, 2632); (2635, 2637); (2641, 2641); (2672, 2673);
   (2677, 2677); (2689, 2690); (2748, 2748); (2753, 2757); (2759, 2760); (2765, 2765);
   (2786, 2787); (2810, 2815); (2817, 2817); (2876, 2876); (2879, 2879); (2881, 2884);
   (2893, 2893); (2901, 2902); (2914, 2915); (2946, 2946); (3008, 3008); (3021, 3021);
   (3072, 3072); (3076, 3076); (3132, 3132); (3134, 3136); (3142, 3144); (3146, 3149);
   (3157, 3158); (3170, 3171); (3201, 3201); (3260, 3260); (3263, 3263); (3270, 3270);
   (3276, 3277); (3298, 3299); (3328, 3329); (3387, 3388); (3393, 3396); (3405, 3405);
   (3426, 3427); (3457, 3457); (3530, 3530); (3538, 3540); (3542, 3542); (3633, 3633);
   (3636, 3642); (3654, 3662); (3761, 3761); (3764, 3772); (3782, 3782); (3784, 3789);
   (3864, 3865); (3893, 3893); (3895, 3895); (3897, 3897); (3953, 3966); (3968, 3972);
   (3974, 3975); (3981, 3991); (3993, 4028); (4038, 4038); (4141, 4144); (4146, 4151);
   (4153, 4154); (4157, 4158); (4184, 4185); (4190, 4192); (4209, 4212); (4226, 4226);
   (4229, 4230); (4237, 4237); (4253, 4253); (4348, 4348); (4957, 4959); (5906, 5908);
   (5938, 5939); (5970, 5971); (6002, 6003); (6068, 6069); (6071, 6077); (6086, 6086);
   (6089, 6099); (6103, 6103); (6109, 6109); (6155, 6159); (6211, 6211); (6277, 6278);
   (6313, 6313); (6432, 6434); (6439, 6440); (6450, 6450); (6457, 6459); (6679, 6680);
   (6683, 6683); (6742, 6742); (6744, 6750); (6752, 6752); (6754, 6754); (6757, 6764);
   (6771, 6780); (6783, 6783); (6823, 6823); (6832, 6862); (6912, 6915); (6964, 6964);
   (6966, 6970); (6972, 6972); (6978, 6978); (7019, 7027); (7040, 7041); (7074, 7077);
   (7080, 7081); (7083, 7085); (7142, 7142); (7144, 7145); (7149, 7149); (7151, 7153);
   (7212, 7219); (7222, 7223); (7288, 7293); (7376, 7378); (7380, 7392); (7394, 7400);
   (7405, 7405); (7412, 7412); (7416, 7417); (7468, 7530); (7544, 7544); (7579, 7679);
   (8125, 8125); (8127, 8129); (8141, 8143); (8157, 8159); (8173, 8175); (8189, 8190);
   (8203, 8207); (8216, 8217); (8228, 8228); (8231, 8231); (8234, 8238); (8288, 8292);
   (8294, 8303); (8305, 8305); (8319, 8319); (8336, 8348); (8400, 8432); (11388, 11389);
   (11503, 11505); (11631, 11631); (11647, 11647); (11744, 11775); (11823, 11823); (12293, 12293);
   (12330, 12333); (12337, 12341); (12347, 12347); (12441, 12446); (12540, 12542); (40981, 40981);
   (42232, 42237); (42508, 42508); (42607, 42610); (42612, 42621); (42623, 42623); (42652, 42655);
   (42736, 42737); (42752, 42785); (42864, 42864); (42888, 42890); (42994, 42996); (43000, 43001);
   (43010, 43010); (43014, 43014); (43019, 43019); (43045, 43046); (43052, 43052); (43204, 43205);
   (43232, 43249); (43263, 43263); (43302, 43309); (43335, 43345); (43392, 43394); (43443, 43443);
   (43446, 43449); (43452, 43453); (43471, 43471); (43493, 43494); (43561, 43566); (43569, 43570);
   (43573, 43574); (43587, 43587); (43596, 43596); (43632, 43632); (43644, 43644); (43696, 43696);
   (43698, 43700); (43703, 43704); (43710, 43711); (43713, 43713); (43741, 43741); (43756, 43757);
   (43763, 43764); (43766, 43766); (43867, 43871); (43881, 43883); (44005, 44005); (44008, 44008);
   (44013, 44013); (64286, 64286); (64434, 64450); (65024, 65039); (65043, 65043); (65056, 65071);
   (65106, 65106); (65109, 65109); (65279, 65279); (65287, 65287); (65294, 65294); (65306, 65306);
   (65342, 65342); (65344, 65344); (65392, 65392); (65438, 65439); (65507, 65507); (65529, 65531);
   (66045, 66045); (66272, 66272); (66422, 66426); (67456, 67461); (67463, 67504); (67506, 67514);
   (68097, 68099); (68101, 68102); (68108, 68111); (68152, 68154); (68159, 68159); (68325, 68326);
   (68900, 68903); (69291, 69292); (69446, 69456); (69506, 69509); (69633, 69633); (69688, 69702);
   (69744, 69744); (69747, 69748); (69759, 69761); (69811, 69814); (69817, 69818); (69821, 69821);
   (69826, 69826); (69837, 69837); (69888, 69890); (69927, 69931); (69933, 69940); (70003, 70003);
   (70016, 70017); (70070, 70078); (70089, 70092); (70095, 70095); (70191, 70193); (70196, 70196);
   (70198, 70199); (70206, 70206); (70367, 70367); (70371, 70378); (70400, 70401); (70459, 70460);
   (70464, 70464); (70502, 70508); (70512, 70516); (70712, 70719); (70722, 70724); (70726, 70726);
   (70750, 70750); (70835, 70840); (70842, 70842); (70847, 70848); (70850, 70851); (71090, 71093);
   (71100, 71101); (71103, 71104); (71132, 71133); (71219, 71226); (71229, 71229); (71231, 71232);
   (71339, 71339); (71341, 71341); (71344, 71349); (71351, 71351); (71453, 71455); (71458, 71461);
   (71463, 71467); (71727, 71735); (71737, 71738); (71995, 71996); (71998, 71998); (72003, 72003);
   (72148, 72151); (72154, 72155); (72160, 72160); (72193, 72202); (72243, 72248); (72251, 72254);
   (72263, 72263); (72273, 72278); (72281, 72283); (72330, 72342); (72344, 72345); (72752, 72758);
   (72760, 72765); (72767, 72767); (72850, 72871); (72874, 72880); (72882, 72883); (72885, 72886);
   (73009, 73014); (73018, 73018); (73020, 73021); (73023, 73029); (73031, 73031); (73104, 73105);
   (73109, 73109); (73111, 73111); (73459, 73460); (78896, 78904); (92912, 92916); (92976, 92982);
   (92992, 92995); (94031, 94031); (94095, 94111); (94176, 94177); (94179, 94180); (110576, 110579);
   (110581, 110587); (110589, 110590); (113821, 113822); (113824, 113827); (118528, 118573); (118576, 118598);
   (119143, 119145); (119155, 119170); (119173, 119179); (119210, 119213); (119362, 119364); (121344, 121398);
   (121403, 121452); (121461, 121461); (121476, 121476); (121499, 121503); (121505, 121519); (122880, 122886);
   (122888, 122904); (122907, 122913); (122915, 122916); (122918, 122922); (123184, 123197); (123566, 123566);
   (123628, 123631); (125136, 125142); (125252, 125259); (127995, 127999); (917505, 917505); (917536, 917631);
   (917760, 917999)]%N.

(** Cased characters, the case-ignorable ones apart. *)
Definition cased : list (N * N) :=
  [(65, 90); (97, 122); (170, 170); (181, 181); (186, 186); (192, 214);
   (216, 246); (248, 442); (444, 447); (452, 659); (661, 687); (880, 883);
   (886, 887); (891, 893); (895, 895); (902, 902); (904, 906); (908, 908);
   (910, 929); (931, 1013); (1015, 1153); (1162, 1327); (1329, 1366); (1376, 1416);
   (4256, 4293); (4295, 4295); (4301, 4301); (4304, 4346); (4349, 4351); (5024, 5109);
   (5112, 5117); (7296, 7304); (7312, 7354); (7357, 7359); (7424, 7467); (7531, 7543);
   (7545, 7578); (7680, 7957); (7960, 7965); (7968, 8005); (8008, 8013); (8016, 8023);
   (8025, 8025); (8027, 8027); (8029, 8029); (8031, 8061); (8064, 8116); (8118, 8124);
   (8126, 8126); (8130, 8132); (8134, 8140); (8144, 8147); (8150, 8155); (8160, 8172);
   (8178, 8180); (8182, 8188); (8450, 8450); (8455, 8455); (8458, 8467); (8469, 8469);
   (8473, 8477); (8484, 8484); (8486, 8486); (8488, 8488); (8490, 8493); (8495, 8500);
   (8505, 8505); (8508, 8511); (8517, 8521); (8526, 8526); (8544, 8575); (8579, 8580);
   (9398, 9449); (11264, 11387); (11390, 11492); (11499, 11502); (11506, 11507); (11520, 11557);
   (11559, 11559); (11565, 11565); (42560, 42605); (42624, 42651); (42786, 42863); (42865, 42887);
   (42891, 42894); (42896, 42954); (42960, 42961); (42963, 42963); (42965, 42969); (42997, 42998);
   (43002, 43002); (43824, 43866); (43872, 43880); (43888, 43967); (64256, 64262); (64275, 64279);
   (65313, 65338); (65345, 65370); (66560, 66639); (66736, 66771); (66776, 66811); (66928, 66938);
   (66940, 66954); (66956, 66962); (66964, 66965); (66967, 66977); (66979, 66993); (66995, 67001);
   (67003, 67004); (68736, 68786); (68800, 68850); (71840, 71903); (93760, 93823); (119808, 119892);
   (119894, 119964); (119966, 119967); (119970, 119970); (119973, 119974); (119977, 119980); (119982, 119993);
   (119995, 119995); (119997, 120003); (120005, 120069); (120071, 120074); (120077, 120084); (120086, 120092);
   (120094, 120121); (120123, 120126); (120128, 120132); (120134, 120134); (120138, 120144); (120146, 120485);
   (120488, 120512); (120514, 120538); (120540, 120570); (120572, 120596); (120598, 120628); (120630, 120654);
   (120656, 120686); (120688, 120712); (120714, 120744); (120746, 120770); (120772, 120779); (122624, 122633);
   (122635, 122654); (125184, 125251); (127280, 127305); (127312, 127337); (127344, 127369)]%N.

(** [str.isprintable]: the characters [repr] shows as they are. *)
Definition printable : list (N * N) :=
  [(32, 126); (161, 172); (174, 887); (890, 895); (900, 906); (908, 908);
   (910, 929); (931, 1327); (1329, 1366); (1369, 1418); (1421, 1423); (1425, 1479);
   (1488, 1514); (1519, 1524); (1542, 1563); (1565, 1756); (1758, 1805); (1808, 1866);
   (1869, 1969); (1984, 2042); (2045, 2093); (2096, 2110); (2112, 2139); (2142, 2142);
   (2144, 2154); (2160, 2190); (2200, 2273); (2275, 2435); (2437, 2444); (2447, 2448);
   (2451, 2472); (2474, 2480); (2482, 2482); (2486, 2489); (2492, 2500); (2503, 2504);
   (2507, 2510); (2519, 2519); (2524, 2525); (2527, 2531); (2534, 2558); (2561, 2563);
   (2565, 2570); (2575, 2576); (2579, 2600); (2602, 2608); (2610, 2611); (2613, 2614);
   (2616, 2617); (2620, 2620); (2622, 2626); (2631, 2632); (2635, 2637); (2641, 2641);
   (2649, 2652); (2654, 2654); (2662, 2678); (2689, 2691); (2693, 2701); (2703, 2705);
   (2707, 2728); (2730, 2736); (2738, 2739); (2741, 2745); (2748, 2757); (2759, 2761);
   (2763, 2765); (2768, 2768); (2784, 2787); (2790, 2801); (2809, 2815); (2817, 2819);
   (2821, 2828); (2831, 2832); (2835, 2856); (2858, 2864); (2866, 2867); (2869, 2873);
   (2876, 2884); (2887, 2888); (2891, 2893); (2901, 2903); (2908, 2909); (2911, 2915);
   (2918, 2935); (2946, 2947); (2949, 2954); (2958, 2960); (2962, 2965); (2969, 2970);
   (2972, 2972); (2974, 2975); (2979, 2980); (2984, 2986); (2990, 3001); (3006, 3010);
   (3014, 3016); (3018, 3021); (3024, 3024); (3031, 3031); (3046, 3066); (3072, 3084);
   (3086, 3088); (3090, 3112); (3114, 3129); (3132, 3140); (3142, 3144); (3146, 3149);
   (3157, 3158); (3160, 3162); (3165, 3165); (3168, 3171); (3174, 3183); (3191, 3212);
   (3214, 3216); (3218, 3240); (3242, 3251); (3253, 3257); (3260, 3268); (3270, 3272);
   (3274, 3277); (3285, 3286); (3293, 3294); (3296, 3299); (3302, 3311); (3313, 3314);
   (3328, 3340); (3342, 3344); (3346, 3396); (3398, 3400); (3402, 3407); (3412, 3427);
   (3430, 3455); (3457, 3459); (3461, 3478); (3482, 3505); (3507, 3515); (3517, 3517);
   (3520, 3526); (3530, 3530); (3535, 3540); (3542, 3542); (3544, 3551); (3558, 3567);
   (3570, 3572); (3585, 3642); (3647, 3675); (3713, 3714); (3716, 3716); (3718, 3722);
   (3724, 3747); (3749, 3749); (3751, 3773); (3776, 3780); (3782, 3782); (3784, 3789);
   (3792, 3801); (3804, 3807); (3840, 3911); (3913, 3948); (3953, 3991); (3993, 4028);
   (4030, 4044); (4046, 4058); (4096, 4293); (4295, 4295); (4301, 4301); (4304, 4680);
   (4682, 4685); (4688, 4694); (4696, 4696); (4698, 4701); (4704, 4744); (4746, 4749);
   (4752, 4784); (4786, 4789); (4792, 4798); (4800, 4800); (4802, 4805); (4808, 4822);
   (4824, 4880); (4882, 4885); (4888, 4954); (4957, 4988); (4992, 5017); (5024, 5109);
   (5112, 5117); (5120, 5759); (5761, 5788); (5792, 5880); (5888, 5909); (5919, 5942);
   (5952, 5971); (5984, 5996); (5998, 6000); (6002, 6003); (6016, 6109); (6112, 6121);
   (6128, 6137); (6144, 6157); (6159, 6169); (6176, 6264); (6272, 6314); (6320, 6389);
   (6400, 6430); (6432, 6443); (6448, 6459); (6464, 6464); (6468, 6509); (6512, 6516);
   (6528, 6571); (6576, 6601); (6608, 6618); (6622, 6683); (6686, 6750); (6752, 6780);
   (6783, 6793); (6800, 6809); (6816, 6829); (6832, 6862); (6912, 6988); (6992, 7038);
   (7040, 7155); (7164, 7223); (7227, 7241); (7245, 7304); (7312, 7354); (7357, 7367);
   (7376, 7418); (7424, 7957); (7960, 7965); (7968, 8005); (8008, 8013); (8016, 8023);
   (8025, 8025); (8027, 8027); (8029, 8029); (8031, 8061); (8064, 8116); (8118, 8132);
   (8134, 8147); (8150, 8155); (8157, 8175); (8178, 8180); (8182, 8190); (8208, 8231);
   (8240, 8286); (8304, 8305); (8308, 8334); (8336, 8348); (8352, 8384); (8400, 8432);
   (8448, 8587); (8592, 9254); (9280, 9290); (9312, 11123); (11126, 11157); (11159, 11507);
   (11513, 11557); (11559, 11559); (11565, 11565); (11568, 11623); (11631, 11632); (11647, 11670);
   (11680, 11686); (11688, 11694); (11696, 11702); (11704, 11710); (11712, 11718); (11720, 11726);
   (11728, 11734); (11736, 11742); (11744, 11869); (11904, 11929); (11931, 12019); (12032, 12245);
   (12272, 12283); (12289, 12351); (12353, 12438); (12441, 12543); (12549, 12591); (12593, 12686);
   (12688, 12771); (12784, 12830); (12832, 42124); (42128, 42182); (42192, 42539); (42560, 42743);
   (42752, 42954); (42960, 42961); (42963, 42963); (42965, 42969); (42994, 43052); (43056, 43065);
   (43072, 43127); (43136, 43205); (43214, 43225); (43232, 43347); (43359, 43388); (43392, 43469);
   (43471, 43481); (43486, 43518); (43520, 43574); (43584, 43597); (43600, 43609); (43612, 43714);
   (43739, 43766); (43777, 43782); (43785, 43790); (43793, 43798); (43808, 43814); (43816, 43822);
   (43824, 43883); (43888, 44013); (44016, 44025); (44032, 55203); (55216, 55238); (55243, 55291);
   (63744, 64109); (64112, 64217); (64256, 64262); (64275, 64279); (64285, 64310); (64312, 64316);
   (64318, 64318); (64320, 64321); (64323, 64324); (64326, 64450); (64467, 64911); (64914, 64967);
   (64975, 64975); (65008, 65049); (65056, 65106); (65108, 65126); (65128, 65131); (65136, 65140);
   (65142, 65276); (65281, 65470); (65474, 65479); (65482, 65487); (65490, 65495); (65498, 65500);
   (65504, 65510); (65512, 65518); (65532, 65533); (65536, 65547); (65549, 65574); (65576, 65594);
   (65596, 65597); (65599, 65613); (65616, 65629); (65664, 65786); (65792, 65794); (65799, 65843);
   (65847, 65934); (65936, 65948); (65952, 65952); (66000, 66045); (66176, 66204); (66208, 66256);
   (66272, 66299); (66304, 66339); (66349, 66378); (66384, 66426); (66432, 66461); (66463, 66499);
   (66504, 66517); (66560, 66717); (66720, 66729); (66736, 66771); (66776, 66811); (66816, 66855);
   (66864, 66915); (66927, 66938); (66940, 66954); (66956, 66962); (66964, 66965); (66967, 66977);
   (66979, 66993); (66995, 67001); (67003, 67004); (67072, 67382); (67392, 67413); (67424, 67431);
   (67456, 67461); (67463, 67504); (67506, 67514); (67584, 67589); (67592, 67592); (67594, 67637);
   (67639, 67640); (67644, 67644); (67647, 67669); (67671, 67742); (67751, 67759); (67808, 67826);
   (67828, 67829); (67835, 67867); (67871, 67897); (67903, 67903); (67968, 68023); (68028, 68047);
   (68050, 68099); (68101, 68102); (68108, 68115); (68117, 68119); (68121, 68149); (68152, 68154);
   (68159, 68168); (68176, 68184); (68192, 68255); (68288, 68326); (68331, 68342); (68352, 68405);
   (68409, 68437); (68440, 68466); (68472, 68497); (68505, 68508); (68521, 68527); (68608, 68680);
   (68736, 68786); (68800, 68850); (68858, 68903); (68912, 68921); (69216, 69246); (69248, 69289);
   (69291, 69293); (69296, 69297); (69376, 69415); (69424, 69465); (69488, 69513); (69552, 69579);
   (69600, 69622); (69632, 69709); (69714, 69749); (69759, 69820); (69822, 69826); (69840, 69864);
   (69872, 69881); (69888, 69940); (69942, 69959); (69968, 70006); (70016, 70111); (70113, 70132);
   (70144, 70161); (70163, 70206); (70272, 70278); (70280, 70280); (70282, 70285); (70287, 70301);
   (70303, 70313); (70320, 70378); (70384, 70393); (70400, 70403); (70405, 70412); (70415, 70416);
   (70419, 70440); (70442, 70448); (70450, 70451); (70453, 70457); (70459, 70468); (70471, 70472);
   (70475, 70477); (70480, 70480); (70487, 70487); (70493, 70499); (70502, 70508); (70512, 70516);
   (70656, 70747); (70749, 70753); (70784, 70855); (70864, 70873); (71040, 71093); (71096, 71133);
   (71168, 71236); (71248, 71257); (71264, 71276); (71296, 71353); (71360, 71369); (71424, 71450);
   (71453, 71467); (71472, 71494); (71680, 71739); (71840, 71922); (71935, 71942); (71945, 71945);
   (71948, 71955); (71957, 71958); (71960, 71989); (71991, 71992); (71995, 72006); (72016, 72025);
   (72096, 72103); (72106, 72151); (72154, 72164); (72192, 72263); (72272, 72354); (72368, 72440);
   (72704, 72712); (72714, 72758); (72760, 72773); (72784, 72812); (72816, 72847); (72850, 72871);
   (72873, 72886); (72960, 72966); (72968, 72969); (72971, 73014); (73018, 73018); (73020, 73021);
   (73023, 73031); (73040, 73049); (73056, 73061); (73063, 73064); (73066, 73102); (73104, 73105);
   (73107, 73112); (73120, 73129); (73440, 73464); (73648, 73648); (73664, 73713); (73727, 74649);
   (74752, 74862); (74864, 74868); (74880, 75075); (77712, 77810); (77824, 78894); (82944, 83526);
   (92160, 92728); (92736, 92766); (92768, 92777); (92782, 92862); (92864, 92873); (92880, 92909);
   (92912, 92917); (92928, 92997); (93008, 93017); (93019, 93025); (93027, 93047); (93053, 93071);
   (93760, 93850); (93952, 94026); (94031, 94087); (94095, 94111); (94176, 94180); (94192, 94193);
   (94208, 100343); (100352, 101589); (101632, 101640); (110576, 110579); (110581, 110587); (110589, 110590);
   (110592, 110882); (110928, 110930); (110948, 110951); (110960, 111355); (113664, 113770); (113776, 113788);
   (113792, 113800); (113808, 113817); (113820, 113823); (118528, 118573); (118576, 118598); (118608, 118723);
   (118784, 119029); (119040, 119078); (119081, 119154); (119163, 119274); (119296, 119365); (119520, 119539);
   (119552, 119638); (119648, 119672); (119808, 119892); (119894, 119964); (119966, 119967); (119970, 119970);
   (119973, 119974); (119977, 119980); (119982, 119993); (119995, 119995); (119997, 120003); (120005, 120069);
   (120071, 120074); (120077, 120084); (120086, 120092); (120094, 120121); (120123, 120126); (120128, 120132);
   (120134, 120134); (120138, 120144); (120146, 120485); (120488, 120779); (120782, 121483); (121499, 121503);
   (121505, 121519); (122624, 122654); (122880, 122886); (122888, 122904); (122907, 122913); (122915, 122916);
   (122918, 122922); (123136, 123180); (123184, 123197); (123200, 123209); (123214, 123215); (123536, 123566);
   (123584, 123641); (123647, 123647); (124896, 124902); (124904, 124907); (124909, 124910); (124912, 124926);
   (124928, 125124); (125127, 125142); (125184, 125259); (125264, 125273); (125278, 125279); (126065, 126132);
   (126209, 126269); (126464, 126467); (126469, 126495); (126497, 126498); (126500, 126500); (126503, 126503);
   (126505, 126514); (126516, 126519); (126521, 126521); (126523, 126523); (126530, 126530); (126535, 126535);
   (126537, 126537); (126539, 126539); (126541, 126543); (126545, 126546); (126548, 126548); (126551, 126551);
   (126553, 126553); (126555, 126555); (126557, 126557); (126559, 126559); (126561, 126562); (126564, 126564);
   (126567, 126570); (126572, 126578); (126580, 126583); (126585, 126588); (126590, 126590); (126592, 126601);
   (126603, 126619); (126625, 126627); (126629, 126633); (126635, 126651); (126704, 126705); (126976, 127019);
   (127024, 127123); (127136, 127150); (127153, 127167); (127169, 127183); (127185, 127221); (127232, 127405);
   (127462, 127490); (127504, 127547); (127552, 127560); (127568, 127569); (127584, 127589); (127744, 128727);
   (128733, 128748); (128752, 128764); (128768, 128883); (128896, 128984); (128992, 129003); (129008, 129008);
   (129024, 129035); (129040, 129095); (129104, 129113); (129120, 129159); (129168, 129197); (129200, 129201);
   (129280, 129619); (129632, 129645); (129648, 129652); (129656, 129660); (129664, 129670); (129680, 129708);
   (129712, 129722); (129728, 129733); (129744, 129753); (129760, 129767); (129776, 129782); (129792, 129938);
   (129940, 129994); (130032, 130041); (131072, 173791); (173824, 177976); (177984, 178205); (178208, 183969);
   (183984, 191456); (194560, 195101); (196608, 201546); (917760, 917999)]%N.

Definition is_space (c : N) : bool := in_ranges whitespace c.

Definition is_case_ignorable (c : N) : bool := in_ranges case_ignorable c.

Definition is_cased (c : N) : bool := in_ranges cased c.

Definition is_printable (c : N) : bool := in_ranges printable c.

(** The value of a decimal digit of any script. *)
Definition to_decimal (c : N) : option N :=
  match find (fun zero => ((zero <=? c) && (c <=? zero + 9))%N) decimal_zeros with
  | Some zero => Some (c - zero)%N
  | None => None
  end.

Definition to_lower (c : N) : N :=
  match find (fun '(first, last, stride, _) =>
                ((first <=? c) && (c <=? last) && ((c - first) mod stride =? 0))%N)
             lowercase with
  | Some (first, _, _, image) => (image + (c - first))%N
  | None => c
  end.

End Unicode.

(** ** Python string primitives used by the loader and the renderer *)

Module PyStr.

Definition LF : ascii := "010"%char.
Definition CR : ascii := "013"%char.

(** A function on the characters, as a function on the [str].  A [string]
    that is not UTF-8 is no [str]; it is left as it is. *)
Definition on_text (f : list N -> list N) (s : string) : string :=
  match Utf8.decode s with
  | Some t => Utf8.encode (f t)
  | None => s
  end.

Fixpoint lstrip_text (t : list N) : list N :=
  match t with
  | [] => []
  | c :: t' => if Unicode.is_space c then lstrip_text t' else t
  end.

Fixpoint rstrip_text (t : list N) : list N :=
  match t with
  | [] => []
  | c :: t' =>
      match rstrip_text t' with
      | [] => if Unicode.is_space c then [] else [c]
      | u => c :: u
      end
  end.

Definition strip_text (t : list N) : list N := rstrip_text (lstrip_text t).

(** [s.strip()] *)
Definition strip (s : string) : string := on_text strip_text s.

(** The first character after the case-ignorable ones is cased. *)
Fixpoint cased_follows (t : list N) : bool :=
  match t with
  | [] => false
  | c :: t' => if Unicode.is_case_ignorable c then cased_follows t' else Unicode.is_cased c
  end.

(** [str.lower] on the character [c] followed by [rest]; [after_cased]
    tells whether the last character before [c] that is not case-ignorable
    is cased.  A capital sigma (U+03A3) after a cased letter and not before
    one is a final sigma; U+0130 becomes [i] and a combining dot. *)
Definition lower_char (after_cased : bool) (c : N) (rest : list N) : list N :=
  if (c =? 931)%N then
    [if after_cased && negb (cased_follows rest) then 962 else 963]%N
  else if (c =? 304)%N then [105; 775]%N
  else [Unicode.to_lower c].

Fixpoint lower_text (after_cased : bool) (t : list N) : list N :=
  match t with
  | [] => []
  | c :: t' =>
      (lower_char after_cased c t'
       ++ lower_text (if Unicode.is_case_ignorable c then after_cased
                      else Unicode.is_cased c) t')%list
  end.

(** [s.lower()] *)
Definition lower (s : string) : string := on_text (lower_text false) s.

(** [s.startswith(c)] for a one-character ASCII prefix. *)
Definition startswith (c : ascii) (s : string) : bool :=
  match s with
  | String c' _ => Ascii.eqb c' c
  | EmptyString => false
  end.

(** [c in s] for an ASCII character. *)
Fixpoint contains (c : ascii) (s : string) : bool :=
  match s with
  | EmptyString => false
  | String c' s' => Ascii.eqb c' c || contains c s'
  end.

(** [s.split(c, 1)] when [c in s]: the text before the first [c] and the
    text after it.  Without a [c] the whole string is the first part. *)
Fixpoint split1 (c : ascii) (s : string) : string * string :=
  match s with
  | EmptyString => (EmptyString, EmptyString)
  | String c' s' =>
      if Ascii.eqb c' c then (EmptyString, s')
      else let '(a, b) := split1 c s' in (String c' a, b)
  end.

(** Text-mode reading translates [\r\n] and a lone [\r] to [\n]. *)
Fixpoint universal_newlines (s : string) : string :=
  match s with
  | EmptyString => EmptyString
  | String c rest =>
      if Ascii.eqb c CR then
        String LF
          match rest with
          | String c' rest' =>
              if Ascii.eqb c' LF then universal_newlines rest'
              else universal_newlines rest
          | EmptyString => EmptyString
          end
      else String c (universal_newlines rest)
  end.

(** [for line in f]: the lines of the text, each with its terminating
    newline (the last one may lack it). *)
Fixpoint split_lines (s : string) : list string :=
  match s with
  | EmptyString => []
  | String c rest =>
      if Ascii.eqb c LF then String LF EmptyString :: split_lines rest
      else match split_lines rest with
           | [] => [String c EmptyString]
           | l :: ls => String c l :: ls
           end
  end.

Definition file_lines (content : string) : list string :=
  split_lines (universal_newlines content).

(** *** [repr] *)

Definition hex_digit (n : N) : N := (if n <? 10 then 48 + n else 87 + n)%N.

(** [n] in [width] lower-case hexadecimal digits. *)
Fixpoint hex (width : nat) (n : N) : list N :=
  match width with
  | O => []
  | S w => (hex w (n / 16) ++ [hex_digit (n mod 16)])%list
  end.

Definition repr_char (quote c : N) : list N :=
  (if (c =? quote) || (c =? 92) then [92; c]
   else if c =? 9 then [92; 116]
   else if c =? 10 then [92; 110]
   else if c =? 13 then [92; 114]
   else if (c <? 32) || (c =? 127) then 92 :: 120 :: hex 2 c
   else if c <? 127 then [c]
   else if Unicode.is_printable c then [c]
   else if c <? 256 then 92 :: 120 :: hex 2 c
   else if c <? 65536 then 92 :: 117 :: hex 4 c
   else 92 :: 85 :: hex 8 c)%N.

(** The text between quotes: single ones, unless it has a single quote
    and no double one. *)
Definition repr_text (t : list N) : list N :=
  let quote :=
    (if existsb (N.eqb 39) t && negb (existsb (N.eqb 34) t) then 34 else 39)%N in
  (quote :: flat_map (repr_char quote) t ++ [quote])%list.

(** [repr(s)] *)
Definition repr (s : string) : string := on_text repr_text s.

(** *** [int] *)

(** The interpreter's limit on the digits of a decimal text
    ([sys.get_int_max_str_digits()], 4300 unless configured). *)
Definition int_max_str_digits : N := 4300.

(** Whitespace for the parser of integer literals: TAB..CR and the space. *)
Definition is_c_space (c : N) : bool := ((9 <=? c) && (c <=? 13) || (c =? 32))%N.

(** What [int] reads in place of a character: a character below U+007F
    is itself, any other whitespace is a space, a decimal digit of any
    script is the ASCII digit, anything else is [?]. *)
Definition to_ascii (c : N) : N :=
  (if c <? 127 then c
   else if Unicode.is_space c then 32
   else match Unicode.to_decimal c with
        | Some d => 48 + d
        | None => 63
        end)%N.

Fixpoint skip_spaces (t : list N) : list N :=
  match t with
  | [] => []
  | c :: t' => if is_c_space c then skip_spaces t' else t
  end.

(** The digits at the head of [t], single underscores allowed between
    them: the value, the number of digits and the rest; [None] for two
    underscores in a row or an underscore at the end.  [acc] is the value
    read so far, [underscore] tells whether the previous character was an
    underscore. *)
Fixpoint scan_digits (underscore : bool) (acc : Z) (digits : N) (t : list N)
  : option (Z * N * list N) :=
  match t with
  | [] => if underscore then None else Some (acc, digits, [])
  | c :: t' =>
      if ((48 <=? c) && (c <=? 57))%N
      then scan_digits false (10 * acc + (Z.of_N c - 48)) (digits + 1)%N t'
      else if (c =? 95)%N
      then if underscore then None else scan_digits true acc digits t'
      else if underscore then None else Some (acc, digits, t)
  end.

Inductive int_outcome : Type :=
| IntValue (n : Z)
| IntInvalid
| IntTooLong (digits : N).

(** The literal: whitespace, one sign, the digits (not starting with an
    underscore), whitespace.  The limit on the digits is checked before
    what follows them. *)
Definition parse_int (t : list N) : int_outcome :=
  let t := skip_spaces (map to_ascii t) in
  let '(negative, t) :=
    match t with
    | c :: r => if (c =? 43)%N then (false, r)
                else if (c =? 45)%N then (true, r)
                else (false, t)
    | [] => (false, t)
    end in
  if match t with c :: _ => (c =? 95)%N | [] => false end then IntInvalid
  else
    match scan_digits false 0 0%N t with
    | None => IntInvalid
    | Some (n, digits, rest) =>
        if (int_max_str_digits <? digits)%N then IntTooLong digits
        else if (digits =? 0)%N then IntInvalid
        else match skip_spaces rest with
             | [] => IntValue (if negative then - n else n)
             | _ => IntInvalid
             end
    end.

Definition int_outcome_of (s : string) : int_outcome :=
  match Utf8.decode s with
  | Some t => parse_int t
  | None => IntInvalid
  end.

(** [int(s)] for a [str]: [None] stands for [ValueError]. *)
Definition int_of_str (s : string) : option Z :=
  match int_outcome_of s with
  | IntValue n => Some n
  | _ => None
  end.

(** The message of that [ValueError]; the literal is shown as the first
    200 characters of its [repr]. *)
Definition int_error (s : string) : string :=
  match int_outcome_of s with
  | IntTooLong digits =>
      "Exceeds the limit (" ++ NilEmpty.string_of_uint (N.to_uint int_max_str_digits)
      ++ " digits) for integer string conversion: value has "
      ++ NilEmpty.string_of_uint (N.to_uint digits)
      ++ " digits; use sys.set_int_max_str_digits() to increase the limit"
  | _ =>
      "invalid literal for int() with base 10: "
      ++ on_text (fun t => firstn 200 (repr_text t)) s
  end.

(** [int(s)] *)
Definition int (s : string) : except Z :=
  match int_of_str s with
  | Some n => OK n
  | None => Raise (ValueError (int_error s))
  end.

End PyStr.

(** [str(e)]: the text an f-string shows for a caught exception; for a
    [KeyError] it is the [repr] of the key.  Of a [UnicodeDecodeError] it is
    the start only: the message goes on with the bytes and their position
    in the reader's buffer.  [main] never shows it, the loader has run
    before. *)
Definition exn_str (e : exn) : string :=
  match e with
  | KeyError w => PyStr.repr w
  | ValueError w | TypeError w | MergeError w | DatabaseError w | OSError w => w
  | UnicodeDecodeError => "'utf-8' codec can't decode"
  end.

(** ** 4.1 Config loader (source lines 14-36) *)

(** The [config] dict of [load_config]: the most recent binding of a key
    is the first one found. *)
Definition dict := list (string * string).

Fixpoint dict_get (d : dict) (k : string) : option string :=
  match d with
  | [] => None
  | (k', v) :: d' => if String.eqb k' k then Some v else dict_get d' k
  end.

(** [config[k] = v] *)
Definition dict_set (d : dict) (k v : string) : dict := (k, v) :: d.

(** [config.get(k, default)] *)
Definition dict_get_default (d : dict) (k default : string) : string :=
  match dict_get d k with
  | Some v => v
  | None => default
  end.

Record Config := mkConfig {
  host : string;
  database : string;
  user : string;
  password : string;
  port : Z
}.

(** The test of line 23, on the stripped line. *)
Definition line_kept (line : string) : bool :=
  negb (String.eqb line "") && negb (PyStr.startswith "#" line)
  && PyStr.contains "=" line.

(** Lines 22-25: one iteration of the loop over the file. *)
Definition load_line (config : dict) (raw : string) : dict :=
  let line := PyStr.strip raw in
  if line_kept line then
    let '(key, value) := PyStr.split1 "=" line in
    dict_set config (PyStr.lower (PyStr.strip key)) (PyStr.strip value)
  else config.

(** Lines 16-25: [config_txt] is the content of [config.txt], its bytes,
    [None] when the file does not exist.  The file is opened as text in the
    locale's encoding, taken to be UTF-8; bytes that do not decode raise
    [UnicodeDecodeError] out of the loop. *)
Definition read_config (config_txt : option string) : except dict :=
  match config_txt with
  | Some content =>
      match Utf8.decode content with
      | Some _ => OK (fold_left load_line (PyStr.file_lines content) [])
      | None => Raise UnicodeDecodeError
      end
  | None => OK []
  end.

(** Line 33: [int(config.get('port', 5432))]. *)
Definition port_of (config : dict) : except Z :=
  match dict_get config "port" with
  | None => OK 5432
  | Some v => PyStr.int v
  end.

(** Lines 28-34. *)
Definition descriptor_of (config : dict) : except Config :=
  p <- port_of config ;;
  OK {| host := dict_get_default config "host" "localhost";
        database := dict_get_default config "database" "your_database";
        user := dict_get_default config "user" "your_username";
        password := dict_get_default config "password" "your_password";
        port := p |}.

Definition load_config (config_txt : option string) : except Config :=
  config <- read_config config_txt ;;
  descriptor_of config.

(** ** Result tables (pandas [DataFrame]) *)

Inductive value : Type :=
| VNum (n : Z)
| VStr (s : string)
| VNaN.

(** The two kinds of column [select_dtypes(include=['number'])] tells
    apart: numeric ([int64], [float64]) and [object]. *)
Inductive dtype : Type := Number | Object.

(** A row maps column names to values; a column without an entry holds
    a missing value. *)
Definition row := list (string * value).

Record DataFrame := mkDF {
  columns : list (string * dtype);
  rows : list row
}.

Fixpoint lookup {A : Type} (l : list (string * A)) (c : string) : option A :=
  match l with
  | [] => None
  | (c', v) :: l' => if String.eqb c' c then Some v else lookup l' c
  end.

Definition cell (r : row) (c : string) : value :=
  match lookup r c with
  | Some v => v
  | None => VNaN
  end.

Definition names (df : DataFrame) : list string := map fst (columns df).

Definition mem (c : string) (l : list string) : bool := existsb (String.eqb c) l.

Definition has_column (c : string) (df : DataFrame) : bool := mem c (names df).

(** [pd.DataFrame()] *)
Definition empty_frame : DataFrame := mkDF [] [].

(** [df.empty]: some axis has length 0. *)
Definition empty (df : DataFrame) : bool :=
  match columns df, rows df with
  | [], _ | _, [] => true
  | _, _ => false
  end.

(** [len(df)] *)
Definition len (df : DataFrame) : nat := List.length (rows df).

Definition is_number (t : dtype) : bool :=
  match t with Number => true | Object => false end.

Definition dtype_eqb (a b : dtype) : bool :=
  match a, b with
  | Number, Number | Object, Object => true
  | _, _ => false
  end.

Definition is_nan (v : value) : bool :=
  match v with VNaN => true | _ => false end.

Definition is_num (v : value) : bool :=
  match v with VNum _ => true | _ => false end.

Definition is_str (v : value) : bool :=
  match v with VStr _ => true | _ => false end.

(** Equality of join keys; missing keys match each other, as in pandas. *)
Definition value_eqb (a b : value) : bool :=
  match a, b with
  | VNum x, VNum y => x =? y
  | VStr s, VStr t => String.eqb s t
  | VNaN, VNaN => true
  | _, _ => false
  end.

(** Ascending order of one column's values, missing values last.  Numbers
    and strings never meet in one column that is compared (the callers
    raise first); the order between them only makes the function total. *)
Definition value_leb (a b : value) : bool :=
  match a, b with
  | _, VNaN => true
  | VNaN, _ => false
  | VNum x, VNum y => x <=? y
  | VStr s, VStr t => String.leb s t
  | VNum _, VStr _ => true
  | VStr _, VNum _ => false
  end.

(** Descending order, missing values still last ([na_position='last']). *)
Definition value_geb_na_last (a b : value) : bool :=
  match a, b with
  | _, VNaN => true
  | VNaN, _ => false
  | _, _ => value_leb b a
  end.

(** A stable sort, the model of the library sorts: rows with equal keys
    keep their order.  (No property below depends on the order of ties.) *)
Section StableSort.
Context {A : Type} (leb : A -> A -> bool).

Fixpoint insert_sorted (x : A) (l : list A) : list A :=
  match l with
  | [] => [x]
  | y :: l' => if leb x y then x :: l else y :: insert_sorted x l'
  end.

Definition stable_sort (l : list A) : list A := fold_right insert_sorted [] l.
End StableSort.

(** *** [pd.merge(left, right, on=key, how='outer')] *)

Section Merge.
Variable on : string.
Variables left right : DataFrame.

(** A column other than the key that both frames have gets a suffix. *)
Definition overlapping (c : string) : bool :=
  negb (String.eqb c on) && mem c (names left) && mem c (names right).

Definition suffixed (sfx c : string) : string :=
  if overlapping c then c ++ sfx else c.

(** The right frame's columns, the key apart. *)
Definition others : list (string * dtype) :=
  filter (fun ct => negb (String.eqb (fst ct) on)) (columns right).

Definition merged_columns : list (string * dtype) :=
  (map (fun ct => (suffixed "_x" (fst ct), snd ct)) (columns left)
   ++ map (fun ct => (suffixed "_y" (fst ct), snd ct)) others)%list.

(** One output row, from the cells of each side. *)
Definition join_row (lcell rcell : string -> value) : row :=
  (map (fun ct => (suffixed "_x" (fst ct), lcell (fst ct))) (columns left)
   ++ map (fun ct => (suffixed "_y" (fst ct), rcell (fst ct))) others)%list.

Definition matches (k : value) (rs : list row) : list row :=
  filter (fun r => value_eqb (cell r on) k) rs.

(** Rows of the left frame, each with its matches on the right, or with
    missing values on the right when it has none. *)
Definition left_rows : list row :=
  flat_map
    (fun l =>
       match matches (cell l on) (rows right) with
       | [] => [join_row (cell l) (fun _ => VNaN)]
       | ms => map (fun r => join_row (cell l) (cell r)) ms
       end)
    (rows left).

(** Rows of the right frame whose key the left frame lacks: the key
    comes from the right, the other left columns are missing. *)
Definition right_only_rows : list row :=
  map (fun r =>
         join_row (fun c => if String.eqb c on then cell r on else VNaN) (cell r))
      (filter (fun r => match matches (cell r on) (rows left) with
                        | [] => true
                        | _ => false
                        end)
              (rows right)).

Fixpoint has_dup (l : list string) : bool :=
  match l with
  | [] => false
  | c :: l' => mem c l' || has_dup l'
  end.

(** The outer join sorts the rows by key, as documented for
    [how='outer'].  It raises when a frame lacks the key column, when one
    key column is numeric and the other is not, and when the suffixes
    leave two columns with one name (pandas 2).  A number is kept as it
    is: that is exact up to 2^53 in magnitude, past which an [int64] column
    that the join turns into [float64] (it has an unmatched row) rounds. *)
Definition pd_merge_outer : except DataFrame :=
  match lookup (columns left) on, lookup (columns right) on with
  | Some tl, Some tr =>
      if negb (dtype_eqb tl tr) then
        Raise (ValueError "You are trying to merge on columns of different types")
      else if has_dup (map fst merged_columns) then
        Raise (MergeError "Passing 'suffixes' which cause duplicate columns is not allowed")
      else
        OK {| columns := merged_columns;
              rows := stable_sort
                        (fun r1 r2 => value_leb (cell r1 on) (cell r2 on))
                        (left_rows ++ right_only_rows)%list |}
  | _, _ => Raise (KeyError on)
  end.
End Merge.

(** *** [fillna] *)

(** [df[cols].fillna(v)] written back, for the columns whose dtype
    satisfies [p]. *)
Definition fillna_where (p : dtype -> bool) (v : value) (df : DataFrame) : DataFrame :=
  {| columns := columns df;
     rows := map (fun r =>
                    map (fun ct =>
                           (fst ct,
                            match cell r (fst ct) with
                            | VNaN => if p (snd ct) then v else VNaN
                            | x => x
                            end))
                        (columns df))
                 (rows df) |}.

(** [df.fillna(v)] *)
Definition fillna (v : value) (df : DataFrame) : DataFrame :=
  fillna_where (fun _ => true) v df.

(** ** 4.4 Result merger (source lines 113-132) *)

Definition dossier : string := "dossier".

(** Lines 122-123: the loop over [dataframes[1:]]. *)
Fixpoint merge_loop (result : DataFrame) (rest : list DataFrame) : except DataFrame :=
  match rest with
  | [] => OK result
  | df :: rest' =>
      merged <- pd_merge_outer dossier result df ;;
      merge_loop merged rest'
  end.

Definition merge_dataframes (dataframes : list DataFrame) : except DataFrame :=
  match dataframes with
  | [] => OK empty_frame
  | first :: rest =>
      result <- merge_loop first rest ;;
      let result := fillna_where is_number (VNum 0) result in
      OK (fillna (VStr "") result)
  end.

(** *** [df.sort_values(by, ascending=..., na_position='last')] *)

Definition sort_values (by_ : string) (ascending : bool) (df : DataFrame) : except DataFrame :=
  if negb (has_column by_ df) then Raise (KeyError by_)
  else
    let vals := map (fun r => cell r by_) (rows df) in
    if existsb is_num vals && existsb is_str vals then
      Raise (TypeError "'<' not supported between instances of 'str' and 'int'")
    else
      let leb := if ascending then value_leb else value_geb_na_last in
      OK {| columns := columns df;
            rows := stable_sort (fun r1 r2 => leb (cell r1 by_) (cell r2 by_)) (rows df) |}.

(** Lines 372-373 of [main]. *)
Definition final_table (dataframes : list DataFrame) : except DataFrame :=
  final_df <- merge_dataframes dataframes ;;
  sort_values "nb_pieces_a_traiter" false final_df.

(** ** 4.2 Query catalog (source lines 39-92) *)

Definition sql_pieces_exportees : string := "
        SELECT eec.dossier, COUNT(DISTINCT piece) as nb_pieces_exportees
        FROM ediflux_cerfrancecantal.edi_ecriture_comptable eec
        INNER JOIN ediflux_cerfrancecantal.edi_ecriture_export eee ON eee.ecriture_fk = eec.id
        GROUP BY eec.dossier
        ORDER BY eec.dossier;
    ".

Definition sql_ecritures_exportees : string := "
        SELECT eec.dossier, COUNT(DISTINCT eec.id) as nb_ecritures_exportees
        FROM ediflux_cerfrancecantal.edi_ecriture_comptable eec
        INNER JOIN ediflux_cerfrancecantal.edi_ecriture_export eee ON eee.ecriture_fk = eec.id
        GROUP BY eec.dossier
        ORDER BY eec.dossier;
    ".

Definition sql_pieces_non_exportees : string := "
        SELECT eec.dossier, COUNT(DISTINCT piece) as nb_pieces_a_traiter
        FROM ediflux_cerfrancecantal.edi_ecriture_comptable eec
        WHERE eec.id NOT IN (SELECT ecriture_fk FROM ediflux_cerfrancecantal.edi_ecriture_export eee)
        GROUP BY eec.dossier
        ORDER BY nb_pieces_a_traiter DESC;
    ".

Definition sql_ecritures_non_exportees : string := "
        SELECT eec.dossier, COUNT(DISTINCT eec.id) as nb_ecritures_a_traiter
        FROM ediflux_cerfrancecantal.edi_ecriture_comptable eec
        WHERE eec.id NOT IN (SELECT ecriture_fk FROM ediflux_cerfrancecantal.edi_ecriture_export eee)
        GROUP BY eec.dossier
        ORDER BY nb_ecritures_a_traiter DESC;
    ".

Definition sql_comptes_attente : string := "
        SELECT eec.dossier, COUNT(DISTINCT eec.id) as nb_comptes_attente
        FROM ediflux_cerfrancecantal.edi_ecriture_comptable eec
        WHERE eec.id NOT IN (SELECT ecriture_fk FROM ediflux_cerfrancecantal.edi_ecriture_export eee)
        AND eec.code_comptable LIKE '47%'
        GROUP BY eec.dossier
        ORDER BY nb_comptes_attente DESC;
    ".

Definition sql_dates_extremes : string := "
        SELECT 
            eec.dossier, 
            TO_CHAR(MIN(eec.date), 'DD-MM-YYYY') as date_min_a_traiter,
            TO_CHAR(MAX(eec.date), 'DD-MM-YYYY') as date_max_a_traiter
        FROM ediflux_cerfrancecantal.edi_ecriture_comptable eec
        WHERE eec.id NOT IN (SELECT ecriture_fk FROM ediflux_cerfrancecantal.edi_ecriture_export eee)
        AND eec.code_comptable LIKE '47%'
        GROUP BY eec.dossier
        ORDER BY eec.dossier;
    ".

Definition QUERIES : list (string * string) :=
  [("pieces_exportees", sql_pieces_exportees);
   ("ecritures_exportees", sql_ecritures_exportees);
   ("pieces_non_exportees", sql_pieces_non_exportees);
   ("ecritures_non_exportees", sql_ecritures_non_exportees);
   ("comptes_attente", sql_comptes_attente);
   ("dates_extremes", sql_dates_extremes)].

(** ** 4.5 Report renderer (source lines 134-337) *)

(** [int(x)] for a cell.  The missing cell is read as [NaN]; [int(None)]
    raises [TypeError] instead. *)
Definition py_int (v : value) : except Z :=
  match v with
  | VNum n => OK n
  | VStr s => PyStr.int s
  | VNaN => Raise (ValueError "cannot convert float NaN to integer")
  end.

(** [row.get(c, default)] for a row of [df.iterrows()]. *)
Definition row_get (df : DataFrame) (r : row) (c : string) (default : value) : value :=
  if has_column c df then cell r c else default.

(** [row[c]] *)
Definition row_item (df : DataFrame) (r : row) (c : string) : except value :=
  if has_column c df then OK (cell r c) else Raise (KeyError c).

(** Line 297. *)
Definition pieces_class (pieces_a_traiter : Z) : string :=
  if pieces_a_traiter >? 50 then "warning"
  else if pieces_a_traiter =? 0 then "good" else "".

(** Line 298. *)
Definition comptes_class (comptes_attente : Z) : string :=
  if comptes_attente >? 10 then "warning"
  else if comptes_attente =? 0 then "good" else "".

(** One [<tr>] of the table: the text of each cell and the severity class
    of the two classified cells. *)
Record TableRow := mkTableRow {
  td_dossier : value;
  td_pieces_exportees : Z;
  td_ecritures_exportees : Z;
  td_pieces_a_traiter : Z;
  td_pieces_class : string;
  td_ecritures_a_traiter : Z;
  td_comptes_attente : Z;
  td_comptes_class : string;
  td_date_min : value;
  td_date_max : value
}.

(** The document: the template's text is fixed, these are its holes. *)
Record Report := mkReport {
  updated : string;
  card_dossiers : nat;
  card_pieces_a_traiter : Z;
  card_ecritures_a_traiter : Z;
  card_comptes_attente : Z;
  table : list TableRow
}.

(** [df[col].sum()]: missing values are skipped.  The sum is the one of
    the integers: exact while the magnitudes add up to 2^53 at most, past
    which an [int64] sum may wrap and a [float64] one round. *)
Definition column_sum (df : DataFrame) (c : string) : Z :=
  fold_right (fun r acc => match cell r c with VNum n => n + acc | _ => acc end)
             0 (rows df).

(** Lines 138-140 and [totals.get(c, 0)]. *)
Definition totals_get (df : DataFrame) (c : string) : Z :=
  match lookup (columns df) c with
  | Some Number => column_sum df c
  | _ => 0
  end.

(** Lines 292-311: one iteration of the loop over the rows. *)
Definition render_row (df : DataFrame) (r : row) : except TableRow :=
  pieces_a_traiter <- py_int (row_get df r "nb_pieces_a_traiter" (VNum 0)) ;;
  comptes_attente <- py_int (row_get df r "nb_comptes_attente" (VNum 0)) ;;
  d <- row_item df r "dossier" ;;
  pieces_exportees <- py_int (row_get df r "nb_pieces_exportees" (VNum 0)) ;;
  ecritures_exportees <- py_int (row_get df r "nb_ecritures_exportees" (VNum 0)) ;;
  ecritures_a_traiter <- py_int (row_get df r "nb_ecritures_a_traiter" (VNum 0)) ;;
  OK {| td_dossier := d;
        td_pieces_exportees := pieces_exportees;
        td_ecritures_exportees := ecritures_exportees;
        td_pieces_a_traiter := pieces_a_traiter;
        td_pieces_class := pieces_class pieces_a_traiter;
        td_ecritures_a_traiter := ecritures_a_traiter;
        td_comptes_attente := comptes_attente;
        td_comptes_class := comptes_class comptes_attente;
        td_date_min := row_get df r "date_min_a_traiter" (VStr "");
        td_date_max := row_get df r "date_max_a_traiter" (VStr "") |}.

Fixpoint render_rows (df : DataFrame) (rs : list row) : except (list TableRow) :=
  match rs with
  | [] => OK []
  | r :: rs' =>
      tr <- render_row df r ;;
      trs <- render_rows df rs' ;;
      OK (tr :: trs)
  end.

(** Lines 137-331: the content of the document. *)
Definition html_content (now : string) (df : DataFrame) : except Report :=
  trs <- render_rows df (rows df) ;;
  OK {| updated := now;
        card_dossiers := len df;
        card_pieces_a_traiter := totals_get df "nb_pieces_a_traiter";
        card_ecritures_a_traiter := totals_get df "nb_ecritures_a_traiter";
        card_comptes_attente := totals_get df "nb_comptes_attente";
        table := trs |}.

(** ** The outside world and the events of a run *)

Record World := mkWorld {
  (** the bytes of [config.txt], [None] when the file is absent *)
  config_txt : option string;
  (** [date.today().strftime('%Y%m%d')] *)
  today : string;
  (** [datetime.now().strftime(...)] *)
  now : string;
  (** [psycopg2.connect] with the descriptor: the error text when it raises *)
  connect : Config -> option string;
  (** [pd.read_sql_query(query, conn)]: the error text, or the table *)
  read_sql_query : string -> string + DataFrame;
  (** opening and writing the output file: the error text when it raises *)
  write_file : string -> option string
}.

Inductive event : Type :=
| Print (text : string)
| Input (prompt : string)
| Connect (cfg : Config)
| ReadSql (query : string)
| OpenFile (path : string)
| WriteFile (path : string) (content : Report)
| OpenBrowser (path : string)
| CloseConnection.

Definition str_nat (n : nat) : string := NilEmpty.string_of_uint (Nat.to_uint n).

Definition press_enter : string := "
✋ Appuyez sur Entrée pour fermer...".

Definition rule : string :=
  "==================================================".

(** ** 4.3 Query executor (source lines 94-111) *)

(** [connect_database]: the events, and whether a connection came back. *)
Definition connect_database (w : World) (db_config : Config) : list event * bool :=
  match connect w db_config with
  | None => ([Connect db_config], true)
  | Some e =>
      ([Connect db_config;
        Print ("❌ Erreur de connexion à la base de données: " ++ e)], false)
  end.

Definition execute_query (w : World) (query_name query : string) : list event * DataFrame :=
  match read_sql_query w query with
  | inr df =>
      ([ReadSql query;
        Print ("✅ " ++ query_name ++ ": " ++ str_nat (len df) ++ " lignes récupérées")],
       df)
  | inl e =>
      ([ReadSql query;
        Print ("❌ Erreur lors de l'exécution de " ++ query_name ++ ": " ++ e)],
       empty_frame)
  end.

(** Lines 333-337 after the content is built.  [OpenFile] is the call
    [open(output_file, 'w')], which creates the file or empties it unless it
    raises itself; [WriteFile] is the whole document written and the file
    closed. *)
Definition generate_html_report (w : World) (df : DataFrame) (output_file : string)
  : list event * except unit :=
  match html_content (now w) df with
  | Raise e => ([], Raise e)
  | OK doc =>
      match write_file w output_file with
      | Some e => ([OpenFile output_file], Raise (OSError e))
      | None =>
          ([OpenFile output_file;
            WriteFile output_file doc;
            Print ("✅ Rapport HTML généré: " ++ output_file)], OK tt)
      end
  end.

(** ** 4.6 Orchestrator (source lines 339-400) *)

(** Lines 364-368: the loop over [QUERIES.items()]. *)
Fixpoint run_queries (w : World) (queries : list (string * string))
         (dataframes : list DataFrame) : list event * list DataFrame :=
  match queries with
  | [] => ([], dataframes)
  | (query_name, query) :: queries' =>
      let '(ev, df) := execute_query w query_name query in
      let dataframes := if empty df then dataframes else (dataframes ++ [df])%list in
      let '(evs, dataframes) := run_queries w queries' dataframes in
      ((ev ++ evs)%list, dataframes)
  end.

(** Lines 371-390: what follows the loop inside the [try]. *)
Definition report_step (w : World) (dataframes : list DataFrame) : list event * except unit :=
  match dataframes with
  | [] => ([Print "❌ Aucune donnée récupérée"; Input press_enter], OK tt)
  | _ :: _ =>
      match final_table dataframes with
      | Raise e => ([], Raise e)
      | OK final_df =>
          let output_file := "kpi_dashboard_" ++ today w ++ ".html" in
          match generate_html_report w final_df output_file with
          | (ev, Raise e) => (ev, Raise e)
          | (ev, OK _) =>
              ((ev ++
                [Print rule;
                 Print "✅ Tableau de bord généré avec succès!";
                 Print ("📁 Fichier: " ++ output_file);
                 Print "🌐 Le fichier va s'ouvrir automatiquement...";
                 OpenBrowser output_file])%list, OK tt)
          end
      end
  end.

Definition main (w : World) (DB_CONFIG : Config) : list event :=
  ([Print "🚀 Génération du tableau de bord KPI..."; Print rule] ++
   match config_txt w with
   | None =>
       [Print "❌ Fichier config.txt introuvable!";
        Print "📝 Créez un fichier config.txt avec vos paramètres de base de données:";
        Print "HOST=votre_serveur";
        Print "DATABASE=votre_base";
        Print "USER=votre_utilisateur";
        Print "PASSWORD=votre_mot_de_passe";
        Print "PORT=5432";
        Input press_enter]
   | Some _ =>
       let '(evc, conn) := connect_database w DB_CONFIG in
       evc ++
       if negb conn then [Input press_enter]
       else
         let '(evq, dataframes) := run_queries w QUERIES [] in
         let '(evr, r) := report_step w dataframes in
         evq ++ evr ++
         match r with
         | Raise e =>
             [Print ("❌ Erreur lors de la génération: " ++ exn_str e);
              Input press_enter]
         | OK _ => []
         end ++
         [CloseConnection;
          Print "
🎉 Terminé! Le tableau de bord s'ouvre dans votre navigateur.";
          Input "✋ Appuyez sur Entrée pour fermer..."]
   end)%list.

(** Running the script: line 36 executes [load_config] when the module is
    loaded, before [main] is called; an exception there is not caught. *)
Definition run (w : World) : list event * option exn :=
  match load_config (config_txt w) with
  | Raise e => ([], Some e)
  | OK DB_CONFIG => (main w DB_CONFIG, None)
  end.

(** ** The loader, in the words of its description

    A second reading of lines 21-25, to compare [read_config] with: a line
    binds a key unless it is blank, a comment or has no [=]; the binding a
    key ends up with is the one of the last line that binds it. *)

Definition spec_skipped (line : string) : bool :=
  String.eqb line "" || PyStr.startswith "#" line || negb (PyStr.contains "=" line).

Definition spec_binding (raw : string) : option (string * string) :=
  let line := PyStr.strip raw in
  if spec_skipped line then None
  else let '(key, value) := PyStr.split1 "=" line in
       Some (PyStr.lower (PyStr.strip key), PyStr.strip value).

Fixpoint spec_lookup (lines : list string) (k : string) : option string :=
  match lines with
  | [] => None
  | raw :: rest =>
      match spec_lookup rest k with
      | Some v => Some v
      | None =>
          match spec_binding raw with
          | Some (k', v) => if String.eqb k' k then Some v else None
          | None => None
          end
      end
  end.

Definition with_default (o : option string) (default : string) : string :=
  match o with Some v => v | None => default end.

(** The port binding, when there is one, reads as an integer. *)
Definition port_is_int (lines : list string) : bool :=
  match spec_lookup lines "port" with
  | Some v => match PyStr.int_of_str v with Some _ => true | None => false end
  | None => true
  end.

Definition spec_port (lines : list string) : Z :=
  match spec_lookup lines "port" with
  | Some v => match PyStr.int_of_str v with Some n => n | None => 5432 end
  | None => 5432
  end.

(** ** Vocabulary of the statements *)

(** The values of one column, in row order. *)
Definition column_values (c : string) (df : DataFrame) : list value :=
  map (fun r => cell r c) (rows df).

(** [a] may come before [b] in a column sorted in non-increasing order
    with the missing values last. *)
Definition precedes_desc (a b : value) : Prop :=
  match a, b with
  | _, VNaN => True
  | VNaN, _ => False
  | VNum x, VNum y => y <= x
  | VStr s, VStr t => String.leb t s = true
  | _, _ => False
  end.

(** The dossier values of a table, in row order. *)
Definition key_values (df : DataFrame) : list value := column_values dossier df.

(** A table keyed by [dossier]: it has the column and every row has a
    value in it. *)
Definition keyed (df : DataFrame) : bool :=
  has_column dossier df && forallb (fun v => negb (is_nan v)) (key_values df).

(** The key of every row is a non-empty value. *)
Definition keys_not_blank (df : DataFrame) : bool :=
  forallb (fun v => negb (value_eqb v (VStr ""))) (key_values df).

(** Column names of a table, the key apart. *)
Definition other_names (df : DataFrame) : list string :=
  filter (fun c => negb (String.eqb c dossier)) (names df).

(** Tables that merge without an exception: the key columns have one
    dtype and no two columns other than the key share a name. *)
Definition compatible (dataframes : list DataFrame) : bool :=
  match dataframes with
  | [] => true
  | first :: rest =>
      match lookup (columns first) dossier with
      | Some t =>
          forallb (fun df => match lookup (columns df) dossier with
                             | Some t' => dtype_eqb t t'
                             | None => false
                             end) rest
          && negb (has_dup (names first ++ flat_map other_names rest))
      | None => match rest with [] => true | _ => false end
      end
  end.

(** What the two [fillna] calls leave in a cell of a column of dtype [t]. *)
Definition filled (t : dtype) (v : value) : value :=
  match v with
  | VNaN => if is_number t then VNum 0 else VStr ""
  | x => x
  end.

(** A character of a text: a code point that is no surrogate. *)
Definition scalar (c : N) : bool :=
  ((c <? 55296) || (57344 <=? c) && (c <? 1114112))%N.

(** The bytes are the encoding of a text. *)
Definition is_text (s : string) : bool :=
  match Utf8.decode s with
  | Some _ => true
  | None => false
  end.

(** Whitespace at the ends of a text. *)
Definition all_space (t : list N) : bool := forallb Unicode.is_space t.

Definition starts_with_space (t : list N) : bool :=
  match t with
  | c :: _ => Unicode.is_space c
  | [] => false
  end.

Fixpoint ends_with_space (t : list N) : bool :=
  match t with
  | [] => false
  | [c] => Unicode.is_space c
  | _ :: t' => ends_with_space t'
  end.

(** ** Observations on a trace *)

(** The SQL texts sent to the database, in order. *)
Definition sql_issued (trace : list event) : list string :=
  flat_map (fun e => match e with ReadSql q => [q] | _ => [] end) trace.

(** The files written, with their content. *)
Definition files_written (trace : list event) : list (string * Report) :=
  flat_map (fun e => match e with WriteFile p d => [(p, d)] | _ => [] end) trace.

(** The files opened for writing. *)
Definition files_opened (trace : list event) : list string :=
  flat_map (fun e => match e with OpenFile p => [p] | _ => [] end) trace.

(** The pages handed to the browser. *)
Definition pages_opened (trace : list event) : list string :=
  flat_map (fun e => match e with OpenBrowser p => [p] | _ => [] end) trace.

(** How many times the connection was closed. *)
Definition closings (trace : list event) : nat :=
  List.length (filter (fun e => match e with CloseConnection => true | _ => false end)
                      trace).

(** The connections attempted. *)
Definition connections (trace : list event) : list Config :=
  flat_map (fun e => match e with Connect c => [c] | _ => [] end) trace.

(** Line 376: the name of the report. *)
Definition output_path (w : World) : string :=
  "kpi_dashboard_" ++ today w ++ ".html".

(** The results that are tables with at least one row and one column,
    in the order of the catalog. *)
Definition kept_tables (w : World) (queries : list (string * string)) : list DataFrame :=
  flat_map (fun nq => match read_sql_query w (snd nq) with
                      | inr df => if empty df then [] else [df]
                      | inl _ => []
                      end)
           queries.

(** What a run prints first, and what it ends with once connected. *)
Definition opening : list event :=
  [Print "🚀 Génération du tableau de bord KPI..."; Print rule].

Definition closing : list event :=
  [CloseConnection;
   Print "
🎉 Terminé! Le tableau de bord s'ouvre dans votre navigateur.";
   Input "✋ Appuyez sur Entrée pour fermer..."].

(** The configuration loads and the database accepts the connection. *)
Definition connected (w : World) (cfg : Config) : Prop :=
  exists content,
    config_txt w = Some content /\
    load_config (Some content) = OK cfg /\
    connect w cfg = None.

(** The document the [try] block of [main] ends up writing, or the
    exception that stops it: merge, sort, render, write. *)
Definition report_of (w : World) (dataframes : list DataFrame) : except Report :=
  final_df <- final_table dataframes ;;
  doc <- html_content (now w) final_df ;;
  match write_file w (output_path w) with
  | Some e => Raise (OSError e)
  | None => OK doc
  end.

(** The document the [try] block builds before it opens the file. *)
Definition document_of (w : World) (dataframes : list DataFrame) : except Report :=
  final_df <- final_table dataframes ;;
  html_content (now w) final_df.

(** The output file is opened once the document is built. *)
Definition opened_for (w : World) (dataframes : list DataFrame) : list event :=
  match document_of w dataframes with
  | OK _ => [OpenFile (output_path w)]
  | Raise _ => []
  end.

(** The events of a report that is written. *)
Definition success_events (w : World) (doc : Report) : list event :=
  [OpenFile (output_path w);
   WriteFile (output_path w) doc;
   Print ("✅ Rapport HTML généré: " ++ output_path w);
   Print rule;
   Print "✅ Tableau de bord généré avec succès!";
   Print ("📁 Fichier: " ++ output_path w);
   Print "🌐 Le fichier va s'ouvrir automatiquement...";
   OpenBrowser (output_path w)].

(** The events of an exception caught by [main]. *)
Definition failure_events (e : exn) : list event :=
  [Print ("❌ Erreur lors de la génération: " ++ exn_str e); Input press_enter].

(** ** Well-formed query results *)

(** The columns the renderer reads with [int(...)]. *)
Definition count_columns : list string :=
  ["nb_pieces_a_traiter"; "nb_comptes_attente"; "nb_pieces_exportees";
   "nb_ecritures_exportees"; "nb_ecritures_a_traiter"].

(** No cell of a numeric column holds text. *)
Definition numeric_cells (df : DataFrame) : bool :=
  forallb (fun r =>
             forallb (fun ct => negb (is_number (snd ct))
                                || negb (is_str (cell r (fst ct))))
                     (columns df))
          (rows df).

(** The count columns a table has are numeric. *)
Definition counts_are_numbers (df : DataFrame) : bool :=
  forallb (fun c => match lookup (columns df) c with
                    | Some Object => false
                    | _ => true
                    end)
          count_columns.

(** The Prop reading of [numeric_cells]. *)
Definition numeric_ok (df : DataFrame) : Prop :=
  forall r c, In r (rows df) -> lookup (columns df) c = Some Number ->
              is_str (cell r c) = false.


(** A table the renderer accepts: it has the dossier column and every
    count column it has holds numbers. *)
Definition render_safe (df : DataFrame) : Prop :=
  has_column dossier df = true /\
  forall r c, In r (rows df) -> In c count_columns ->
              has_column c df = true -> is_num (cell r c) = true.

(** The columns each query of the catalog returns, read off its [SELECT]
    list: the dossier, of the dtype [key_dtype] the driver gives it, then
    the counts, or the two formatted dates. *)
Definition result_schema (key_dtype : dtype) : list (string * list (string * dtype)) :=
  [(sql_pieces_exportees,
    [("dossier", key_dtype); ("nb_pieces_exportees", Number)]);
   (sql_ecritures_exportees,
    [("dossier", key_dtype); ("nb_ecritures_exportees", Number)]);
   (sql_pieces_non_exportees,
    [("dossier", key_dtype); ("nb_pieces_a_traiter", Number)]);
   (sql_ecritures_non_exportees,
    [("dossier", key_dtype); ("nb_ecritures_a_traiter", Number)]);
   (sql_comptes_attente,
    [("dossier", key_dtype); ("nb_comptes_attente", Number)]);
   (sql_dates_extremes,
    [("dossier", key_dtype); ("date_min_a_traiter", Object);
     ("date_max_a_traiter", Object)])].

(** Every table the database returns for a query of the catalog has that
    query's columns, and no text in its numeric columns. *)
Definition conforming (w : World) (key_dtype : dtype) : Prop :=
  forall q df,
    read_sql_query w q = inr df ->
    match lookup (result_schema key_dtype) q with
    | Some cols => columns df = cols /\ numeric_cells df = true
    | None => True
    end.

(** The columns, the key apart, a query contributes to the merge. *)
Definition schema_others (key_dtype : dtype) (nq : string * string) : list string :=
  match lookup (result_schema key_dtype) (snd nq) with
  | Some cols => filter (fun c => negb (String.eqb c dossier)) (map fst cols)
  | None => []
  end.

(** The sum of one cell over the rows of the document. *)
Definition sum_cells (f : TableRow -> Z) (trs : list TableRow) : Z :=
  fold_right (fun tr acc => f tr + acc) 0 trs.

(** The integers a [float64] holds exactly are those up to 2^53 in
    magnitude; the outer join turns an [int64] column with an unmatched
    row into [float64]. *)
Definition exact_number (v : value) : bool :=
  match v with
  | VNum n => Z.abs n <=? 2 ^ 53
  | _ => true
  end.

Definition exact_cells (df : DataFrame) : bool :=
  forallb (fun r => forallb (fun c => exact_number (cell r c)) (names df)) (rows df).

(** The magnitudes of the numbers of a column, added up. *)
Definition sum_abs (df : DataFrame) (c : string) : Z :=
  fold_right (fun r acc => match cell r c with VNum n => Z.abs n + acc | _ => acc end)
             0 (rows df).

(** The sums of the count columns are exact, as [int64] and as [float64]:
    the magnitudes add up to 2^53 at most. *)
Definition exact_sums (df : DataFrame) : bool :=
  forallb (fun c => sum_abs df c <=? 2 ^ 53) count_columns.

(** [str.lower] leaves the character as it is. *)
Definition lower_fixed (c : N) : bool :=
  ((Unicode.to_lower c =? c) && negb (c =? 931) && negb (c =? 304))%N.

(** A lower-case text. *)
Definition is_lower (t : list N) : bool := forallb lower_fixed t.

(** The characters a run of the lower-case table maps to. *)
Definition run_images (run : N * N * N * N) : list N :=
  let '(first, last, stride, image) := run in
  map (fun k => (image + N.of_nat k * stride)%N)
      (seq 0 (S (N.to_nat ((last - first) / stride)))).

(** What holds of a lower-cased character: it is a character, [str.lower]
    leaves it as it is, and it is no whitespace. *)
Definition lowered_ok (c : N) : bool :=
  lower_fixed c && scalar c && negb (Unicode.is_space c).

(** The characters of an ASCII [str]. *)
Definition codes (s : string) : list N := map N_of_ascii (list_ascii_of_string s).

Definition is_ascii (s : string) : bool :=
  forallb (fun c => (N_of_ascii c <? 128)%N) (list_ascii_of_string s).

(** The descriptor of the defaults with another port. *)
Definition defaults_with_port (p : Z) : Config :=
  {| host := "localhost"; database := "your_database";
     user := "your_username"; password := "your_password"; port := p |}.

(** ** Concrete inputs *)

Definition config_sample : string :=
  "# database
HOST = db.example
Port= 54_32

junk
user=a=b".

Definition world_without_config : World :=
  {| config_txt := None;
     today := "20240101";
     now := "01/01/2024 à 08:00";
     connect := fun _ => None;
     read_sql_query := fun _ => inl "unreachable";
     write_file := fun _ => None |}.

Definition world_bad_port : World :=
  {| config_txt := Some "port=abc";
     today := "20240101";
     now := "01/01/2024 à 08:00";
     connect := fun _ => None;
     read_sql_query := fun _ => inl "unreachable";
     write_file := fun _ => None |}.

(** The two tables of the scenario, and the table they merge to. *)
Definition table_exportees : DataFrame :=
  {| columns := [("dossier", Object); ("nb_pieces_exportees", Number)];
     rows := [[("dossier", VStr "A"); ("nb_pieces_exportees", VNum 5)]] |}.

Definition table_a_traiter : DataFrame :=
  {| columns := [("dossier", Object); ("nb_pieces_a_traiter", Number)];
     rows := [[("dossier", VStr "A"); ("nb_pieces_a_traiter", VNum 60)];
              [("dossier", VStr "B"); ("nb_pieces_a_traiter", VNum 3)]] |}.

Definition row_A : row :=
  [("dossier", VStr "A"); ("nb_pieces_exportees", VNum 5);
   ("nb_pieces_a_traiter", VNum 60)].

Definition row_B : row :=
  [("dossier", VStr "B"); ("nb_pieces_exportees", VNum 0);
   ("nb_pieces_a_traiter", VNum 3)].

Definition merged_scenario : DataFrame :=
  {| columns := [("dossier", Object); ("nb_pieces_exportees", Number);
                 ("nb_pieces_a_traiter", Number)];
     rows := [row_A; row_B] |}.

(** A result table with a row whose dossier is the empty string. *)
Definition table_blank_key : DataFrame :=
  {| columns := [("dossier", Object); ("nb_pieces_exportees", Number)];
     rows := [[("dossier", VStr ""); ("nb_pieces_exportees", VNum 5)]] |}.


Definition one_count (column : string) (n : Z) : DataFrame :=
  {| columns := [("dossier", Object); (column, Number)];
     rows := [[("dossier", VStr "A"); (column, VNum n)]] |}.

Definition table_dates : DataFrame :=
  {| columns := [("dossier", Object); ("date_min_a_traiter", Object);
                 ("date_max_a_traiter", Object)];
     rows := [[("dossier", VStr "A"); ("date_min_a_traiter", VStr "02-01-2024");
               ("date_max_a_traiter", VStr "30-01-2024")]] |}.

(** Every query but [pieces_non_exportees] returns a row for dossier A;
    that one fails. *)
Definition world_pieces_query_fails : World :=
  {| config_txt := Some "host=db.example";
     today := "20240101";
     now := "01/01/2024 à 08:00";
     connect := fun _ => None;
     read_sql_query := fun q =>
       if String.eqb q sql_pieces_exportees then inr table_exportees
       else if String.eqb q sql_ecritures_exportees then inr (one_count "nb_ecritures_exportees" 7)
       else if String.eqb q sql_ecritures_non_exportees then inr (one_count "nb_ecritures_a_traiter" 9)
       else if String.eqb q sql_comptes_attente then inr (one_count "nb_comptes_attente" 1)
       else if String.eqb q sql_dates_extremes then inr table_dates
       else inl "permission denied";
     write_file := fun _ => None |}.


(** The two queries of the scenario return its tables, the others fail. *)
Definition world_scenario : World :=
  {| config_txt := Some "host=db.example";
     today := "20240101";
     now := "01/01/2024 à 08:00";
     connect := fun _ => None;
     read_sql_query := fun q =>
       if String.eqb q sql_pieces_exportees then inr table_exportees
       else if String.eqb q sql_pieces_non_exportees then inr table_a_traiter
       else inl "permission denied";
     write_file := fun _ => None |}.

Definition report_scenario : Report :=
  {| updated := "01/01/2024 à 08:00";
     card_dossiers := 2;
     card_pieces_a_traiter := 63;
     card_ecritures_a_traiter := 0;
     card_comptes_attente := 0;
     table :=
       [ {| td_dossier := VStr "A";
            td_pieces_exportees := 5; td_ecritures_exportees := 0;
            td_pieces_a_traiter := 60; td_pieces_class := "warning";
            td_ecritures_a_traiter := 0;
            td_comptes_attente := 0; td_comptes_class := "good";
            td_date_min := VStr ""; td_date_max := VStr "" |};
         {| td_dossier := VStr "B";
            td_pieces_exportees := 0; td_ecritures_exportees := 0;
            td_pieces_a_traiter := 3; td_pieces_class := "";
            td_ecritures_a_traiter := 0;
            td_comptes_attente := 0; td_comptes_class := "good";
            td_date_min := VStr ""; td_date_max := VStr "" |} ] |}.

(** The database refuses the connection. *)
Definition world_connection_refused : World :=
  {| config_txt := Some "host=db.example";
     today := "20240101";
     now := "01/01/2024 à 08:00";
     connect := fun _ => Some "connection refused";
     read_sql_query := fun _ => inl "unreachable";
     write_file := fun _ => None |}.

(** The scenario, on a disk that cannot be written. *)
Definition world_disk_full : World :=
  {| config_txt := config_txt world_scenario;
     today := today world_scenario;
     now := now world_scenario;
     connect := connect world_scenario;
     read_sql_query := read_sql_query world_scenario;
     write_file := fun _ => Some "No space left on device" |}.

Definition config_example : Config :=
  {| host := "db.example"; database := "your_database";
     user := "your_username"; password := "your_password"; port := 5432 |}.

(** A file saved in Latin-1: [password=café], the last byte E9. *)
Definition config_latin1 : string := "password=caf" ++ String "233"%char "".

(** * Properties *)

(** ** String primitives *)

(** *** UTF-8 *)

Lemma string_of_list_ascii_append : forall l1 l2,
  string_of_list_ascii (l1 ++ l2) = string_of_list_ascii l1 ++ string_of_list_ascii l2.
Proof.
  induction l1 as [|a l1 IH]; intros l2; simpl; [reflexivity|rewrite IH; reflexivity].
Qed.

Lemma encode_cons : forall c t,
  Utf8.encode (c :: t) =
  string_of_list_ascii (map ascii_of_N (Utf8.encode_char c)) ++ Utf8.encode t.
Proof.
  intros c t. unfold Utf8.encode. cbn [flat_map].
  rewrite map_app, string_of_list_ascii_append. reflexivity.
Qed.

Lemma decode_one : forall a r,
  (a < 128)%N ->
  Utf8.decode (String (ascii_of_N a) r) = option_map (cons a) (Utf8.decode r).
Proof.
  intros a r H. cbn [Utf8.decode]. rewrite N_ascii_embedding by lia.
  cbv zeta. replace (a <? 128)%N with true by (symmetry; apply N.ltb_lt; lia).
  reflexivity.
Qed.

Lemma decode_two : forall a b r,
  (194 <= a <= 223)%N -> (128 <= b <= 191)%N ->
  Utf8.decode (String (ascii_of_N a) (String (ascii_of_N b) r)) =
  option_map (cons ((a - 192) * 64 + (b - 128))%N) (Utf8.decode r).
Proof.
  intros a b r Ha Hb. cbn [Utf8.decode]. rewrite !N_ascii_embedding by lia.
  cbv zeta. unfold Utf8.continuation.
  replace (a <? 128)%N with false by (symmetry; apply N.ltb_ge; lia).
  replace (194 <=? a)%N with true by (symmetry; apply N.leb_le; lia).
  replace (a <=? 223)%N with true by (symmetry; apply N.leb_le; lia).
  replace (128 <=? b)%N with true by (symmetry; apply N.leb_le; lia).
  replace (b <=? 191)%N with true by (symmetry; apply N.leb_le; lia).
  reflexivity.
Qed.

Ltac decide_N :=
  repeat match goal with
  | |- context [(?x <? ?y)%N] =>
      first [ replace (x <? y)%N with true by (symmetry; apply N.ltb_lt; lia)
            | replace (x <? y)%N with false by (symmetry; apply N.ltb_ge; lia) ]
  | |- context [(?x <=? ?y)%N] =>
      first [ replace (x <=? y)%N with true by (symmetry; apply N.leb_le; lia)
            | replace (x <=? y)%N with false by (symmetry; apply N.leb_gt; lia) ]
  | |- context [(?x =? ?y)%N] =>
      first [ replace (x =? y)%N with true by (symmetry; apply N.eqb_eq; lia)
            | replace (x =? y)%N with false by (symmetry; apply N.eqb_neq; lia) ]
  end.

Lemma decode_three : forall a b c r,
  (224 <= a <= 239)%N -> (128 <= b <= 191)%N -> (128 <= c <= 191)%N ->
  (a = 224 -> 160 <= b)%N -> (a = 237 -> b <= 159)%N ->
  Utf8.decode (String (ascii_of_N a) (String (ascii_of_N b) (String (ascii_of_N c) r))) =
  option_map (cons ((a - 224) * 4096 + (b - 128) * 64 + (c - 128))%N) (Utf8.decode r).
Proof.
  intros a b c r Ha Hb Hc H224 H237. cbn [Utf8.decode].
  rewrite !N_ascii_embedding by lia. cbv zeta.
  unfold Utf8.second_of_three, Utf8.continuation.
  destruct (N.eq_dec a 224) as [E|E]; [|destruct (N.eq_dec a 237) as [E'|E']].
  - specialize (H224 E). subst a. decide_N. reflexivity.
  - specialize (H237 E'). subst a. decide_N. reflexivity.
  - decide_N. reflexivity.
Qed.

Lemma decode_four : forall a b c d r,
  (240 <= a <= 244)%N -> (128 <= b <= 191)%N -> (128 <= c <= 191)%N ->
  (128 <= d <= 191)%N ->
  (a = 240 -> 144 <= b)%N -> (a = 244 -> b <= 143)%N ->
  Utf8.decode (String (ascii_of_N a) (String (ascii_of_N b)
                 (String (ascii_of_N c) (String (ascii_of_N d) r)))) =
  option_map (cons ((a - 240) * 262144 + (b - 128) * 4096 + (c - 128) * 64 + (d - 128))%N)
             (Utf8.decode r).
Proof.
  intros a b c d r Ha Hb Hc Hd H240 H244. cbn [Utf8.decode].
  rewrite !N_ascii_embedding by lia. cbv zeta.
  unfold Utf8.second_of_four, Utf8.continuation.
  destruct (N.eq_dec a 240) as [E|E]; [|destruct (N.eq_dec a 244) as [E'|E']].
  - specialize (H240 E). subst a. decide_N. reflexivity.
  - specialize (H244 E'). subst a. decide_N. reflexivity.
  - decide_N. reflexivity.
Qed.

(** Decoding undoes encoding, one character at a time. *)
Lemma decode_encode_char : forall c r,
  scalar c = true ->
  Utf8.decode (string_of_list_ascii (map ascii_of_N (Utf8.encode_char c)) ++ r) =
  option_map (cons c) (Utf8.decode r).
Proof.
  intros c r Hc. unfold scalar in Hc.
  assert (Hs : (c < 55296 \/ 57344 <= c < 1114112)%N).
  { apply orb_true_iff in Hc. destruct Hc as [H|H].
    - left. apply N.ltb_lt. exact H.
    - right. apply andb_true_iff in H. destruct H as [H1 H2].
      apply N.leb_le in H1. apply N.ltb_lt in H2. lia. }
  clear Hc. unfold Utf8.encode_char.
  pose proof (N.div_mod c 64 ltac:(lia)) as D1.
  pose proof (N.mod_lt c 64 ltac:(lia)) as M1.
  pose proof (N.div_mod (c / 64) 64 ltac:(lia)) as D2.
  pose proof (N.mod_lt (c / 64) 64 ltac:(lia)) as M2.
  pose proof (N.div_mod (c / 64 / 64) 64 ltac:(lia)) as D3.
  pose proof (N.mod_lt (c / 64 / 64) 64 ltac:(lia)) as M3.
  assert (E2 : (c / 4096 = c / 64 / 64)%N).
  { rewrite N.Div0.div_div. reflexivity. }
  assert (E3 : (c / 262144 = c / 64 / 64 / 64)%N).
  { rewrite !N.Div0.div_div. reflexivity. }
  rewrite E2, E3. clear E2 E3.
  remember (c mod 64)%N as m1 eqn:Em1. remember (c / 64)%N as q1 eqn:Eq1.
  remember (q1 mod 64)%N as m2 eqn:Em2. remember (q1 / 64)%N as q2 eqn:Eq2.
  remember (q2 mod 64)%N as m3 eqn:Em3. remember (q2 / 64)%N as q3 eqn:Eq3.
  clear Em1 Eq1 Em2 Eq2 Em3 Eq3.
  destruct (N.ltb_spec c 128) as [H1|H1].
  - cbn [map string_of_list_ascii append]. rewrite decode_one by lia. reflexivity.
  - destruct (N.ltb_spec c 2048) as [H2|H2].
    + cbn [map string_of_list_ascii append]. rewrite decode_two by lia.
      f_equal. f_equal. lia.
    + destruct (N.ltb_spec c 65536) as [H3|H3].
      * cbn [map string_of_list_ascii append].
        rewrite decode_three by lia. f_equal. f_equal. lia.
      * cbn [map string_of_list_ascii append].
        rewrite decode_four by lia. f_equal. f_equal. lia.
Qed.

Lemma decode_encode : forall t,
  forallb scalar t = true -> Utf8.decode (Utf8.encode t) = Some t.
Proof.
  induction t as [|c t IH]; intros H; [reflexivity|].
  cbn [forallb] in H. apply andb_true_iff in H. destruct H as [Hc Ht].
  rewrite encode_cons, decode_encode_char by exact Hc.
  rewrite (IH Ht). reflexivity.
Qed.

Lemma scalar_intro : forall c,
  (c < 55296 \/ 57344 <= c < 1114112)%N -> scalar c = true.
Proof.
  intros c H. unfold scalar. apply orb_true_iff. destruct H as [H|H].
  - left. apply N.ltb_lt. exact H.
  - right. apply andb_true_iff. split; [apply N.leb_le|apply N.ltb_lt]; lia.
Qed.

Lemma option_map_cons_some : forall (c : N) o t,
  option_map (cons c) o = Some t -> exists t', o = Some t' /\ t = c :: t'.
Proof.
  intros c [t'|] t H; [|discriminate]. injection H as <-. eauto.
Qed.

Lemma decode_scalar_len : forall n s t,
  (String.length s <= n)%nat -> Utf8.decode s = Some t -> forallb scalar t = true.
Proof.
  induction n as [|n IH]; intros s t Hn H.
  - destruct s; [|simpl in Hn; lia]. injection H as <-. reflexivity.
  - destruct s as [|a1 r1]; [injection H as <-; reflexivity|].
    cbn [Utf8.decode] in H. cbv zeta in H.
    pose proof (N_ascii_bounded a1) as Ba. set (a := N_of_ascii a1) in *.
    cbn [String.length] in Hn.
    destruct (N.ltb_spec a 128) as [H1|H1].
    { apply option_map_cons_some in H. destruct H as (t' & Hd & ->).
      cbn [forallb]. rewrite (IH r1 t') by (auto; lia).
      rewrite scalar_intro by lia. reflexivity. }
    destruct r1 as [|b1 r2]; [discriminate|].
    pose proof (N_ascii_bounded b1) as Bb. set (b := N_of_ascii b1) in *.
    cbn [String.length] in Hn.
    destruct ((194 <=? a)%N && (a <=? 223)%N) eqn:C2.
    { apply andb_true_iff in C2. destruct C2 as [C2a C2b].
      apply N.leb_le in C2a. apply N.leb_le in C2b.
      destruct (Utf8.continuation b) eqn:Cb; [|discriminate].
      unfold Utf8.continuation in Cb. apply andb_true_iff in Cb.
      destruct Cb as [Cb1 Cb2]. apply N.leb_le in Cb1. apply N.leb_le in Cb2.
      apply option_map_cons_some in H. destruct H as (t' & Hd & ->).
      cbn [forallb]. rewrite (IH r2 t') by (auto; lia).
      rewrite scalar_intro by lia. reflexivity. }
    destruct r2 as [|c1 r3]; [discriminate|].
    pose proof (N_ascii_bounded c1) as Bc. set (c := N_of_ascii c1) in *.
    cbn [String.length] in Hn.
    destruct ((224 <=? a)%N && (a <=? 239)%N) eqn:C3.
    { apply andb_true_iff in C3. destruct C3 as [C3a C3b].
      apply N.leb_le in C3a. apply N.leb_le in C3b.
      destruct (Utf8.second_of_three a b && Utf8.continuation c) eqn:Cb; [|discriminate].
      apply andb_true_iff in Cb. destruct Cb as [Cb Cc].
      unfold Utf8.continuation in Cc. apply andb_true_iff in Cc.
      destruct Cc as [Cc1 Cc2]. apply N.leb_le in Cc1. apply N.leb_le in Cc2.
      apply option_map_cons_some in H. destruct H as (t' & Hd & ->).
      cbn [forallb]. rewrite (IH r3 t') by (auto; lia).
      rewrite andb_true_r. apply scalar_intro.
      unfold Utf8.second_of_three, Utf8.continuation in Cb.
      destruct (N.eqb_spec a 224) as [E|E];
        [|destruct (N.eqb_spec a 237) as [E'|E']];
        apply andb_true_iff in Cb; destruct Cb as [Cb1 Cb2];
        apply N.leb_le in Cb1; apply N.leb_le in Cb2; lia. }
    destruct r3 as [|d1 r4]; [discriminate|].
    pose proof (N_ascii_bounded d1) as Bd. set (d := N_of_ascii d1) in *.
    cbn [String.length] in Hn.
    destruct ((240 <=? a)%N && (a <=? 244)%N && Utf8.second_of_four a b
              && Utf8.continuation c && Utf8.continuation d) eqn:C4; [|discriminate].
    apply andb_true_iff in C4. destruct C4 as [C4 Cd].
    apply andb_true_iff in C4. destruct C4 as [C4 Cc].
    apply andb_true_iff in C4. destruct C4 as [C4 Cb].
    apply andb_true_iff in C4. destruct C4 as [C4a C4b].
    apply N.leb_le in C4a. apply N.leb_le in C4b.
    unfold Utf8.continuation in Cc, Cd.
    apply andb_true_iff in Cc. destruct Cc as [Cc1 Cc2].
    apply N.leb_le in Cc1. apply N.leb_le in Cc2.
    apply andb_true_iff in Cd. destruct Cd as [Cd1 Cd2].
    apply N.leb_le in Cd1. apply N.leb_le in Cd2.
    apply option_map_cons_some in H. destruct H as (t' & Hd & ->).
    cbn [forallb]. rewrite (IH r4 t') by (auto; lia).
    rewrite andb_true_r. apply scalar_intro.
    unfold Utf8.second_of_four, Utf8.continuation in Cb.
    destruct (N.eqb_spec a 240) as [E|E];
      [|destruct (N.eqb_spec a 244) as [E'|E']];
      apply andb_true_iff in Cb; destruct Cb as [Cb1 Cb2];
      apply N.leb_le in Cb1; apply N.leb_le in Cb2; lia.
Qed.

(** A decoded text holds characters only. *)
Lemma decode_scalar : forall s t,
  Utf8.decode s = Some t -> forallb scalar t = true.
Proof.
  intros s t. apply (decode_scalar_len (String.length s)). lia.
Qed.

(** *** Trimming *)

Lemma lstrip_text_spec : forall t,
  exists l, t = (l ++ PyStr.lstrip_text t)%list /\ all_space l = true
            /\ starts_with_space (PyStr.lstrip_text t) = false.
Proof.
  induction t as [|c t IH]; simpl.
  - exists []. auto.
  - destruct (Unicode.is_space c) eqn:E.
    + destruct IH as (l & Hs & Hl & Hn). exists (c :: l). simpl.
      rewrite E, <- Hs. auto.
    + exists []. simpl. auto.
Qed.

Lemma rstrip_text_spec : forall t,
  exists r, t = (PyStr.rstrip_text t ++ r)%list /\ all_space r = true
            /\ ends_with_space (PyStr.rstrip_text t) = false.
Proof.
  induction t as [|c t IH]; simpl.
  - exists []. auto.
  - destruct IH as (r & Hs & Hr & Hn).
    destruct (PyStr.rstrip_text t) as [|a u] eqn:E.
    + simpl in Hs. subst t. destruct (Unicode.is_space c) eqn:Ec.
      * exists (c :: r). simpl. rewrite Ec. auto.
      * exists r. simpl. rewrite Ec. auto.
    + exists r. simpl. rewrite Hs at 1. simpl. auto.
Qed.

(** [strip] removes whitespace, and only whitespace, from both ends. *)
Lemma strip_text_spec : forall t,
  exists l r,
    t = (l ++ PyStr.strip_text t ++ r)%list /\
    all_space l = true /\ all_space r = true /\
    ends_with_space (PyStr.strip_text t) = false /\
    starts_with_space (PyStr.strip_text t) = false.
Proof.
  intros t. unfold PyStr.strip_text.
  destruct (lstrip_text_spec t) as (l & Hl & Hal & Hstart).
  destruct (rstrip_text_spec (PyStr.lstrip_text t)) as (r & Hr & Har & Hend).
  exists l, r. rewrite <- Hr. repeat split; auto.
  destruct (PyStr.rstrip_text (PyStr.lstrip_text t)) as [|a u] eqn:E; [reflexivity|].
  rewrite Hr in Hstart. simpl in *. exact Hstart.
Qed.

Lemma append_empty_r : forall s : string, s ++ "" = s.
Proof.
  induction s as [|c s IH]; simpl; [reflexivity|rewrite IH; reflexivity].
Qed.

Lemma concat_cons : forall x xs,
  String.concat "" (x :: xs) = x ++ String.concat "" xs.
Proof.
  intros x [|y ys]; simpl.
  - rewrite append_empty_r. reflexivity.
  - reflexivity.
Qed.

(** The lines of a text, put end to end, are the text. *)
Lemma split_lines_concat : forall s,
  String.concat "" (PyStr.split_lines s) = s.
Proof.
  induction s as [|c s IH]; [reflexivity|].
  cbn [PyStr.split_lines].
  destruct (Ascii.eqb_spec c PyStr.LF) as [E|E].
  - subst c. rewrite concat_cons, IH. reflexivity.
  - destruct (PyStr.split_lines s) as [|l ls] eqn:El.
    + simpl in IH. subst s. reflexivity.
    + rewrite concat_cons in *. rewrite <- IH. reflexivity.
Qed.

(** ** Config loader *)

Lemma fold_load_line_get : forall lines d k,
  dict_get (fold_left load_line lines d) k =
  match spec_lookup lines k with
  | Some v => Some v
  | None => dict_get d k
  end.
Proof.
  induction lines as [|raw rest IH]; intros d k; simpl.
  - reflexivity.
  - rewrite IH. destruct (spec_lookup rest k) as [v|]; [reflexivity|].
    unfold load_line, spec_binding, spec_skipped, line_kept.
    destruct (String.eqb (PyStr.strip raw) ""); simpl; [reflexivity|].
    destruct (PyStr.startswith "#" (PyStr.strip raw)); simpl; [reflexivity|].
    destruct (PyStr.contains "=" (PyStr.strip raw)); simpl; [|reflexivity].
    destruct (PyStr.split1 "=" (PyStr.strip raw)) as [key value]; simpl.
    destruct (String.eqb (PyStr.lower (PyStr.strip key)) k); reflexivity.
Qed.

Lemma read_config_text : forall content,
  is_text content = true ->
  read_config (Some content) = OK (fold_left load_line (PyStr.file_lines content) []).
Proof.
  intros content H. unfold read_config, is_text in *.
  destruct (Utf8.decode content); [reflexivity|discriminate].
Qed.

Lemma read_config_undecodable : forall content,
  is_text content = false -> read_config (Some content) = Raise UnicodeDecodeError.
Proof.
  intros content H. unfold read_config, is_text in *.
  destruct (Utf8.decode content); [discriminate|reflexivity].
Qed.

Lemma read_config_get : forall content,
  is_text content = true ->
  exists config,
    read_config (Some content) = OK config /\
    forall k, dict_get config k = spec_lookup (PyStr.file_lines content) k.
Proof.
  intros content H. rewrite (read_config_text _ H). eexists. split; [reflexivity|].
  intros k. rewrite fold_load_line_get.
  destruct (spec_lookup (PyStr.file_lines content) k); reflexivity.
Qed.

Lemma split1_first : forall c line,
  PyStr.contains c line = true ->
  exists key value,
    PyStr.split1 c line = (key, value) /\
    line = key ++ String c value /\
    PyStr.contains c key = false.
Proof.
  intros c. induction line as [|c' line IH]; simpl; intros H.
  - discriminate.
  - destruct (Ascii.eqb c' c) eqn:E.
    + apply Ascii.eqb_eq in E. subst c'.
      exists "", line. auto.
    + simpl in H. destruct (IH H) as (key & value & Hs & Hl & Hc).
      rewrite Hs. exists (String c' key), value. simpl.
      rewrite E, Hc, <- Hl. auto.
Qed.

Lemma port_of_raises : forall config e,
  port_of config = Raise e ->
  exists v, dict_get config "port" = Some v /\ PyStr.int_of_str v = None
            /\ e = ValueError (PyStr.int_error v).
Proof.
  intros config e. unfold port_of, PyStr.int.
  destruct (dict_get config "port") as [v|]; [|discriminate].
  destruct (PyStr.int_of_str v) eqn:E; [discriminate|].
  intros H. injection H as <-. exists v. auto.
Qed.

Lemma port_of_refused : forall config v,
  dict_get config "port" = Some v -> PyStr.int_of_str v = None ->
  descriptor_of config = Raise (ValueError (PyStr.int_error v)).
Proof.
  intros config v Hv Hint. unfold descriptor_of, port_of, PyStr.int, bind.
  rewrite Hv, Hint. reflexivity.
Qed.

Lemma load_config_raises : forall content e,
  load_config (Some content) = Raise e ->
  is_text content = false /\ e = UnicodeDecodeError \/
  exists config v,
    read_config (Some content) = OK config /\ dict_get config "port" = Some v
    /\ PyStr.int_of_str v = None /\ e = ValueError (PyStr.int_error v).
Proof.
  intros content e. unfold load_config, bind.
  destruct (is_text content) eqn:T.
  - rewrite (read_config_text _ T). unfold descriptor_of, bind.
    destruct (port_of _) eqn:E; [discriminate|].
    intros H. injection H as <-. right.
    destruct (port_of_raises _ _ E) as (v & Hv & Hint & He).
    eexists. exists v. auto.
  - rewrite (read_config_undecodable _ T). intros H. injection H as <-. auto.
Qed.

Lemma forallb_scalar_strip : forall t,
  forallb scalar t = true -> forallb scalar (PyStr.strip_text t) = true.
Proof.
  intros t H. destruct (strip_text_spec t) as (l & r & Ht & _).
  rewrite Ht, !forallb_app in H.
  apply andb_true_iff in H. destruct H as [_ H].
  apply andb_true_iff in H. destruct H as [H _]. exact H.
Qed.

(** Trimming a [str], read on its characters. *)
Lemma strip_decode : forall s t,
  Utf8.decode s = Some t -> Utf8.decode (PyStr.strip s) = Some (PyStr.strip_text t).
Proof.
  intros s t H. unfold PyStr.strip, PyStr.on_text. rewrite H.
  apply decode_encode, forallb_scalar_strip. exact (decode_scalar _ _ H).
Qed.

(** C9, as amended.  On a file that decodes as text the loader skips blank
    lines, comment lines and lines without [=]; it splits every other line
    at its first [=] and binds the lower-cased trimmed key to the trimmed
    value, the last binding of a key winning; trimming removes whitespace,
    and only whitespace, from both ends.  When the port binding, if any,
    reads as an integer, the descriptor holds for each field its binding or
    else its default: [localhost], the three placeholders, and 5432 for the
    port. *)
Theorem load_config_descriptor : forall content,
  is_text content = true ->
  port_is_int (PyStr.file_lines content) = true ->
  let lines := PyStr.file_lines content in
  (exists config,
     read_config (Some content) = OK config /\
     forall k, dict_get config k = spec_lookup lines k) /\
  (forall line, PyStr.contains "=" line = true ->
     exists key value,
       PyStr.split1 "=" line = (key, value) /\
       line = key ++ String "=" value /\
       PyStr.contains "=" key = false) /\
  (forall s t, Utf8.decode s = Some t ->
     exists l u r,
       Utf8.decode (PyStr.strip s) = Some u /\ t = (l ++ u ++ r)%list /\
       all_space l = true /\ all_space r = true /\
       starts_with_space u = false /\ ends_with_space u = false) /\
  load_config (Some content) =
    OK {| host := with_default (spec_lookup lines "host") "localhost";
          database := with_default (spec_lookup lines "database") "your_database";
          user := with_default (spec_lookup lines "user") "your_username";
          password := with_default (spec_lookup lines "password") "your_password";
          port := spec_port lines |}.
Proof.
  intros content Htext Hport lines.
  split; [apply read_config_get; exact Htext|].
  split; [apply split1_first|].
  split.
  { intros s t Hs. destruct (strip_text_spec t) as (l & r & Ht & Hl & Hr & He & Hb).
    exists l, (PyStr.strip_text t), r. rewrite (strip_decode _ _ Hs).
    split; [reflexivity|]. split; [exact Ht|]. auto. }
  destruct (read_config_get _ Htext) as (config & Hc & Hget).
  unfold load_config, bind. rewrite Hc.
  unfold descriptor_of, port_of, dict_get_default, PyStr.int, bind.
  rewrite !Hget. fold lines.
  unfold port_is_int in Hport. fold lines in Hport.
  unfold spec_port, with_default.
  destruct (spec_lookup lines "port") as [v|]; [|reflexivity].
  destruct (PyStr.int_of_str v); [reflexivity|discriminate].
Qed.

Lemma load_config_descriptor_witness :
  load_config (Some config_sample) =
    OK {| host := "db.example"; database := "your_database"; user := "a=b";
          password := "your_password"; port := 5432 |} /\
  (exists key value,
     PyStr.split1 "=" "user=a=b" = (key, value) /\
     "user=a=b" = key ++ String "=" value /\
     PyStr.contains "=" key = false).
Proof.
  pose proof (load_config_descriptor config_sample eq_refl eq_refl) as H.
  split.
  - exact (proj2 (proj2 (proj2 H))).
  - exact (proj1 (proj2 H) "user=a=b" eq_refl).
Defined.

(** C9 as stated fails: on a file whose port is not an integer the loader
    builds no descriptor. *)
Lemma load_config_descriptor_counterexample :
  ~ exists cfg, load_config (Some "port=abc") = OK cfg.
Proof.
  intros [cfg H]. vm_compute in H. discriminate H.
Qed.

(** C10, as amended.  A [port] binding that [int] refuses makes the script
    raise [ValueError] while the module is loaded: nothing has been printed
    and [main] has not started.  So does a file whose bytes do not decode
    as text, with [UnicodeDecodeError].  Loading raises in no other case,
    whatever the other keys are bound to. *)
Theorem malformed_port_raises_at_import : forall w content,
  config_txt w = Some content ->
  (forall config v,
     read_config (Some content) = OK config ->
     dict_get config "port" = Some v ->
     PyStr.int_of_str v = None ->
     run w = ([], Some (ValueError (PyStr.int_error v)))) /\
  (is_text content = false -> run w = ([], Some UnicodeDecodeError)) /\
  (forall e,
     load_config (Some content) = Raise e ->
     is_text content = false \/
     exists config v,
       read_config (Some content) = OK config /\ dict_get config "port" = Some v
       /\ PyStr.int_of_str v = None).
Proof.
  intros w content Hc. split; [|split].
  - intros config v Hr Hv Hint. unfold run. rewrite Hc.
    unfold load_config, bind. rewrite Hr, (port_of_refused _ _ Hv Hint). reflexivity.
  - intros Ht. unfold run. rewrite Hc.
    unfold load_config, bind. rewrite (read_config_undecodable _ Ht). reflexivity.
  - intros e He. destruct (load_config_raises _ _ He) as [[Ht _]|(config & v & H1 & H2 & H3 & _)].
    + left. exact Ht.
    + right. exists config, v. auto.
Qed.

Lemma malformed_port_raises_at_import_witness :
  run world_bad_port =
    ([], Some (ValueError "invalid literal for int() with base 10: 'abc'")) /\
  (is_text "port=abc" = false \/
   exists config v,
     read_config (Some "port=abc") = OK config /\ dict_get config "port" = Some v
     /\ PyStr.int_of_str v = None).
Proof.
  pose proof (malformed_port_raises_at_import world_bad_port "port=abc" eq_refl) as H.
  split.
  - exact (proj1 H [("port", "abc")] "abc" eq_refl eq_refl eq_refl).
  - exact (proj2 (proj2 H)
             (ValueError "invalid literal for int() with base 10: 'abc'") eq_refl).
Defined.

(** C10 as stated fails: a value of another key that is not text makes the
    loader raise as well, here a password ending in the byte E9. *)
Lemma malformed_port_raises_at_import_counterexample :
  spec_lookup (PyStr.file_lines config_latin1) "port" = None /\
  load_config (Some config_latin1) = Raise UnicodeDecodeError.
Proof.
  split; reflexivity.
Qed.

(** ** Orchestrator: missing configuration file *)

(** C8.  Without [config.txt] the run prints the instructions, waits for
    the acknowledgment and returns: it raises nothing and never tries to
    connect. *)
Theorem missing_config_aborts : forall w,
  config_txt w = None ->
  run w =
    ([Print "🚀 Génération du tableau de bord KPI...";
      Print rule;
      Print "❌ Fichier config.txt introuvable!";
      Print "📝 Créez un fichier config.txt avec vos paramètres de base de données:";
      Print "HOST=votre_serveur";
      Print "DATABASE=votre_base";
      Print "USER=votre_utilisateur";
      Print "PASSWORD=votre_mot_de_passe";
      Print "PORT=5432";
      Input press_enter], None) /\
  (forall cfg, ~ In (Connect cfg) (fst (run w))) /\
  (forall q, ~ In (ReadSql q) (fst (run w))).
Proof.
  intros w H.
  assert (E : run w =
    ([Print "🚀 Génération du tableau de bord KPI...";
      Print rule;
      Print "❌ Fichier config.txt introuvable!";
      Print "📝 Créez un fichier config.txt avec vos paramètres de base de données:";
      Print "HOST=votre_serveur";
      Print "DATABASE=votre_base";
      Print "USER=votre_utilisateur";
      Print "PASSWORD=votre_mot_de_passe";
      Print "PORT=5432";
      Input press_enter], None)).
  { unfold run, main. rewrite H. reflexivity. }
  split; [exact E|]. rewrite E. simpl.
  split; intros x Hin;
    repeat (destruct Hin as [Hin|Hin]; [discriminate Hin|]); exact Hin.
Qed.

Lemma missing_config_aborts_witness :
  snd (run world_without_config) = None /\
  ~ In (Connect {| host := "localhost"; database := "your_database";
                   user := "your_username"; password := "your_password";
                   port := 5432 |})
       (fst (run world_without_config)).
Proof.
  split.
  - exact (f_equal snd (proj1 (missing_config_aborts world_without_config eq_refl))).
  - exact (proj1 (proj2 (missing_config_aborts world_without_config eq_refl)) _).
Defined.

(** ** Sorting *)

Section StableSortFacts.
Context {A : Type} (leb : A -> A -> bool).

Lemma insert_sorted_perm : forall x l,
  Permutation (x :: l) (insert_sorted leb x l).
Proof.
  intros x. induction l as [|y l IH]; simpl.
  - apply Permutation_refl.
  - destruct (leb x y).
    + apply Permutation_refl.
    + eapply perm_trans; [apply perm_swap|]. apply perm_skip. exact IH.
Qed.

Lemma stable_sort_perm : forall l, Permutation l (stable_sort leb l).
Proof.
  induction l as [|x l IH]; simpl.
  - apply perm_nil.
  - eapply perm_trans; [apply perm_skip; exact IH|].
    apply insert_sorted_perm.
Qed.

Lemma stable_sort_in : forall x l, In x (stable_sort leb l) <-> In x l.
Proof.
  intros x l. split; intros H.
  - eapply Permutation_in; [apply Permutation_sym, stable_sort_perm|exact H].
  - eapply Permutation_in; [apply stable_sort_perm|exact H].
Qed.

Variable R : A -> A -> Prop.
Hypothesis R_trans : forall x y z, R x y -> R y z -> R x z.
Hypothesis leb_true : forall x y, leb x y = true -> R x y.
Hypothesis leb_false : forall x y, leb x y = false -> R y x.

Lemma insert_sorted_strongly : forall x l,
  StronglySorted R l -> StronglySorted R (insert_sorted leb x l).
Proof.
  intros x. induction l as [|y l IH]; simpl; intros Hs.
  - constructor; [constructor|constructor].
  - inversion Hs as [|y' l' Hl Hy]; subst.
    destruct (leb x y) eqn:E.
    + constructor; [exact Hs|].
      constructor; [apply leb_true; exact E|].
      eapply Forall_impl; [|exact Hy].
      intros z Hz. eapply R_trans; [apply leb_true; exact E|exact Hz].
    + constructor; [apply IH; exact Hl|].
      eapply Permutation_Forall; [apply insert_sorted_perm|].
      constructor; [apply leb_false; exact E|exact Hy].
Qed.

Lemma stable_sort_strongly : forall l, StronglySorted R (stable_sort leb l).
Proof.
  induction l as [|x l IH]; simpl.
  - constructor.
  - apply insert_sorted_strongly. exact IH.
Qed.
End StableSortFacts.

Lemma StronglySorted_map : forall {A B : Type} (f : A -> B) (R : B -> B -> Prop) l,
  StronglySorted (fun x y => R (f x) (f y)) l -> StronglySorted R (map f l).
Proof.
  intros A B f R. induction l as [|x l IH]; simpl; intros H.
  - constructor.
  - inversion H; subst. constructor; [apply IH; assumption|].
    apply Forall_map. assumption.
Qed.

Lemma StronglySorted_weaken : forall {A : Type} (R R' : A -> A -> Prop) l,
  (forall x y, In x l -> In y l -> R x y -> R' x y) ->
  StronglySorted R l -> StronglySorted R' l.
Proof.
  intros A R R'. induction l as [|x l IH]; intros Himp H.
  - constructor.
  - inversion H as [|x' l' Hl Hx]; subst. constructor.
    + apply IH; [|exact Hl]. intros a b Ha Hb. apply Himp; right; assumption.
    + rewrite Forall_forall in *. intros y Hy.
      apply Himp; [left; reflexivity|right; exact Hy|apply Hx; exact Hy].
Qed.

Lemma string_leb_trans : forall a b c,
  String.leb a b = true -> String.leb b c = true -> String.leb a c = true.
Proof.
  unfold String.leb.
  induction a as [|x a IH]; destruct b as [|y b]; destruct c as [|z c];
    simpl; try congruence.
  unfold Ascii.compare.
  destruct (N.compare_spec (N_of_ascii x) (N_of_ascii y));
    destruct (N.compare_spec (N_of_ascii y) (N_of_ascii z));
    destruct (N.compare_spec (N_of_ascii x) (N_of_ascii z));
    try congruence; try lia.
  apply IH.
Qed.

Lemma string_leb_false : forall a b,
  String.leb a b = false -> String.leb b a = true.
Proof.
  intros a b H. destruct (String.leb_total a b) as [E|E]; congruence.
Qed.

Lemma value_leb_trans : forall a b c,
  value_leb a b = true -> value_leb b c = true -> value_leb a c = true.
Proof.
  intros [x|s|] [y|t|] [z|u|]; simpl; try congruence.
  - intros H1 H2. apply Z.leb_le in H1, H2. apply Z.leb_le. lia.
  - apply string_leb_trans.
Qed.

Lemma value_leb_false : forall a b, value_leb a b = false -> value_leb b a = true.
Proof.
  intros [x|s|] [y|t|]; simpl; try congruence.
  - intros H. apply Z.leb_gt in H. apply Z.leb_le. lia.
  - apply string_leb_false.
Qed.

Lemma value_geb_na_last_trans : forall a b c,
  value_geb_na_last a b = true -> value_geb_na_last b c = true ->
  value_geb_na_last a c = true.
Proof.
  intros [x|s|] [y|t|] [z|u|]; simpl; try congruence.
  - intros H1 H2. apply Z.leb_le in H1, H2. apply Z.leb_le. lia.
  - intros H1 H2. eapply string_leb_trans; eauto.
Qed.

Lemma value_geb_na_last_false : forall a b,
  value_geb_na_last a b = false -> value_geb_na_last b a = true.
Proof.
  intros [x|s|] [y|t|]; simpl; try congruence.
  - intros H. apply Z.leb_gt in H. apply Z.leb_le. lia.
  - apply string_leb_false.
Qed.

Lemma existsb_false_in : forall {A : Type} (p : A -> bool) l x,
  existsb p l = false -> In x l -> p x = false.
Proof.
  intros A p l x H Hin.
  destruct (p x) eqn:E; [|reflexivity].
  rewrite <- H. symmetry. apply existsb_exists. exists x. auto.
Qed.

Lemma precedes_desc_of_geb : forall vals a b,
  existsb is_num vals && existsb is_str vals = false ->
  In a vals -> In b vals ->
  value_geb_na_last a b = true -> precedes_desc a b.
Proof.
  intros vals a b Hmix Ha Hb H.
  apply andb_false_iff in Hmix.
  destruct a as [x|s|], b as [y|t|]; simpl in *; try exact I; try discriminate.
  - apply Z.leb_le. exact H.
  - destruct Hmix as [Hm|Hm].
    + apply (existsb_false_in _ _ _ Hm) in Hb. discriminate.
    + apply (existsb_false_in _ _ _ Hm) in Ha. discriminate.
  - exact H.
Qed.

Lemma sort_values_desc : forall by_ df sorted,
  sort_values by_ false df = OK sorted ->
  has_column by_ df = true /\
  columns sorted = columns df /\
  Permutation (rows df) (rows sorted) /\
  StronglySorted precedes_desc (column_values by_ sorted).
Proof.
  intros by_ df sorted. unfold sort_values.
  destruct (has_column by_ df); simpl; [|discriminate].
  destruct (existsb is_num (map (fun r => cell r by_) (rows df))
            && existsb is_str (map (fun r => cell r by_) (rows df))) eqn:Hmix;
    [discriminate|].
  intros H. inversion H; subst sorted; clear H. simpl.
  split; [reflexivity|]. split; [reflexivity|].
  split; [apply stable_sort_perm|].
  unfold column_values; simpl.
  set (leb := fun r1 r2 : row => value_geb_na_last (cell r1 by_) (cell r2 by_)).
  apply StronglySorted_map.
  apply StronglySorted_weaken
    with (R := fun r1 r2 => value_geb_na_last (cell r1 by_) (cell r2 by_) = true).
  - intros r1 r2 H1 H2. apply (precedes_desc_of_geb _ _ _ Hmix);
      apply in_map_iff; [exists r1|exists r2]; split; try reflexivity;
      apply (stable_sort_in leb); assumption.
  - apply stable_sort_strongly.
    + intros x y z. apply value_geb_na_last_trans.
    + intros x y E. exact E.
    + intros x y E. apply value_geb_na_last_false. exact E.
Qed.

(** ** Lookups *)

Lemma lookup_app : forall {A : Type} (l1 l2 : list (string * A)) c,
  lookup (l1 ++ l2) c =
  match lookup l1 c with
  | Some v => Some v
  | None => lookup l2 c
  end.
Proof.
  intros A. induction l1 as [|[c' v] l1 IH]; intros l2 c; simpl.
  - reflexivity.
  - destruct (String.eqb c' c); [reflexivity|apply IH].
Qed.

Lemma mem_in : forall c l, mem c l = true <-> In c l.
Proof.
  intros c l. unfold mem. rewrite existsb_exists. split.
  - intros [x [Hin E]]. apply String.eqb_eq in E. subst. exact Hin.
  - intros H. exists c. split; [exact H|apply String.eqb_refl].
Qed.

Lemma has_column_lookup : forall c df,
  has_column c df = true <-> exists t, lookup (columns df) c = Some t.
Proof.
  intros c df. unfold has_column, names.
  induction (columns df) as [|[c' t] cols IH]; simpl.
  - split; [discriminate|intros [t H]; discriminate].
  - rewrite (String.eqb_sym c c'). destruct (String.eqb c' c); simpl.
    + split; [intros _; exists t; reflexivity|reflexivity].
    + exact IH.
Qed.

(** Reading a cell of a row rebuilt column by column. *)
Lemma cell_rebuilt : forall (f : string * dtype -> value) cols c,
  cell (map (fun ct => (fst ct, f ct)) cols) c =
  match lookup cols c with
  | Some t => f (c, t)
  | None => VNaN
  end.
Proof.
  intros f cols c. unfold cell.
  induction cols as [|[c' t] cols IH]; simpl.
  - reflexivity.
  - destruct (String.eqb_spec c' c) as [E|E].
    + subst. reflexivity.
    + exact IH.
Qed.

(** A suffix never turns a column name into the key's name. *)
Lemma suffix_x_not_dossier : forall c, c ++ "_x" <> dossier.
Proof.
  intros c. unfold dossier.
  destruct c as [|a1 [|a2 [|a3 [|a4 [|a5 [|a6 [|a7 [|a8 c]]]]]]]];
    simpl; intros H; discriminate H.
Qed.

Lemma suffix_y_not_dossier : forall c, c ++ "_y" <> dossier.
Proof.
  intros c. unfold dossier.
  destruct c as [|a1 [|a2 [|a3 [|a4 [|a5 [|a6 [|a7 [|a8 c]]]]]]]];
    simpl; intros H; discriminate H.
Qed.

Lemma suffixed_is_dossier : forall left right sfx c,
  sfx = "_x" \/ sfx = "_y" ->
  String.eqb (suffixed dossier left right sfx c) dossier = String.eqb c dossier.
Proof.
  intros left right sfx c Hs. unfold suffixed, overlapping.
  destruct (String.eqb_spec c dossier) as [E|E]; simpl.
  - subst. apply String.eqb_refl.
  - destruct (mem c (names left) && mem c (names right)); simpl.
    + apply String.eqb_neq. destruct Hs; subst sfx.
      * apply suffix_x_not_dossier.
      * apply suffix_y_not_dossier.
    + apply String.eqb_neq. exact E.
Qed.

(** The key column of a joined row, and of the joined columns. *)
Lemma lookup_suffixed_dossier :
  forall {A : Type} left right sfx (f : string * dtype -> A) cols,
  sfx = "_x" \/ sfx = "_y" ->
  lookup (map (fun ct => (suffixed dossier left right sfx (fst ct), f ct)) cols) dossier =
  match lookup cols dossier with
  | Some t => Some (f (dossier, t))
  | None => None
  end.
Proof.
  intros A left right sfx f cols Hs.
  induction cols as [|[c t] cols IH]; simpl.
  - reflexivity.
  - rewrite suffixed_is_dossier by exact Hs.
    destruct (String.eqb_spec c dossier) as [E|E].
    + subst. reflexivity.
    + exact IH.
Qed.

Lemma join_row_key : forall left right lcell rcell t,
  lookup (columns left) dossier = Some t ->
  cell (join_row dossier left right lcell rcell) dossier = lcell dossier.
Proof.
  intros left right lcell rcell t H. unfold cell, join_row.
  rewrite lookup_app.
  rewrite (lookup_suffixed_dossier left right "_x" (fun ct => lcell (fst ct)))
    by (left; reflexivity).
  rewrite H. reflexivity.
Qed.

Lemma merged_columns_key : forall left right t,
  lookup (columns left) dossier = Some t ->
  lookup (merged_columns dossier left right) dossier = Some t.
Proof.
  intros left right t H. unfold merged_columns.
  rewrite lookup_app.
  rewrite (lookup_suffixed_dossier left right "_x" (fun ct => snd ct))
    by (left; reflexivity).
  rewrite H. reflexivity.
Qed.

(** ** The outer join *)

Lemma value_eqb_eq : forall a b, value_eqb a b = true <-> a = b.
Proof.
  intros [x|s|] [y|t|]; simpl; split; intros H;
    try discriminate; try reflexivity.
  - apply Z.eqb_eq in H. congruence.
  - inversion H. apply Z.eqb_refl.
  - apply String.eqb_eq in H. congruence.
  - inversion H. apply String.eqb_refl.
Qed.

Lemma pd_merge_outer_inv : forall left right merged,
  pd_merge_outer dossier left right = OK merged ->
  exists t,
    lookup (columns left) dossier = Some t /\
    lookup (columns right) dossier = Some t /\
    has_dup (map fst (merged_columns dossier left right)) = false /\
    columns merged = merged_columns dossier left right /\
    rows merged =
      stable_sort (fun r1 r2 => value_leb (cell r1 dossier) (cell r2 dossier))
                  (left_rows dossier left right ++ right_only_rows dossier left right).
Proof.
  intros left right merged. unfold pd_merge_outer.
  destruct (lookup (columns left) dossier) as [tl|]; [|discriminate].
  destruct (lookup (columns right) dossier) as [tr|]; [|discriminate].
  destruct (dtype_eqb tl tr) eqn:Et; simpl; [|discriminate].
  destruct (has_dup (map fst (merged_columns dossier left right))) eqn:Ed;
    [discriminate|].
  intros H. inversion H; subst merged; clear H. simpl.
  exists tl. repeat split; auto.
  destruct tl, tr; simpl in Et; congruence.
Qed.

Lemma matches_in : forall k rs r,
  In r (matches dossier k rs) <-> In r rs /\ cell r dossier = k.
Proof.
  intros k rs r. unfold matches. rewrite filter_In, value_eqb_eq. reflexivity.
Qed.

Lemma matches_nil : forall k rs,
  matches dossier k rs = [] <-> ~ In k (map (fun r => cell r dossier) rs).
Proof.
  intros k rs. split.
  - intros H Hin. apply in_map_iff in Hin. destruct Hin as [r [E Hr]].
    assert (Hm : In r (matches dossier k rs)) by (apply matches_in; auto).
    rewrite H in Hm. exact Hm.
  - intros H. destruct (matches dossier k rs) as [|r ms] eqn:E; [reflexivity|].
    exfalso. apply H.
    assert (Hm : In r (matches dossier k rs)) by (rewrite E; left; reflexivity).
    apply matches_in in Hm. destruct Hm as [Hr Hk].
    apply in_map_iff. exists r. auto.
Qed.

Lemma left_rows_keys : forall left right t v,
  lookup (columns left) dossier = Some t ->
  In v (map (fun r => cell r dossier) (left_rows dossier left right)) <->
  In v (key_values left).
Proof.
  intros left right t v Hk. unfold left_rows, key_values, column_values.
  rewrite !in_map_iff. split.
  - intros [row [Hv Hin]]. apply in_flat_map in Hin.
    destruct Hin as [l [Hl Hrow]]. exists l. split; [|exact Hl].
    rewrite <- Hv.
    destruct (matches dossier (cell l dossier) (rows right)) as [|m ms].
    + destruct Hrow as [Hrow|[]]. subst row.
      symmetry. eapply join_row_key; eauto.
    + apply in_map_iff in Hrow. destruct Hrow as [r [Hrow _]]. subst row.
      symmetry. eapply join_row_key; eauto.
  - intros [l [Hv Hl]].
    destruct (matches dossier (cell l dossier) (rows right)) as [|m ms] eqn:E.
    + exists (join_row dossier left right (cell l) (fun _ => VNaN)). split.
      * rewrite <- Hv. eapply join_row_key; eauto.
      * apply in_flat_map. exists l. split; [exact Hl|].
        rewrite E. left. reflexivity.
    + exists (join_row dossier left right (cell l) (cell m)). split.
      * rewrite <- Hv. eapply join_row_key; eauto.
      * apply in_flat_map. exists l. split; [exact Hl|].
        rewrite E. left. reflexivity.
Qed.

Lemma right_only_rows_keys : forall left right t v,
  lookup (columns left) dossier = Some t ->
  In v (map (fun r => cell r dossier) (right_only_rows dossier left right)) <->
  In v (key_values right) /\ ~ In v (key_values left).
Proof.
  intros left right t v Hk. unfold right_only_rows, key_values, column_values.
  rewrite map_map.
  rewrite in_map_iff. split.
  - intros [r [Hv Hin]]. apply filter_In in Hin. destruct Hin as [Hr Hm].
    rewrite (join_row_key left right _ _ t Hk) in Hv.
    unfold dossier in Hv at 1 2. simpl in Hv. fold dossier in Hv.
    subst v. split.
    + apply in_map_iff. exists r. auto.
    + apply matches_nil.
      destruct (matches dossier (cell r dossier) (rows left)); [reflexivity|discriminate].
  - intros [Hin Hnot]. apply in_map_iff in Hin. destruct Hin as [r [Hv Hr]].
    exists r. split.
    + rewrite (join_row_key left right _ _ t Hk).
      unfold dossier at 1 2. simpl. exact Hv.
    + apply filter_In. split; [exact Hr|].
      subst v. apply matches_nil in Hnot. rewrite Hnot. reflexivity.
Qed.

Lemma in_key_values_dec : forall v df,
  In v (key_values df) \/ ~ In v (key_values df).
Proof.
  intros v df.
  destruct (matches dossier v (rows df)) as [|r rs] eqn:E.
  - right. apply matches_nil in E. exact E.
  - left. assert (H : In r (matches dossier v (rows df))) by (rewrite E; left; reflexivity).
    apply matches_in in H. destruct H as [Hr Hv].
    unfold key_values, column_values. apply in_map_iff. exists r. auto.
Qed.

(** The keys of an outer join are those of its two sides. *)
Lemma pd_merge_outer_keys : forall left right merged v,
  pd_merge_outer dossier left right = OK merged ->
  In v (key_values merged) <-> In v (key_values left) \/ In v (key_values right).
Proof.
  intros left right merged v H.
  destruct (pd_merge_outer_inv _ _ _ H) as (t & Hl & Hr & _ & _ & Hrows).
  unfold key_values at 1, column_values. rewrite Hrows.
  assert (Hperm : forall x,
    In x (map (fun r => cell r dossier)
              (stable_sort (fun r1 r2 => value_leb (cell r1 dossier) (cell r2 dossier))
                 (left_rows dossier left right ++ right_only_rows dossier left right))) <->
    In x (map (fun r => cell r dossier)
              (left_rows dossier left right ++ right_only_rows dossier left right))).
  { intros x. rewrite !in_map_iff. split; intros [r [E Hin]]; exists r; split; auto;
      apply stable_sort_in in Hin || apply stable_sort_in; exact Hin. }
  rewrite Hperm, map_app, in_app_iff.
  rewrite (left_rows_keys left right t v Hl).
  rewrite (right_only_rows_keys left right t v Hl).
  split.
  - intros [H1|[H1 _]]; auto.
  - intros [H1|H1]; auto.
    destruct (in_key_values_dec v left); auto.
Qed.

Lemma merge_loop_keys : forall rest first merged v,
  merge_loop first rest = OK merged ->
  In v (key_values merged) <->
  In v (key_values first) \/ exists df, In df rest /\ In v (key_values df).
Proof.
  induction rest as [|df rest IH]; intros first merged v H; simpl in H.
  - inversion H; subst. split; [auto|].
    intros [Hv|[df [[] _]]]. exact Hv.
  - unfold bind in H.
    destruct (pd_merge_outer dossier first df) as [m|] eqn:E; [|discriminate].
    rewrite (IH m merged v H), (pd_merge_outer_keys _ _ _ v E). split.
    + intros [[H1|H1]|[df' [Hin H1]]]; auto.
      * right. exists df. split; [left; reflexivity|exact H1].
      * right. exists df'. split; [right; exact Hin|exact H1].
    + intros [H1|[df' [[Heq|Hin] H1]]]; auto.
      * subst df'. auto.
      * right. exists df'. auto.
Qed.

Lemma merge_loop_key_column : forall rest first merged t,
  merge_loop first rest = OK merged ->
  lookup (columns first) dossier = Some t ->
  lookup (columns merged) dossier = Some t.
Proof.
  induction rest as [|df rest IH]; intros first merged t H Hk; simpl in H.
  - inversion H; subst. exact Hk.
  - unfold bind in H.
    destruct (pd_merge_outer dossier first df) as [m|] eqn:E; [|discriminate].
    apply (IH m merged t H).
    destruct (pd_merge_outer_inv _ _ _ E) as (t' & Hl & _ & _ & Hc & _).
    rewrite Hc. apply merged_columns_key. exact Hk.
Qed.

Lemma merge_loop_needs_key : forall df rest first merged,
  merge_loop first (df :: rest) = OK merged ->
  exists t, lookup (columns first) dossier = Some t.
Proof.
  intros df rest first merged H. simpl in H. unfold bind in H.
  destruct (pd_merge_outer dossier first df) as [m|] eqn:E; [|discriminate].
  destruct (pd_merge_outer_inv _ _ _ E) as (t & Hl & _). exists t. exact Hl.
Qed.

(** ** Filling the missing cells *)

Lemma merge_dataframes_inv : forall first rest merged,
  merge_dataframes (first :: rest) = OK merged ->
  exists joined fill_row,
    merge_loop first rest = OK joined /\
    columns merged = columns joined /\
    rows merged = map fill_row (rows joined) /\
    forall r c,
      cell (fill_row r) c =
      match lookup (columns joined) c with
      | Some t => filled t (cell r c)
      | None => VNaN
      end.
Proof.
  intros first rest merged H. unfold merge_dataframes, bind in H.
  destruct (merge_loop first rest) as [joined|] eqn:E; [|discriminate].
  inversion H; subst merged; clear H.
  exists joined.
  eexists. split; [reflexivity|]. split; [reflexivity|].
  split.
  - unfold fillna, fillna_where. simpl. rewrite map_map. reflexivity.
  - intros r c. cbv beta.
    rewrite (cell_rebuilt
               (fun ct => match cell _ (fst ct) with
                          | VNaN => if true then VStr "" else VNaN
                          | x => x
                          end)).
    destruct (lookup (columns joined) c) as [t|] eqn:Hc; [|reflexivity].
    cbn [fst].
    rewrite (cell_rebuilt
               (fun ct => match cell r (fst ct) with
                          | VNaN => if is_number (snd ct) then VNum 0 else VNaN
                          | x => x
                          end)).
    rewrite Hc. cbn [fst snd]. unfold filled.
    destruct (cell r c); try reflexivity.
    destruct (is_number t); reflexivity.
Qed.

Lemma filled_not_nan : forall t v, filled t v <> VNaN.
Proof.
  intros t [n|s|]; simpl; try discriminate.
  destruct (is_number t); discriminate.
Qed.

Lemma filled_id : forall t v, v <> VNaN -> filled t v = v.
Proof.
  intros t [n|s|] H; simpl; try reflexivity. congruence.
Qed.

(** ** Tables that merge without an exception *)

Lemma has_dup_false : forall l, has_dup l = false <-> NoDup l.
Proof.
  induction l as [|c l IH]; simpl.
  - split; [constructor|reflexivity].
  - rewrite orb_false_iff, IH, NoDup_cons_iff. split.
    + intros [Hm Hn]. split; [|exact Hn].
      intros Hin. apply mem_in in Hin. congruence.
    + intros [Hm Hn]. split; [|exact Hn].
      destruct (mem c l) eqn:E; [|reflexivity].
      apply mem_in in E. contradiction.
Qed.

Lemma NoDup_app_disjoint : forall (l1 l2 : list string) a,
  NoDup (l1 ++ l2) -> In a l1 -> In a l2 -> False.
Proof.
  induction l1 as [|x l1 IH]; intros l2 a H H1 H2; simpl in *.
  - exact H1.
  - inversion H as [|x' l' Hnotin Hnd]; subst. destruct H1 as [E|H1].
    + subst. apply Hnotin. apply in_or_app. right. exact H2.
    + eapply IH; eauto.
Qed.

Lemma others_names : forall right,
  map fst (others dossier right) = other_names right.
Proof.
  intros right. unfold others, other_names, names.
  induction (columns right) as [|[c t] cols IH]; simpl.
  - reflexivity.
  - destruct (String.eqb c dossier); simpl; [exact IH|].
    rewrite IH. reflexivity.
Qed.

Lemma no_overlap : forall left right c,
  NoDup (names left ++ other_names right) ->
  overlapping dossier left right c = false.
Proof.
  intros left right c H. unfold overlapping.
  destruct (String.eqb_spec c dossier) as [E|E]; simpl; [reflexivity|].
  destruct (mem c (names left)) eqn:E1; simpl; [|reflexivity].
  destruct (mem c (names right)) eqn:E2; simpl; [|reflexivity].
  exfalso. apply mem_in in E1, E2.
  apply (NoDup_app_disjoint _ _ c H E1).
  unfold other_names. apply filter_In. split; [exact E2|].
  apply negb_true_iff, String.eqb_neq. exact E.
Qed.

Lemma merged_names : forall left right,
  NoDup (names left ++ other_names right) ->
  map fst (merged_columns dossier left right) = (names left ++ other_names right)%list.
Proof.
  intros left right H. unfold merged_columns.
  rewrite map_app, !map_map. cbn [fst].
  rewrite <- others_names. unfold names. f_equal.
  - apply map_ext. intros ct. unfold suffixed. rewrite no_overlap by exact H. reflexivity.
  - rewrite <- map_map with (f := fst) (g := fun c => c).
    rewrite map_id. apply map_ext. intros ct.
    unfold suffixed. rewrite no_overlap by exact H. reflexivity.
Qed.

Lemma pd_merge_outer_succeeds : forall left right t,
  lookup (columns left) dossier = Some t ->
  lookup (columns right) dossier = Some t ->
  NoDup (names left ++ other_names right) ->
  exists merged,
    pd_merge_outer dossier left right = OK merged /\
    names merged = (names left ++ other_names right)%list /\
    lookup (columns merged) dossier = Some t.
Proof.
  intros left right t Hl Hr Hn. unfold pd_merge_outer. rewrite Hl, Hr.
  assert (Et : dtype_eqb t t = true) by (destruct t; reflexivity).
  rewrite Et. simpl.
  rewrite merged_names by exact Hn.
  apply has_dup_false in Hn. rewrite Hn.
  eexists. split; [reflexivity|]. simpl. split.
  - unfold names. simpl. apply merged_names. apply has_dup_false. exact Hn.
  - apply merged_columns_key. exact Hl.
Qed.

Lemma merge_loop_succeeds : forall rest first t,
  lookup (columns first) dossier = Some t ->
  (forall df, In df rest -> lookup (columns df) dossier = Some t) ->
  NoDup (names first ++ flat_map other_names rest) ->
  exists merged, merge_loop first rest = OK merged.
Proof.
  induction rest as [|df rest IH]; intros first t Hk Hall Hn; simpl.
  - eexists. reflexivity.
  - simpl in Hn. rewrite app_assoc in Hn.
    destruct (pd_merge_outer_succeeds first df t Hk) as (m & Hm & Hnames & Hkm).
    + apply Hall. left. reflexivity.
    + eapply NoDup_app_remove_r. exact Hn.
    + rewrite Hm. simpl. apply (IH m t Hkm).
      * intros df' Hin. apply Hall. right. exact Hin.
      * rewrite Hnames. exact Hn.
Qed.

Lemma merge_dataframes_succeeds : forall dataframes,
  compatible dataframes = true ->
  exists merged, merge_dataframes dataframes = OK merged.
Proof.
  intros [|first rest] H; simpl.
  - eexists. reflexivity.
  - assert (Hloop : exists joined, merge_loop first rest = OK joined).
    { simpl in H. destruct (lookup (columns first) dossier) as [t|] eqn:Hk.
      - apply andb_true_iff in H. destruct H as [Hall Hn].
        apply (merge_loop_succeeds rest first t Hk).
        + intros df Hin. rewrite forallb_forall in Hall. specialize (Hall df Hin).
          destruct (lookup (columns df) dossier) as [t'|]; [|discriminate].
          destruct t, t'; simpl in Hall; congruence.
        + apply has_dup_false. apply negb_true_iff. exact Hn.
      - destruct rest; [|discriminate]. eexists. reflexivity. }
    destruct Hloop as [joined Hj]. rewrite Hj. simpl. eexists. reflexivity.
Qed.

(** ** Result merger *)

Lemma keyed_inv : forall df,
  keyed df = true ->
  (exists t, lookup (columns df) dossier = Some t) /\
  (forall v, In v (key_values df) -> v <> VNaN).
Proof.
  intros df H. unfold keyed in H. apply andb_true_iff in H. destruct H as [Hc Hv].
  split; [apply has_column_lookup; exact Hc|].
  intros v Hin. rewrite forallb_forall in Hv. specialize (Hv v Hin).
  destruct v; simpl in Hv; congruence.
Qed.

Lemma merged_keys : forall first rest merged v,
  forallb keyed (first :: rest) = true ->
  merge_dataframes (first :: rest) = OK merged ->
  In v (key_values merged) <->
  exists df, In df (first :: rest) /\ In v (key_values df).
Proof.
  intros first rest merged v Hkeyed H.
  destruct (merge_dataframes_inv _ _ _ H) as (joined & fill_row & Hj & Hc & Hr & Hfill).
  rewrite forallb_forall in Hkeyed.
  destruct (keyed_inv first (Hkeyed first (or_introl eq_refl))) as [[t Hk] _].
  pose proof (merge_loop_key_column _ _ _ _ Hj Hk) as Hkj.
  assert (Hunion : forall x,
    In x (key_values joined) <-> exists df, In df (first :: rest) /\ In x (key_values df)).
  { intros x. rewrite (merge_loop_keys _ _ _ x Hj). split.
    - intros [H1|[df [Hin H1]]].
      + exists first. split; [left; reflexivity|exact H1].
      + exists df. split; [right; exact Hin|exact H1].
    - intros [df [[E|Hin] H1]].
      + subst. left. exact H1.
      + right. exists df. auto. }
  assert (Hsame : forall r, In r (rows joined) ->
                            cell (fill_row r) dossier = cell r dossier).
  { intros r Hin. rewrite Hfill, Hkj. apply filled_id.
    assert (Hx : In (cell r dossier) (key_values joined)).
    { unfold key_values, column_values.
      apply (in_map (fun r0 => cell r0 dossier)). exact Hin. }
    apply Hunion in Hx. destruct Hx as [df [Hdf Hx]].
    destruct (keyed_inv df (Hkeyed df Hdf)) as [_ Hnn]. apply Hnn. exact Hx. }
  rewrite <- Hunion.
  unfold key_values, column_values. rewrite Hr, map_map.
  rewrite !in_map_iff. split; intros [r [E Hin]]; exists r; split; auto.
  - rewrite <- Hsame; assumption.
  - rewrite Hsame; assumption.
Qed.

(** C2.  For a non-empty list of tables keyed by [dossier], the dossier
    values of the merged table are exactly those of the input tables: none
    is dropped and none is invented.  The merge does return a table when
    the key columns have one dtype and the other column names are distinct. *)
Theorem merged_keys_are_union : forall dataframes,
  dataframes <> [] ->
  forallb keyed dataframes = true ->
  (forall merged v,
     merge_dataframes dataframes = OK merged ->
     In v (key_values merged) <->
     exists df, In df dataframes /\ In v (key_values df)) /\
  (compatible dataframes = true ->
   exists merged, merge_dataframes dataframes = OK merged).
Proof.
  intros [|first rest] Hne Hkeyed; [congruence|]. split.
  - intros merged v H. apply merged_keys; assumption.
  - apply merge_dataframes_succeeds.
Qed.

Lemma merged_keys_are_union_witness :
  (In (VStr "B") (key_values merged_scenario) <->
   exists df, In df [table_exportees; table_a_traiter] /\ In (VStr "B") (key_values df)) /\
  (exists merged, merge_dataframes [table_exportees; table_a_traiter] = OK merged).
Proof.
  pose proof (merged_keys_are_union [table_exportees; table_a_traiter]
                ltac:(discriminate) eq_refl) as H.
  split.
  - apply (proj1 H merged_scenario (VStr "B")). reflexivity.
  - apply (proj2 H). reflexivity.
Defined.

(** C3, as amended.  In every row of the merged table every column holds
    a value: a missing cell of a numeric column has become 0, a missing
    cell of any other column the empty string, and the other cells are
    those of the join.  The dossier of a row is never missing; it is
    non-empty when the inputs are keyed by [dossier] and none of their
    rows has an empty dossier. *)
Theorem merged_table_filled : forall first rest merged,
  merge_dataframes (first :: rest) = OK merged ->
  (forall r c t,
     In r (rows merged) -> lookup (columns merged) c = Some t ->
     cell r c <> VNaN) /\
  (exists joined,
     merge_loop first rest = OK joined /\
     columns merged = columns joined /\
     Forall2 (fun r r' => forall c t,
                lookup (columns joined) c = Some t ->
                cell r' c = filled t (cell r c))
             (rows joined) (rows merged)) /\
  (forallb keyed (first :: rest) = true ->
   forallb keys_not_blank (first :: rest) = true ->
   forall r, In r (rows merged) ->
             cell r dossier <> VNaN /\ cell r dossier <> VStr "").
Proof.
  intros first rest merged H.
  destruct (merge_dataframes_inv _ _ _ H) as (joined & fill_row & Hj & Hc & Hr & Hfill).
  split; [|split].
  - intros r c t Hin Hl. rewrite Hr in Hin. apply in_map_iff in Hin.
    destruct Hin as [r0 [E _]]. subst r. rewrite Hfill, <- Hc, Hl.
    apply filled_not_nan.
  - exists joined. split; [exact Hj|]. split; [exact Hc|].
    rewrite Hr. clear Hr. induction (rows joined) as [|r rs IH]; simpl.
    + constructor.
    + constructor; [|exact IH]. intros c t Hl. rewrite Hfill, Hl. reflexivity.
  - intros Hkeyed Hblank r Hin.
    assert (Hx : In (cell r dossier) (key_values merged)).
    { unfold key_values, column_values.
      apply (in_map (fun r0 => cell r0 dossier)). exact Hin. }
    apply (merged_keys _ _ _ _ Hkeyed H) in Hx. destruct Hx as [df [Hdf Hx]].
    rewrite forallb_forall in Hkeyed, Hblank. split.
    + destruct (keyed_inv df (Hkeyed df Hdf)) as [_ Hnn]. apply Hnn. exact Hx.
    + specialize (Hblank df Hdf). unfold keys_not_blank in Hblank.
      rewrite forallb_forall in Hblank. specialize (Hblank _ Hx).
      intros E. rewrite E in Hblank. discriminate Hblank.
Qed.

Lemma merged_table_filled_witness :
  cell row_B "nb_pieces_exportees" <> VNaN /\
  (cell row_B dossier <> VNaN /\ cell row_B dossier <> VStr "").
Proof.
  pose proof (merged_table_filled table_exportees [table_a_traiter]
                merged_scenario eq_refl) as H.
  split.
  - apply (proj1 H row_B "nb_pieces_exportees" Number).
    + right. left. reflexivity.
    + reflexivity.
  - apply (proj2 (proj2 H) eq_refl eq_refl row_B). right. left. reflexivity.
Defined.

(** C3 as stated fails: a result row whose dossier is the empty string
    keeps it through the merge. *)
Lemma merged_table_filled_counterexample :
  merge_dataframes [table_blank_key] = OK table_blank_key /\
  In [("dossier", VStr ""); ("nb_pieces_exportees", VNum 5)] (rows table_blank_key) /\
  cell [("dossier", VStr ""); ("nb_pieces_exportees", VNum 5)] dossier = VStr "".
Proof.
  split; [reflexivity|]. split; [left; reflexivity|reflexivity].
Qed.

(** C5.  The scenario: the two tables merge to rows A (5 exported, 60 to
    process) and B (0 exported, 3 to process); sorted, A comes before B;
    A's pieces-to-process cell is flagged and B's is neutral. *)
Theorem scenario_merge_sort_classify :
  merge_dataframes [table_exportees; table_a_traiter] = OK merged_scenario /\
  final_table [table_exportees; table_a_traiter] = OK merged_scenario /\
  rows merged_scenario = [row_A; row_B] /\
  render_rows merged_scenario (rows merged_scenario) =
    OK [ {| td_dossier := VStr "A";
            td_pieces_exportees := 5; td_ecritures_exportees := 0;
            td_pieces_a_traiter := 60; td_pieces_class := "warning";
            td_ecritures_a_traiter := 0;
            td_comptes_attente := 0; td_comptes_class := "good";
            td_date_min := VStr ""; td_date_max := VStr "" |};
         {| td_dossier := VStr "B";
            td_pieces_exportees := 0; td_ecritures_exportees := 0;
            td_pieces_a_traiter := 3; td_pieces_class := "";
            td_ecritures_a_traiter := 0;
            td_comptes_attente := 0; td_comptes_class := "good";
            td_date_min := VStr ""; td_date_max := VStr "" |} ] /\
  map td_pieces_class (table report_scenario) = ["warning"; ""] /\
  html_content (now world_scenario) merged_scenario = OK report_scenario.
Proof.
  repeat split; reflexivity.
Qed.

(** ** Orchestrator *)

Lemma execute_query_no_write : forall w query_name query path doc,
  ~ In (WriteFile path doc) (fst (execute_query w query_name query)).
Proof.
  intros w query_name query path doc. unfold execute_query.
  destruct (read_sql_query w query); simpl; intros [H|[H|[]]]; discriminate H.
Qed.

Lemma run_queries_no_write : forall w queries dataframes path doc,
  ~ In (WriteFile path doc) (fst (run_queries w queries dataframes)).
Proof.
  intros w. induction queries as [|[query_name query] queries IH];
    intros dataframes path doc; simpl.
  - intros [].
  - pose proof (execute_query_no_write w query_name query path doc) as He.
    destruct (execute_query w query_name query) as [ev df].
    match goal with
    | |- context [run_queries w queries ?d] =>
        pose proof (IH d path doc) as Hq;
        destruct (run_queries w queries d) as [evs dfs]
    end.
    simpl in *. rewrite in_app_iff. tauto.
Qed.

Lemma report_step_write_inv : forall w dataframes path doc,
  In (WriteFile path doc) (fst (report_step w dataframes)) ->
  exists final_df,
    final_table dataframes = OK final_df /\
    html_content (now w) final_df = OK doc.
Proof.
  intros w dataframes path doc. unfold report_step.
  destruct dataframes as [|df dfs].
  - simpl. intros [H|[H|[]]]; discriminate H.
  - destruct (final_table (df :: dfs)) as [final_df|e]; [|intros []].
    unfold generate_html_report.
    destruct (html_content (now w) final_df) as [doc'|e] eqn:Ed; [|intros []].
    destruct (write_file w _).
    + simpl. intros [H|[]]. discriminate H.
    + simpl. intros [H|[H|H]].
      * discriminate H.
      * inversion H; subst. exists final_df. auto.
      * repeat (destruct H as [H|H]; [discriminate H|]). destruct H.
Qed.

Lemma run_write_inv : forall w path doc,
  In (WriteFile path doc) (fst (run w)) ->
  exists final_df,
    final_table (snd (run_queries w QUERIES [])) = OK final_df /\
    html_content (now w) final_df = OK doc.
Proof.
  intros w path doc. unfold run.
  destruct (load_config (config_txt w)) as [cfg|e]; [|intros []].
  cbn [fst]. unfold main, connect_database.
  pose proof (run_queries_no_write w QUERIES [] path doc) as Hq.
  remember (run_queries w QUERIES []) as rq eqn:Erq.
  destruct rq as [evq dataframes].
  pose proof (report_step_write_inv w dataframes path doc) as Hr.
  destruct (report_step w dataframes) as [evr r].
  cbn [fst snd] in *.
  destruct (config_txt w).
  - destruct (connect w cfg).
    + cbn. intros H. repeat (destruct H as [H|H]; [discriminate H|]). destruct H.
    + cbn [negb app]. intros H.
      repeat (destruct H as [H|H]; [discriminate H|]).
      rewrite !in_app_iff in H. destruct H as [H|[H|[H|H]]].
      * contradiction.
      * auto.
      * destruct r; simpl in H; [destruct H|].
        repeat (destruct H as [H|H]; [discriminate H|]). destruct H.
      * simpl in H. repeat (destruct H as [H|H]; [discriminate H|]). destruct H.
  - cbn. intros H. repeat (destruct H as [H|H]; [discriminate H|]). destruct H.
Qed.

Lemma render_rows_each : forall df rs trs,
  render_rows df rs = OK trs ->
  Forall2 (fun r tr => render_row df r = OK tr) rs trs.
Proof.
  intros df. induction rs as [|r rs IH]; intros trs H; simpl in H.
  - inversion H. constructor.
  - unfold bind in H.
    destruct (render_row df r) as [tr|] eqn:E; [|discriminate].
    destruct (render_rows df rs) as [trs'|]; [|discriminate].
    inversion H; subst. constructor; [exact E|]. apply IH. reflexivity.
Qed.

Lemma Forall2_map_left :
  forall {A B C : Type} (f : A -> B) (P : A -> C -> Prop) (Q : B -> C -> Prop) l l',
  (forall x y, P x y -> Q (f x) y) ->
  Forall2 P l l' -> Forall2 Q (map f l) l'.
Proof.
  intros A B C f P Q l l' Himp H.
  induction H as [|x y l l' Hxy _ IH]; simpl; constructor; auto.
Qed.

Lemma render_row_pieces : forall df r tr,
  render_row df r = OK tr ->
  py_int (row_get df r "nb_pieces_a_traiter" (VNum 0)) = OK (td_pieces_a_traiter tr) /\
  py_int (row_get df r "nb_comptes_attente" (VNum 0)) = OK (td_comptes_attente tr) /\
  td_pieces_class tr = pieces_class (td_pieces_a_traiter tr) /\
  td_comptes_class tr = comptes_class (td_comptes_attente tr).
Proof.
  intros df r tr. unfold render_row, bind.
  destruct (py_int (row_get df r "nb_pieces_a_traiter" (VNum 0))); [|discriminate].
  destruct (py_int (row_get df r "nb_comptes_attente" (VNum 0))); [|discriminate].
  destruct (row_item df r "dossier"); [|discriminate].
  destruct (py_int (row_get df r "nb_pieces_exportees" (VNum 0))); [|discriminate].
  destruct (py_int (row_get df r "nb_ecritures_exportees" (VNum 0))); [|discriminate].
  destruct (py_int (row_get df r "nb_ecritures_a_traiter" (VNum 0))); [|discriminate].
  intros H. inversion H; subst; simpl. auto.
Qed.

(** C4.  Whenever a report is written, its rows are those of the merged
    table, reordered so that the pieces-to-process column is
    non-increasing with the missing values last; each row of the
    document shows the integer of that column's cell. *)
Theorem rendered_rows_sorted : forall w path doc,
  In (WriteFile path doc) (fst (run w)) ->
  exists dataframes merged final_df,
    merge_dataframes dataframes = OK merged /\
    sort_values "nb_pieces_a_traiter" false merged = OK final_df /\
    html_content (now w) final_df = OK doc /\
    Permutation (rows merged) (rows final_df) /\
    StronglySorted precedes_desc (column_values "nb_pieces_a_traiter" final_df) /\
    Forall2 (fun v tr => py_int v = OK (td_pieces_a_traiter tr))
            (column_values "nb_pieces_a_traiter" final_df) (table doc).
Proof.
  intros w path doc H.
  destruct (run_write_inv _ _ _ H) as (final_df & Hf & Hd).
  unfold final_table, bind in Hf.
  destruct (merge_dataframes (snd (run_queries w QUERIES []))) as [merged|] eqn:Em;
    [|discriminate].
  exists (snd (run_queries w QUERIES [])), merged, final_df.
  destruct (sort_values_desc _ _ _ Hf) as (Hcol & Hc & Hp & Hs).
  repeat split; auto.
  assert (Hhas : has_column "nb_pieces_a_traiter" final_df = true).
  { unfold has_column, names in *. rewrite Hc. exact Hcol. }
  unfold html_content, bind in Hd.
  destruct (render_rows final_df (rows final_df)) as [trs|] eqn:Er; [|discriminate].
  inversion Hd; subst doc; clear Hd. simpl.
  apply render_rows_each in Er. unfold column_values.
  eapply Forall2_map_left; [|exact Er].
  intros r tr Hr. cbv beta in Hr.
  apply render_row_pieces in Hr. destruct Hr as [Hr _].
  unfold row_get in Hr. rewrite Hhas in Hr. exact Hr.
Qed.

Lemma rendered_rows_sorted_witness :
  exists dataframes merged final_df,
    merge_dataframes dataframes = OK merged /\
    sort_values "nb_pieces_a_traiter" false merged = OK final_df /\
    html_content (now world_scenario) final_df = OK report_scenario /\
    Permutation (rows merged) (rows final_df) /\
    StronglySorted precedes_desc (column_values "nb_pieces_a_traiter" final_df) /\
    Forall2 (fun v tr => py_int v = OK (td_pieces_a_traiter tr))
            (column_values "nb_pieces_a_traiter" final_df) (table report_scenario).
Proof.
  apply (rendered_rows_sorted world_scenario "kpi_dashboard_20240101.html").
  vm_compute. do 16 right. left. reflexivity.
Defined.





(** A failing query is reported, contributes the empty table and does
    not stop the loop: every query of the catalog is run. *)
Lemma execute_query_failure : forall w query_name query e,
  read_sql_query w query = inl e ->
  execute_query w query_name query =
    ([ReadSql query;
      Print ("❌ Erreur lors de l'exécution de " ++ query_name ++ ": " ++ e)],
     empty_frame).
Proof.
  intros w query_name query e H. unfold execute_query. rewrite H. reflexivity.
Qed.

Lemma run_queries_runs_all : forall w queries dataframes name q,
  In (name, q) queries ->
  In (ReadSql q) (fst (run_queries w queries dataframes)).
Proof.
  intros w. induction queries as [|[query_name query] queries IH];
    intros dataframes name q Hin; simpl.
  - destruct Hin.
  - assert (He : In (ReadSql query) (fst (execute_query w query_name query))).
    { unfold execute_query. destruct (read_sql_query w query); left; reflexivity. }
    destruct (execute_query w query_name query) as [ev df].
    match goal with
    | |- context [run_queries w queries ?d] =>
        pose proof (IH d name q) as Hq;
        destruct (run_queries w queries d) as [evs dfs]
    end.
    simpl in *. apply in_or_app. destruct Hin as [E|Hin].
    + inversion E; subst. left. exact He.
    + right. apply Hq. exact Hin.
Qed.

(** C1, at a failing input.  The query [pieces_non_exportees] fails and
    every other query returns a row.  The failure is printed and the
    remaining queries run, but the merged table then lacks the column the
    sort is by: the sort raises, the run prints the error and ends, and no
    report is written. *)
Theorem failed_query_blocks_report :
  snd (run world_pieces_query_fails) = None /\
  In (Print "❌ Erreur lors de l'exécution de pieces_non_exportees: permission denied")
     (fst (run world_pieces_query_fails)) /\
  In (ReadSql sql_dates_extremes) (fst (run world_pieces_query_fails)) /\
  List.length (snd (run_queries world_pieces_query_fails QUERIES [])) = 5%nat /\
  final_table (snd (run_queries world_pieces_query_fails QUERIES []))
    = Raise (KeyError "nb_pieces_a_traiter") /\
  In (Print "❌ Erreur lors de la génération: 'nb_pieces_a_traiter'")
     (fst (run world_pieces_query_fails)) /\
  (forall path doc, ~ In (WriteFile path doc) (fst (run world_pieces_query_fails))).
Proof.
  split; [reflexivity|].
  split; [vm_compute; do 8 right; left; reflexivity|].
  split; [vm_compute; do 13 right; left; reflexivity|].
  split; [reflexivity|].
  split; [reflexivity|].
  split; [vm_compute; do 15 right; left; reflexivity|].
  intros path doc Hin. apply run_write_inv in Hin.
  destruct Hin as (final_df & Hf & _). vm_compute in Hf. discriminate Hf.
Qed.

(** ** Severity classes *)

(** C7.  The class of a cell depends on its value alone, by fixed
    thresholds: pieces to process above 50 are flagged, 0 is nominal,
    anything else neutral (50 is neutral, 51 flagged); accounts pending
    above 10 are flagged, 0 is nominal, anything else neutral.  Every row
    of the document carries the classes of the values it shows. *)
Theorem severity_thresholds : forall v : Z,
  (v > 50 -> pieces_class v = "warning") /\
  (v = 0 -> pieces_class v = "good") /\
  (v <= 50 -> v <> 0 -> pieces_class v = "") /\
  pieces_class 50 = "" /\ pieces_class 51 = "warning" /\
  (v > 10 -> comptes_class v = "warning") /\
  (v = 0 -> comptes_class v = "good") /\
  (v <= 10 -> v <> 0 -> comptes_class v = "") /\
  (forall df r tr,
     render_row df r = OK tr ->
     td_pieces_class tr = pieces_class (td_pieces_a_traiter tr) /\
     td_comptes_class tr = comptes_class (td_comptes_attente tr)).
Proof.
  intros v.
  assert (Hp : forall x, pieces_class x =
                 if x >? 50 then "warning" else if x =? 0 then "good" else "")
    by reflexivity.
  assert (Hc : forall x, comptes_class x =
                 if x >? 10 then "warning" else if x =? 0 then "good" else "")
    by reflexivity.
  split; [intros H; rewrite Hp; destruct (Z.gtb_spec v 50); [reflexivity|lia]|].
  split; [intros H; subst v; reflexivity|].
  split; [intros H H0; rewrite Hp; destruct (Z.gtb_spec v 50); [lia|];
          destruct (Z.eqb_spec v 0); [lia|reflexivity]|].
  split; [reflexivity|]. split; [reflexivity|].
  split; [intros H; rewrite Hc; destruct (Z.gtb_spec v 10); [reflexivity|lia]|].
  split; [intros H; subst v; reflexivity|].
  split; [intros H H0; rewrite Hc; destruct (Z.gtb_spec v 10); [lia|];
          destruct (Z.eqb_spec v 0); [lia|reflexivity]|].
  intros df r tr H. apply render_row_pieces in H. tauto.
Qed.

Lemma severity_thresholds_witness :
  pieces_class 60 = "warning" /\ pieces_class 0 = "good" /\ pieces_class 7 = "" /\
  comptes_class 11 = "warning" /\ comptes_class 0 = "good" /\ comptes_class 10 = "" /\
  (td_pieces_class (List.hd (mkTableRow VNaN 0 0 0 "" 0 0 "" VNaN VNaN)
                            (table report_scenario)) =
     pieces_class 60 /\
   td_comptes_class (List.hd (mkTableRow VNaN 0 0 0 "" 0 0 "" VNaN VNaN)
                             (table report_scenario)) =
     comptes_class 0).
Proof.
  split; [apply (severity_thresholds 60); lia|].
  split; [apply (severity_thresholds 0); lia|].
  split; [apply (severity_thresholds 7); lia|].
  split; [apply (severity_thresholds 11); lia|].
  split; [apply (severity_thresholds 0); lia|].
  split; [apply (severity_thresholds 10); lia|].
  apply (severity_thresholds 0) with (df := merged_scenario) (r := row_A).
  reflexivity.
Defined.

(** * Further properties *)

(** ** The events of a run *)

(** The shape of a run once the connection is open. *)
Lemma run_connected : forall w content cfg,
  config_txt w = Some content ->
  load_config (Some content) = OK cfg ->
  connect w cfg = None ->
  run w =
    ((opening ++ [Connect cfg]
      ++ fst (run_queries w QUERIES [])
      ++ fst (report_step w (snd (run_queries w QUERIES [])))
      ++ match snd (report_step w (snd (run_queries w QUERIES []))) with
         | Raise e => [Print ("❌ Erreur lors de la génération: " ++ exn_str e);
                       Input press_enter]
         | OK _ => []
         end
      ++ closing)%list, None).
Proof.
  intros w content cfg Hc Hl Hconn.
  unfold run. rewrite Hc, Hl. unfold main, connect_database. rewrite Hc, Hconn.
  destruct (run_queries w QUERIES []) as [evq dataframes].
  cbn [fst snd negb].
  destruct (report_step w dataframes) as [evr r].
  reflexivity.
Qed.

Lemma sql_issued_app : forall t1 t2,
  sql_issued (t1 ++ t2) = (sql_issued t1 ++ sql_issued t2)%list.
Proof. intros. unfold sql_issued. apply flat_map_app. Qed.

Lemma files_written_app : forall t1 t2,
  files_written (t1 ++ t2) = (files_written t1 ++ files_written t2)%list.
Proof. intros. unfold files_written. apply flat_map_app. Qed.

Lemma pages_opened_app : forall t1 t2,
  pages_opened (t1 ++ t2) = (pages_opened t1 ++ pages_opened t2)%list.
Proof. intros. unfold pages_opened. apply flat_map_app. Qed.

Lemma closings_app : forall t1 t2,
  closings (t1 ++ t2) = (closings t1 + closings t2)%nat.
Proof. intros. unfold closings. rewrite filter_app, length_app. reflexivity. Qed.

(** What the loop over the catalog does. *)
Lemma run_queries_spec : forall w queries dataframes,
  snd (run_queries w queries dataframes) = (dataframes ++ kept_tables w queries)%list /\
  sql_issued (fst (run_queries w queries dataframes)) = map snd queries /\
  files_written (fst (run_queries w queries dataframes)) = [] /\
  pages_opened (fst (run_queries w queries dataframes)) = [] /\
  closings (fst (run_queries w queries dataframes)) = 0%nat.
Proof.
  intros w. induction queries as [|[query_name query] queries IH];
    intros dataframes; simpl.
  - rewrite app_nil_r. auto.
  - unfold execute_query.
    destruct (read_sql_query w query) as [e|df].
    + cbn [empty empty_frame columns rows].
      specialize (IH dataframes).
      destruct (run_queries w queries dataframes) as [evs dfs].
      cbn [fst snd] in *. destruct IH as (H1 & H2 & H3 & H4 & H5).
      rewrite sql_issued_app, files_written_app, pages_opened_app, closings_app.
      rewrite H1, H2, H3, H4, H5. simpl. auto.
    + destruct (empty df) eqn:Ee.
      * specialize (IH dataframes).
        destruct (run_queries w queries dataframes) as [evs dfs].
        cbn [fst snd] in *. destruct IH as (H1 & H2 & H3 & H4 & H5).
        rewrite sql_issued_app, files_written_app, pages_opened_app, closings_app.
        rewrite H1, H2, H3, H4, H5. simpl. auto.
      * specialize (IH (dataframes ++ [df])%list).
        destruct (run_queries w queries (dataframes ++ [df])) as [evs dfs].
        cbn [fst snd] in *. destruct IH as (H1 & H2 & H3 & H4 & H5).
        rewrite sql_issued_app, files_written_app, pages_opened_app, closings_app.
        rewrite H1, H2, H3, H4, H5. simpl. rewrite <- app_assoc. auto.
Qed.

Lemma report_step_report : forall w df dfs,
  report_step w (df :: dfs) =
  match report_of w (df :: dfs) with
  | OK doc => (success_events w doc, OK tt)
  | Raise e => (opened_for w (df :: dfs), Raise e)
  end.
Proof.
  intros w df dfs.
  unfold report_step, report_of, opened_for, document_of, bind, generate_html_report.
  destruct (final_table (df :: dfs)) as [final_df|e]; [|reflexivity].
  fold (output_path w).
  destruct (html_content (now w) final_df) as [doc|e]; [|reflexivity].
  destruct (write_file w (output_path w)); reflexivity.
Qed.

(** Every run is of one of four kinds. *)
Lemma run_cases : forall w,
  (exists e, run w = ([], Some e)) \/
  (config_txt w = None /\
   exists instructions,
     run w = ((opening ++ instructions)%list, None) /\
     sql_issued instructions = [] /\ files_written instructions = [] /\
     pages_opened instructions = [] /\ closings instructions = 0%nat /\
     connections instructions = []) \/
  (exists content cfg e,
     config_txt w = Some content /\ load_config (Some content) = OK cfg /\
     connect w cfg = Some e /\
     run w = ((opening ++
               [Connect cfg;
                Print ("❌ Erreur de connexion à la base de données: " ++ e);
                Input press_enter])%list, None)) \/
  (exists cfg,
     connected w cfg /\
     run w =
       ((opening ++ [Connect cfg]
         ++ fst (run_queries w QUERIES [])
         ++ match kept_tables w QUERIES with
            | [] => [Print "❌ Aucune donnée récupérée"; Input press_enter]
            | _ :: _ =>
                match report_of w (kept_tables w QUERIES) with
                | OK doc => success_events w doc
                | Raise e =>
                    (opened_for w (kept_tables w QUERIES) ++ failure_events e)%list
                end
            end
         ++ closing)%list, None)).
Proof.
  intros w.
  destruct (load_config (config_txt w)) as [cfg|e] eqn:Hl.
  2: { left. exists e. unfold run. rewrite Hl. reflexivity. }
  right.
  destruct (config_txt w) as [content|] eqn:Hc.
  2: { left. split; [reflexivity|]. eexists. split.
       - unfold run. rewrite Hc, Hl. unfold main. rewrite Hc. reflexivity.
       - repeat split; reflexivity. }
  right.
  destruct (connect w cfg) as [e|] eqn:Hconn.
  { left. exists content, cfg, e. repeat split; auto.
    unfold run. rewrite Hc, Hl. unfold main, connect_database.
    rewrite Hc, Hconn. reflexivity. }
  right. exists cfg. split; [exists content; auto|].
  rewrite (run_connected w content cfg Hc Hl Hconn).
  destruct (run_queries_spec w QUERIES []) as (Hk & _).
  rewrite Hk. cbn [app].
  destruct (kept_tables w QUERIES) as [|df dfs] eqn:Ek.
  - reflexivity.
  - rewrite report_step_report.
    destruct (report_of w (df :: dfs)) as [doc|e]; cbn [fst snd].
    + rewrite app_nil_l. reflexivity.
    + rewrite <- !app_assoc. reflexivity.
Qed.

Lemma connected_run : forall w cfg,
  connected w cfg ->
  run w =
    ((opening ++ [Connect cfg]
      ++ fst (run_queries w QUERIES [])
      ++ match kept_tables w QUERIES with
         | [] => [Print "❌ Aucune donnée récupérée"; Input press_enter]
         | _ :: _ =>
             match report_of w (kept_tables w QUERIES) with
             | OK doc => success_events w doc
             | Raise e =>
                 (opened_for w (kept_tables w QUERIES) ++ failure_events e)%list
             end
         end
      ++ closing)%list, None).
Proof.
  intros w cfg (content & Hc & Hl & Hconn).
  destruct (run_cases w) as [[e H]|[[Hn _]|[(c' & cfg' & e & Hc' & Hl' & Hconn' & _)|(cfg' & Hcon & H)]]].
  - unfold run in H. rewrite Hc, Hl in H. discriminate H.
  - congruence.
  - rewrite Hc in Hc'. inversion Hc'; subst c'. rewrite Hl in Hl'.
    inversion Hl'; subst cfg'. congruence.
  - destruct Hcon as (c' & Hc' & Hl' & _).
    rewrite Hc in Hc'. inversion Hc'; subst c'. rewrite Hl in Hl'.
    inversion Hl'; subst cfg'. exact H.
Qed.

Lemma tail_observations : forall w,
  let tail := match kept_tables w QUERIES with
              | [] => [Print "❌ Aucune donnée récupérée"; Input press_enter]
              | _ :: _ =>
                  match report_of w (kept_tables w QUERIES) with
                  | OK doc => success_events w doc
                  | Raise e =>
                      (opened_for w (kept_tables w QUERIES) ++ failure_events e)%list
                  end
              end in
  sql_issued tail = [] /\ closings tail = 0%nat /\
  pages_opened tail = map fst (files_written tail) /\
  files_written tail =
    match kept_tables w QUERIES with
    | [] => []
    | _ :: _ => match report_of w (kept_tables w QUERIES) with
                | OK doc => [(output_path w, doc)]
                | Raise _ => []
                end
    end.
Proof.
  intros w. destruct (kept_tables w QUERIES); [repeat split; reflexivity|].
  unfold opened_for.
  destruct (report_of w (d :: l)); [repeat split; reflexivity|].
  destruct (document_of w (d :: l)); repeat split; reflexivity.
Qed.

(** X1.  When the database refuses the connection, the run prints the
    error, waits for the acknowledgment and returns: no query is sent, no
    file is written, and there is no connection to close. *)
Theorem connection_failure_aborts : forall w content cfg e,
  config_txt w = Some content ->
  load_config (Some content) = OK cfg ->
  connect w cfg = Some e ->
  run w =
    ((opening ++
      [Connect cfg;
       Print ("❌ Erreur de connexion à la base de données: " ++ e);
       Input press_enter])%list, None) /\
  sql_issued (fst (run w)) = [] /\
  files_written (fst (run w)) = [] /\
  closings (fst (run w)) = 0%nat.
Proof.
  intros w content cfg e Hc Hl Hconn.
  assert (E : run w =
    ((opening ++
      [Connect cfg;
       Print ("❌ Erreur de connexion à la base de données: " ++ e);
       Input press_enter])%list, None)).
  { unfold run. rewrite Hc, Hl. unfold main, connect_database.
    rewrite Hc, Hconn. reflexivity. }
  rewrite E. repeat split; reflexivity.
Qed.

Lemma connection_failure_aborts_witness :
  run world_connection_refused =
    ((opening ++
      [Connect config_example;
       Print "❌ Erreur de connexion à la base de données: connection refused";
       Input press_enter])%list, None).
Proof.
  exact (proj1 (connection_failure_aborts world_connection_refused
                  "host=db.example" config_example "connection refused"
                  eq_refl eq_refl eq_refl)).
Defined.



(** X3.  A connection that was opened is closed exactly once, after
    everything else the run does with it, on every path: report written,
    no data, or exception caught. *)
Theorem connection_closed_once : forall w cfg,
  connected w cfg ->
  exists before,
    fst (run w) = (before ++ closing)%list /\
    closings before = 0%nat /\
    closings (fst (run w)) = 1%nat.
Proof.
  intros w cfg H. rewrite (connected_run w cfg H). cbn [fst].
  destruct (tail_observations w) as (_ & Hc & _).
  destruct (run_queries_spec w QUERIES []) as (_ & _ & _ & _ & Hq).
  eexists. split.
  - rewrite !app_assoc. reflexivity.
  - rewrite !closings_app, Hq, Hc. split; reflexivity.
Qed.

Lemma connection_closed_once_witness :
  exists before,
    fst (run world_disk_full) = (before ++ closing)%list /\
    closings before = 0%nat /\
    closings (fst (run world_disk_full)) = 1%nat.
Proof.
  apply (connection_closed_once world_disk_full config_example).
  exists "host=db.example". repeat split; reflexivity.
Defined.

(** X4.  The tables handed to the merge are the results of the queries
    that succeeded with at least one row, in the order of the catalog; a
    failed or empty result contributes nothing. *)
Theorem merged_tables_are_nonempty_results : forall w queries,
  snd (run_queries w queries []) = kept_tables w queries /\
  (forall df,
     In df (kept_tables w queries) <->
     exists name q, In (name, q) queries /\
                    read_sql_query w q = inr df /\ empty df = false).
Proof.
  intros w queries. split.
  - destruct (run_queries_spec w queries []) as (H & _). exact H.
  - intros df. unfold kept_tables. rewrite in_flat_map. split.
    + intros [[name q] [Hin H]]. cbn [snd] in H.
      destruct (read_sql_query w q) as [e|df'] eqn:E; [destruct H|].
      destruct (empty df') eqn:Ee; [destruct H|].
      destruct H as [H|[]]. subst df'. exists name, q. auto.
    + intros (name & q & Hin & E & Ee). exists (name, q). split; [exact Hin|].
      cbn [snd]. rewrite E, Ee. left. reflexivity.
Qed.

Lemma merged_tables_are_nonempty_results_witness :
  In table_a_traiter (kept_tables world_scenario QUERIES).
Proof.
  apply (proj2 (merged_tables_are_nonempty_results world_scenario QUERIES)).
  exists "pieces_non_exportees", sql_pieces_non_exportees.
  split; [right; right; left; reflexivity|]. split; reflexivity.
Defined.

(** X5.  A run writes at most one file, named after the day; it writes
    it exactly when the connection is open, some query returned rows, and
    merging, sorting, rendering and writing all succeed.  The browser is
    opened on the file written, and on nothing else. *)
Theorem one_report_per_run : forall w,
  (forall doc,
     files_written (fst (run w)) = [(output_path w, doc)] <->
     (exists cfg, connected w cfg) /\
     kept_tables w QUERIES <> [] /\
     report_of w (kept_tables w QUERIES) = OK doc) /\
  (files_written (fst (run w)) = [] \/
   exists doc, files_written (fst (run w)) = [(output_path w, doc)]) /\
  pages_opened (fst (run w)) = map fst (files_written (fst (run w))).
Proof.
  intros w.
  assert (Hcon : forall cfg, connected w cfg ->
    files_written (fst (run w)) =
      match kept_tables w QUERIES with
      | [] => []
      | _ :: _ => match report_of w (kept_tables w QUERIES) with
                  | OK doc => [(output_path w, doc)]
                  | Raise _ => []
                  end
      end /\
    pages_opened (fst (run w)) = map fst (files_written (fst (run w)))).
  { intros cfg H. rewrite (connected_run w cfg H). cbn [fst].
    destruct (tail_observations w) as (_ & _ & Hp & Hf).
    destruct (run_queries_spec w QUERIES []) as (_ & _ & Hqf & Hqp & _).
    rewrite !files_written_app, !pages_opened_app, Hqf, Hqp, Hf, Hp, Hf.
    split; cbn; rewrite !app_nil_r; reflexivity. }
  assert (Hnot : (forall cfg, ~ connected w cfg) ->
                 files_written (fst (run w)) = [] /\ pages_opened (fst (run w)) = []).
  { intros Hn.
    destruct (run_cases w) as [[e H]|[[_ (i & H & _ & Hf & Hp & _)]|[(c & cfg & e & _ & _ & _ & H)|(cfg & Hc & _)]]].
    - rewrite H. split; reflexivity.
    - rewrite H. cbn [fst]. rewrite files_written_app, pages_opened_app, Hf, Hp.
      split; reflexivity.
    - rewrite H. split; reflexivity.
    - destruct (Hn cfg Hc). }
  destruct (run_cases w) as [[e H]|[[Hnone _]|[(c & cfg & e & Hc & Hl & Hconn & _)|(cfg & Hc & _)]]].
  1-3: assert (Hn : forall cfg', ~ connected w cfg').
  1: { intros cfg' (c' & Hc' & Hl' & _). unfold run in H.
       rewrite Hc', Hl' in H. discriminate H. }
  2: { intros cfg' (c' & Hc' & _). congruence. }
  3: { intros cfg' (c' & Hc' & Hl' & Hconn'). rewrite Hc in Hc'.
       inversion Hc'; subst c'. rewrite Hl in Hl'. inversion Hl'; subst cfg'.
       congruence. }
  1-3: destruct (Hnot Hn) as [Hf Hp]; rewrite Hf, Hp;
       (split; [|split; [left; reflexivity|reflexivity]]);
       intros doc; split; [discriminate|];
       intros [[cfg' Hc'] _]; destruct (Hn cfg' Hc').
  destruct (Hcon cfg Hc) as [Hf Hp]. rewrite Hp, Hf.
  split; [|split; [|reflexivity]].
  - intros doc. destruct (kept_tables w QUERIES) as [|df dfs].
    + split; [discriminate|]. intros (_ & Hne & _). congruence.
    + destruct (report_of w (df :: dfs)) as [doc'|e].
      * split.
        -- intros E. inversion E; subst. split; [exists cfg; exact Hc|].
           split; [discriminate|reflexivity].
        -- intros (_ & _ & E). inversion E. reflexivity.
      * split; [discriminate|]. intros (_ & _ & E). discriminate E.
  - destruct (kept_tables w QUERIES) as [|df dfs]; [left; reflexivity|].
    destruct (report_of w (df :: dfs)) as [doc'|e]; [|left; reflexivity].
    right. exists doc'. reflexivity.
Qed.

Lemma one_report_per_run_witness :
  files_written (fst (run world_scenario)) =
    [("kpi_dashboard_20240101.html", report_scenario)].
Proof.
  apply (proj1 (one_report_per_run world_scenario) report_scenario).
  split; [exists config_example; exists "host=db.example"; repeat split; reflexivity|].
  split; [discriminate|reflexivity].
Defined.

Lemma files_opened_app : forall t1 t2,
  files_opened (t1 ++ t2) = (files_opened t1 ++ files_opened t2)%list.
Proof. intros. unfold files_opened. apply flat_map_app. Qed.

Lemma run_queries_opens_nothing : forall w queries dataframes,
  files_opened (fst (run_queries w queries dataframes)) = [].
Proof.
  intros w. induction queries as [|[query_name query] queries IH];
    intros dataframes; simpl; [reflexivity|].
  unfold execute_query.
  destruct (read_sql_query w query) as [e|df].
  - cbn [empty empty_frame columns rows].
    specialize (IH dataframes).
    destruct (run_queries w queries dataframes) as [evs dfs].
    cbn [fst] in *. rewrite files_opened_app, IH. reflexivity.
  - destruct (empty df);
      match goal with
      | |- context [run_queries w queries ?d] =>
          specialize (IH d); destruct (run_queries w queries d) as [evs dfs]
      end;
      cbn [fst] in *; rewrite files_opened_app, IH; reflexivity.
Qed.

(** The exception of the [try] block comes from building the document or
    from opening and writing the file. *)
Lemma report_of_raises : forall w dataframes e,
  report_of w dataframes = Raise e ->
  document_of w dataframes = Raise e \/
  exists doc text,
    document_of w dataframes = OK doc /\
    write_file w (output_path w) = Some text /\ e = OSError text.
Proof.
  intros w dataframes e. unfold report_of, document_of, bind.
  destruct (final_table dataframes) as [final_df|e']; [|auto].
  destruct (html_content (now w) final_df) as [doc|e']; [|auto].
  destruct (write_file w (output_path w)) as [text|]; [|discriminate].
  intros H. injection H as <-. right. exists doc, text. auto.
Qed.

(** X6.  An exception raised while merging, sorting, rendering or writing
    is caught by [main]: the run prints it, waits for the acknowledgment,
    closes the connection and returns; no document is written and no page
    is opened.  The output file is opened for writing, so created or
    emptied, only when the document was built and the exception comes from
    opening or writing the file; otherwise the file is not touched. *)
Theorem caught_exception_is_reported : forall w cfg e,
  connected w cfg ->
  kept_tables w QUERIES <> [] ->
  report_of w (kept_tables w QUERIES) = Raise e ->
  run w =
    ((opening ++ [Connect cfg] ++ fst (run_queries w QUERIES [])
      ++ opened_for w (kept_tables w QUERIES)
      ++ failure_events e ++ closing)%list, None) /\
  files_written (fst (run w)) = [] /\
  pages_opened (fst (run w)) = [] /\
  (document_of w (kept_tables w QUERIES) = Raise e /\
   files_opened (fst (run w)) = [] \/
   exists doc text,
     document_of w (kept_tables w QUERIES) = OK doc /\
     write_file w (output_path w) = Some text /\ e = OSError text /\
     files_opened (fst (run w)) = [output_path w]).
Proof.
  intros w cfg e Hc Hne Hr.
  assert (E : run w =
    ((opening ++ [Connect cfg] ++ fst (run_queries w QUERIES [])
      ++ opened_for w (kept_tables w QUERIES)
      ++ failure_events e ++ closing)%list, None)).
  { rewrite (connected_run w cfg Hc).
    destruct (kept_tables w QUERIES) as [|df dfs]; [congruence|].
    rewrite Hr, <- !app_assoc. reflexivity. }
  split; [exact E|]. rewrite E. cbn [fst].
  destruct (run_queries_spec w QUERIES []) as (_ & _ & Hqf & Hqp & _).
  pose proof (run_queries_opens_nothing w QUERIES []) as Hqo.
  rewrite !files_written_app, !pages_opened_app, !files_opened_app, Hqf, Hqp, Hqo.
  unfold opened_for.
  destruct (report_of_raises _ _ _ Hr) as [Hd|(doc & text & Hd & Hw & He)];
    rewrite Hd.
  - split; [reflexivity|]. split; [reflexivity|]. left. split; reflexivity.
  - split; [reflexivity|]. split; [reflexivity|]. right.
    exists doc, text. repeat split; auto.
Qed.

Lemma caught_exception_is_reported_witness :
  files_written (fst (run world_disk_full)) = [] /\
  pages_opened (fst (run world_disk_full)) = [] /\
  (document_of world_disk_full (kept_tables world_disk_full QUERIES)
     = Raise (OSError "No space left on device") /\
   files_opened (fst (run world_disk_full)) = [] \/
   exists doc text,
     document_of world_disk_full (kept_tables world_disk_full QUERIES) = OK doc /\
     write_file world_disk_full (output_path world_disk_full) = Some text /\
     OSError "No space left on device" = OSError text /\
     files_opened (fst (run world_disk_full)) = [output_path world_disk_full]).
Proof.
  refine (proj2 (caught_exception_is_reported world_disk_full config_example
                   (OSError "No space left on device") _ _ eq_refl)).
  - exists "host=db.example". repeat split; reflexivity.
  - discriminate.
Defined.

(** ** Columns and cells of the merged table *)

Lemma lookup_in : forall {A : Type} (l : list (string * A)) c v,
  lookup l c = Some v -> In (c, v) l.
Proof.
  intros A. induction l as [|[c' v'] l IH]; intros c v H; simpl in *.
  - discriminate.
  - destruct (String.eqb_spec c' c) as [E|E].
    + inversion H; subst. left. reflexivity.
    + right. apply IH. exact H.
Qed.

Lemma lookup_none : forall {A : Type} (l : list (string * A)) c,
  lookup l c = None <-> ~ In c (map fst l).
Proof.
  intros A. induction l as [|[c' v'] l IH]; intros c; simpl.
  - tauto.
  - destruct (String.eqb_spec c' c) as [E|E].
    + split; [discriminate|]. intros H. exfalso. apply H. left. exact E.
    + rewrite IH. tauto.
Qed.

Lemma lookup_others : forall right c,
  lookup (others dossier right) c =
  if String.eqb c dossier then None else lookup (columns right) c.
Proof.
  intros right c. unfold others.
  induction (columns right) as [|[c' t] cols IH]; simpl.
  - destruct (String.eqb c dossier); reflexivity.
  - destruct (String.eqb_spec c' dossier) as [E|E]; simpl.
    + subst c'. rewrite IH. rewrite (String.eqb_sym dossier c).
      destruct (String.eqb c dossier); reflexivity.
    + destruct (String.eqb_spec c' c) as [E'|E'].
      * subst c'. apply String.eqb_neq in E. rewrite E. reflexivity.
      * exact IH.
Qed.

Lemma lookup_rebuilt : forall {A : Type} (f : string -> A) (cols : list (string * dtype)) c,
  lookup (map (fun ct => (fst ct, f (fst ct))) cols) c =
  match lookup cols c with
  | Some _ => Some (f c)
  | None => None
  end.
Proof.
  intros A f cols c. induction cols as [|[c' t] cols IH]; simpl.
  - reflexivity.
  - destruct (String.eqb_spec c' c) as [E|E]; [subst; reflexivity|exact IH].
Qed.

Lemma merged_columns_plain : forall left right,
  NoDup (names left ++ other_names right) ->
  merged_columns dossier left right = (columns left ++ others dossier right)%list.
Proof.
  intros left right H. unfold merged_columns. f_equal.
  - rewrite <- (map_id (columns left)) at 2. apply map_ext. intros [c t].
    unfold suffixed. rewrite no_overlap by exact H. reflexivity.
  - rewrite <- (map_id (others dossier right)) at 2. apply map_ext. intros [c t].
    unfold suffixed. rewrite no_overlap by exact H. reflexivity.
Qed.

Lemma join_row_plain : forall left right lcell rcell,
  NoDup (names left ++ other_names right) ->
  join_row dossier left right lcell rcell =
  (map (fun ct => (fst ct, lcell (fst ct))) (columns left)
   ++ map (fun ct => (fst ct, rcell (fst ct))) (others dossier right))%list.
Proof.
  intros left right lcell rcell H. unfold join_row. f_equal.
  - apply map_ext. intros [c t].
    unfold suffixed. rewrite no_overlap by exact H. reflexivity.
  - apply map_ext. intros [c t].
    unfold suffixed. rewrite no_overlap by exact H. reflexivity.
Qed.

(** A cell of a joined row comes from the left row when the left table
    has the column, from the right row when only the right one has it. *)
Lemma join_row_cell : forall left right lcell rcell c,
  NoDup (names left ++ other_names right) ->
  cell (join_row dossier left right lcell rcell) c =
  match lookup (columns left) c with
  | Some _ => lcell c
  | None =>
      match lookup (others dossier right) c with
      | Some _ => rcell c
      | None => VNaN
      end
  end.
Proof.
  intros left right lcell rcell c H. rewrite join_row_plain by exact H.
  unfold cell. rewrite lookup_app, !lookup_rebuilt.
  destruct (lookup (columns left) c); [reflexivity|].
  destruct (lookup (others dossier right) c); reflexivity.
Qed.

Lemma merged_rows_in : forall left right merged r,
  pd_merge_outer dossier left right = OK merged ->
  In r (rows merged) <->
  In r (left_rows dossier left right) \/ In r (right_only_rows dossier left right).
Proof.
  intros left right merged r H.
  destruct (pd_merge_outer_inv _ _ _ H) as (_ & _ & _ & _ & _ & Hr).
  rewrite Hr, stable_sort_in, in_app_iff. reflexivity.
Qed.

Lemma left_rows_in : forall left right r,
  In r (left_rows dossier left right) ->
  exists l, In l (rows left) /\
    (r = join_row dossier left right (cell l) (fun _ => VNaN) \/
     exists m, In m (rows right) /\ cell m dossier = cell l dossier /\
               r = join_row dossier left right (cell l) (cell m)).
Proof.
  intros left right r H. unfold left_rows in H. apply in_flat_map in H.
  destruct H as [l [Hl H]]. exists l. split; [exact Hl|].
  destruct (matches dossier (cell l dossier) (rows right)) as [|m ms] eqn:E.
  - destruct H as [H|[]]. left. auto.
  - right. apply in_map_iff in H. destruct H as [m' [Hr Hm]].
    rewrite <- E in Hm. apply matches_in in Hm. destruct Hm as [Hm Hk].
    exists m'. auto.
Qed.

Lemma right_only_rows_in : forall left right r,
  In r (right_only_rows dossier left right) ->
  exists m, In m (rows right) /\
    ~ In (cell m dossier) (key_values left) /\
    r = join_row dossier left right
          (fun c => if String.eqb c dossier then cell m dossier else VNaN) (cell m).
Proof.
  intros left right r H. unfold right_only_rows in H. apply in_map_iff in H.
  destruct H as [m [Hr Hm]]. apply filter_In in Hm. destruct Hm as [Hm Hf].
  exists m. split; [exact Hm|]. split; [|auto].
  apply matches_nil.
  destruct (matches dossier (cell m dossier) (rows left)); [reflexivity|discriminate].
Qed.

Lemma numeric_cells_ok : forall df, numeric_cells df = true -> numeric_ok df.
Proof.
  intros df H r c Hr Hc. unfold numeric_cells in H.
  rewrite forallb_forall in H. specialize (H r Hr).
  rewrite forallb_forall in H. specialize (H (c, Number) (lookup_in _ _ _ Hc)).
  simpl in H. destruct (is_str (cell r c)); [discriminate|reflexivity].
Qed.

Lemma pd_merge_outer_numeric : forall left right merged,
  NoDup (names left ++ other_names right) ->
  pd_merge_outer dossier left right = OK merged ->
  numeric_ok left -> numeric_ok right -> numeric_ok merged.
Proof.
  intros left right merged Hn H Hl Hr r c Hin Hc.
  destruct (pd_merge_outer_inv _ _ _ H) as (t & Hkl & Hkr & _ & Hcols & _).
  rewrite Hcols, merged_columns_plain, lookup_app in Hc by exact Hn.
  apply (merged_rows_in _ _ _ r H) in Hin. destruct Hin as [Hin|Hin].
  - apply left_rows_in in Hin. destruct Hin as [l [Hl' [E|[m [Hm [_ E]]]]]];
      subst r; rewrite join_row_cell by exact Hn.
    + destruct (lookup (columns left) c) eqn:El.
      * inversion Hc; subst. apply Hl; assumption.
      * destruct (lookup (others dossier right) c); reflexivity.
    + destruct (lookup (columns left) c) eqn:El.
      * inversion Hc; subst. apply Hl; assumption.
      * rewrite Hc. apply Hr; [exact Hm|].
        rewrite lookup_others in Hc.
        destruct (String.eqb c dossier); [discriminate|exact Hc].
  - apply right_only_rows_in in Hin. destruct Hin as [m [Hm [_ E]]].
    subst r. rewrite join_row_cell by exact Hn.
    destruct (lookup (columns left) c) eqn:El.
    + inversion Hc; subst. destruct (String.eqb_spec c dossier) as [E|E]; [|reflexivity].
      subst c. apply Hr; [exact Hm|]. congruence.
    + rewrite Hc. apply Hr; [exact Hm|].
      rewrite lookup_others in Hc.
      destruct (String.eqb c dossier); [discriminate|exact Hc].
Qed.

(** Without a name clash the loop appends the columns of each table, the
    key apart, and keeps numeric columns free of text. *)
Lemma merge_loop_plain : forall rest first merged,
  NoDup (names first ++ flat_map other_names rest) ->
  merge_loop first rest = OK merged ->
  columns merged = (columns first ++ flat_map (others dossier) rest)%list /\
  (numeric_ok first -> (forall df, In df rest -> numeric_ok df) -> numeric_ok merged).
Proof.
  induction rest as [|df rest IH]; intros first merged Hn H; simpl in *.
  - inversion H; subst. rewrite app_nil_r. auto.
  - unfold bind in H.
    destruct (pd_merge_outer dossier first df) as [m|] eqn:E; [|discriminate].
    rewrite app_assoc in Hn.
    assert (Hn1 : NoDup (names first ++ other_names df))
      by (eapply NoDup_app_remove_r; exact Hn).
    destruct (pd_merge_outer_inv _ _ _ E) as (_ & _ & _ & _ & Hc & _).
    rewrite merged_columns_plain in Hc by exact Hn1.
    assert (Hnames : names m = (names first ++ other_names df)%list).
    { unfold names. rewrite Hc, map_app, others_names. reflexivity. }
    rewrite <- Hnames in Hn.
    destruct (IH m merged Hn H) as [Hcols Hnum]. split.
    + rewrite Hcols, Hc, <- app_assoc. reflexivity.
    + intros Hf Hall. apply Hnum.
      * eapply pd_merge_outer_numeric; eauto.
      * intros df' Hin. apply Hall. right. exact Hin.
Qed.

(** ** When rendering succeeds *)

Lemma py_int_count : forall df r c,
  render_safe df -> In r (rows df) -> In c count_columns ->
  exists n, py_int (row_get df r c (VNum 0)) = OK n.
Proof.
  intros df r c [_ Hs] Hr Hc. unfold row_get.
  destruct (has_column c df) eqn:E.
  - specialize (Hs r c Hr Hc E). destruct (cell r c) as [n| |]; try discriminate.
    exists n. reflexivity.
  - exists 0. reflexivity.
Qed.

Lemma render_row_ok : forall df r,
  render_safe df -> In r (rows df) -> exists tr, render_row df r = OK tr.
Proof.
  intros df r Hs Hr. unfold render_row, bind, row_item.
  destruct (py_int_count df r "nb_pieces_a_traiter" Hs Hr) as [n1 E1];
    [simpl; tauto|]. rewrite E1.
  destruct (py_int_count df r "nb_comptes_attente" Hs Hr) as [n2 E2];
    [simpl; tauto|]. rewrite E2.
  destruct Hs as [Hd Hs']. pose proof Hd as Hd'. unfold dossier in Hd'. rewrite Hd'.
  destruct (py_int_count df r "nb_pieces_exportees" (conj Hd Hs') Hr) as [n3 E3];
    [simpl; tauto|]. rewrite E3.
  destruct (py_int_count df r "nb_ecritures_exportees" (conj Hd Hs') Hr) as [n4 E4];
    [simpl; tauto|]. rewrite E4.
  destruct (py_int_count df r "nb_ecritures_a_traiter" (conj Hd Hs') Hr) as [n5 E5];
    [simpl; tauto|]. rewrite E5.
  eexists. reflexivity.
Qed.

Lemma render_rows_ok : forall df rs,
  (forall r, In r rs -> exists tr, render_row df r = OK tr) ->
  exists trs, render_rows df rs = OK trs.
Proof.
  intros df. induction rs as [|r rs IH]; intros H; simpl.
  - eexists. reflexivity.
  - destruct (H r (or_introl eq_refl)) as [tr E]. rewrite E.
    destruct IH as [trs E']; [intros r' Hr'; apply H; right; exact Hr'|].
    rewrite E'. eexists. reflexivity.
Qed.

Lemma html_content_ok : forall now df,
  render_safe df -> exists doc, html_content now df = OK doc.
Proof.
  intros now df Hs. unfold html_content.
  destruct (render_rows_ok df (rows df)) as [trs E].
  - intros r Hr. apply render_row_ok; assumption.
  - rewrite E. eexists. reflexivity.
Qed.

Lemma flat_map_others_names : forall rest,
  map fst (flat_map (others dossier) rest) = flat_map other_names rest.
Proof.
  induction rest as [|df rest IH]; simpl.
  - reflexivity.
  - rewrite map_app, others_names, IH. reflexivity.
Qed.

Lemma lookup_concat_source : forall rest first c t,
  lookup (columns first ++ flat_map (others dossier) rest) c = Some t ->
  exists df, In df (first :: rest) /\ lookup (columns df) c = Some t.
Proof.
  intros rest first c t H. rewrite lookup_app in H.
  destruct (lookup (columns first) c) eqn:E.
  - inversion H; subst. exists first. split; [left; reflexivity|exact E].
  - clear E. induction rest as [|df rest IH]; simpl in H.
    + discriminate.
    + rewrite lookup_app in H.
      destruct (lookup (others dossier df) c) eqn:E.
      * inversion H; subst. exists df. split; [right; left; reflexivity|].
        rewrite lookup_others in E.
        destruct (String.eqb c dossier); [discriminate|exact E].
      * destruct (IH H) as [df' [[Hin|Hin] Hl]].
        -- exists df'. split; [left; exact Hin|exact Hl].
        -- exists df'. split; [right; right; exact Hin|exact Hl].
Qed.

Lemma compatible_inv : forall first rest,
  compatible (first :: rest) = true ->
  has_column dossier first = true ->
  exists t,
    lookup (columns first) dossier = Some t /\
    (forall df, In df rest -> lookup (columns df) dossier = Some t) /\
    NoDup (names first ++ flat_map other_names rest).
Proof.
  intros first rest H Hd. apply has_column_lookup in Hd. destruct Hd as [t Hk].
  exists t. simpl in H. rewrite Hk in H. apply andb_true_iff in H.
  destruct H as [Hall Hn]. split; [exact Hk|]. split.
  - intros df Hin. rewrite forallb_forall in Hall. specialize (Hall df Hin).
    destruct (lookup (columns df) dossier) as [t'|]; [|discriminate].
    destruct t, t'; simpl in Hall; congruence.
  - apply has_dup_false. apply negb_true_iff. exact Hn.
Qed.

Lemma counts_are_numbers_inv : forall df c t,
  counts_are_numbers df = true -> In c count_columns ->
  lookup (columns df) c = Some t -> t = Number.
Proof.
  intros df c t H Hc Hl. unfold counts_are_numbers in H.
  rewrite forallb_forall in H. specialize (H c Hc). rewrite Hl in H.
  destruct t; [reflexivity|discriminate].
Qed.

Lemma filled_number : forall v, is_str v = false -> is_num (filled Number v) = true.
Proof. intros [n|s|]; simpl; congruence. Qed.

(** Tables that merge into a table the sort and the renderer accept. *)
Lemma merged_render_safe : forall first rest,
  compatible (first :: rest) = true ->
  forallb (has_column dossier) (first :: rest) = true ->
  forallb numeric_cells (first :: rest) = true ->
  forallb counts_are_numbers (first :: rest) = true ->
  exists merged,
    merge_dataframes (first :: rest) = OK merged /\
    names merged = (names first ++ flat_map other_names rest)%list /\
    render_safe merged.
Proof.
  intros first rest Hcomp Hdos Hnum Hcnt.
  rewrite forallb_forall in Hdos, Hnum, Hcnt.
  destruct (compatible_inv first rest Hcomp (Hdos first (or_introl eq_refl)))
    as (t & Hk & Hall & Hn).
  destruct (merge_loop_succeeds rest first t Hk Hall Hn) as [joined Hj].
  destruct (merge_loop_plain rest first joined Hn Hj) as [Hcols Hok].
  assert (Hjok : numeric_ok joined).
  { apply Hok.
    - apply numeric_cells_ok. apply Hnum. left. reflexivity.
    - intros df Hin. apply numeric_cells_ok. apply Hnum. right. exact Hin. }
  destruct (merge_dataframes_succeeds (first :: rest) Hcomp) as [merged Hm].
  destruct (merge_dataframes_inv _ _ _ Hm) as (joined' & fill_row & Hj' & Hc & Hr & Hfill).
  rewrite Hj in Hj'. inversion Hj'; subst joined'. clear Hj'.
  assert (Hnames : names merged = (names first ++ flat_map other_names rest)%list).
  { unfold names. rewrite Hc, Hcols, map_app, flat_map_others_names. reflexivity. }
  exists merged. split; [exact Hm|]. split; [exact Hnames|].
  split.
  - unfold has_column. rewrite Hnames. apply mem_in. apply in_or_app. left.
    apply mem_in. apply (Hdos first). left. reflexivity.
  - intros r c Hin Hcc Hhas. rewrite Hr in Hin. apply in_map_iff in Hin.
    destruct Hin as [r0 [E Hr0]]. subst r. rewrite Hfill.
    apply has_column_lookup in Hhas. destruct Hhas as [t' Hl].
    rewrite Hc in Hl. rewrite Hl.
    assert (t' = Number).
    { rewrite Hcols in Hl. apply lookup_concat_source in Hl.
      destruct Hl as [df [Hdf Hl]].
      eapply counts_are_numbers_inv; [apply Hcnt; exact Hdf|exact Hcc|exact Hl]. }
    subst t'. apply filled_number. apply Hjok; assumption.
Qed.

Lemma sort_values_ok : forall by_ ascending df,
  has_column by_ df = true ->
  (forall r, In r (rows df) -> is_num (cell r by_) = true) ->
  exists sorted,
    sort_values by_ ascending df = OK sorted /\
    columns sorted = columns df /\
    (forall r, In r (rows sorted) <-> In r (rows df)).
Proof.
  intros by_ ascending df Hc Hnum. unfold sort_values. rewrite Hc. simpl.
  assert (Hs : existsb is_str (map (fun r => cell r by_) (rows df)) = false).
  { destruct (existsb is_str (map (fun r => cell r by_) (rows df))) eqn:E;
      [|reflexivity].
    apply existsb_exists in E. destruct E as [v [Hin Hv]].
    apply in_map_iff in Hin. destruct Hin as [r [E Hr]]. subst v.
    specialize (Hnum r Hr). destruct (cell r by_); discriminate. }
  rewrite Hs, andb_false_r.
  eexists. split; [reflexivity|]. split; [reflexivity|].
  intros r. simpl. apply stable_sort_in.
Qed.

Lemma final_table_render_safe : forall dataframes,
  dataframes <> [] ->
  compatible dataframes = true ->
  forallb (has_column dossier) dataframes = true ->
  forallb numeric_cells dataframes = true ->
  forallb counts_are_numbers dataframes = true ->
  existsb (has_column "nb_pieces_a_traiter") dataframes = true ->
  exists final_df, final_table dataframes = OK final_df /\ render_safe final_df.
Proof.
  intros [|first rest] Hne Hcomp Hdos Hnum Hcnt Hsort; [congruence|].
  destruct (merged_render_safe first rest Hcomp Hdos Hnum Hcnt)
    as (merged & Hm & Hnames & Hsafe).
  assert (Hhas : has_column "nb_pieces_a_traiter" merged = true).
  { unfold has_column. rewrite Hnames. apply mem_in.
    apply existsb_exists in Hsort. destruct Hsort as [df [[E|Hin] Hc]].
    - subst df. apply in_or_app. left. apply mem_in. exact Hc.
    - apply in_or_app. right. apply in_flat_map. exists df. split; [exact Hin|].
      unfold other_names. apply filter_In. split; [apply mem_in; exact Hc|].
      apply negb_true_iff, String.eqb_neq. intros E.
      unfold dossier in E. discriminate E. }
  destruct (sort_values_ok "nb_pieces_a_traiter" false merged Hhas)
    as (final_df & Hf & Hcols & Hrows).
  { intros r Hr. apply (proj2 Hsafe r); [exact Hr|left; reflexivity|exact Hhas]. }
  exists final_df. split.
  - unfold final_table, bind. rewrite Hm. exact Hf.
  - destruct Hsafe as [Hd Hs]. split.
    + unfold has_column, names. rewrite Hcols. exact Hd.
    + intros r c Hr Hc Hh. apply Hs; [apply Hrows; exact Hr|exact Hc|].
      unfold has_column, names in *. rewrite <- Hcols. exact Hh.
Qed.

(** X7.  Tables with the dossier column, distinct other columns, numeric
    count columns free of text, and among them the pieces-to-process
    column, are merged, sorted, rendered and written without an
    exception, provided the file can be written; a write that fails is
    the exception the run reports. *)
Theorem well_formed_tables_are_reported : forall w dataframes,
  dataframes <> [] ->
  compatible dataframes = true ->
  forallb (has_column dossier) dataframes = true ->
  forallb numeric_cells dataframes = true ->
  forallb counts_are_numbers dataframes = true ->
  existsb (has_column "nb_pieces_a_traiter") dataframes = true ->
  (write_file w (output_path w) = None ->
   exists doc, report_of w dataframes = OK doc) /\
  (forall e, write_file w (output_path w) = Some e ->
             report_of w dataframes = Raise (OSError e)).
Proof.
  intros w dataframes Hne Hcomp Hdos Hnum Hcnt Hsort.
  destruct (final_table_render_safe dataframes Hne Hcomp Hdos Hnum Hcnt Hsort)
    as (final_df & Hf & Hsafe).
  destruct (html_content_ok (now w) final_df Hsafe) as [doc Hd].
  unfold report_of, bind. rewrite Hf, Hd. split.
  - intros Hw. rewrite Hw. exists doc. reflexivity.
  - intros e Hw. rewrite Hw. reflexivity.
Qed.

Lemma well_formed_tables_are_reported_witness :
  (exists doc, report_of world_scenario [table_exportees; table_a_traiter] = OK doc) /\
  report_of world_disk_full [table_exportees; table_a_traiter]
    = Raise (OSError "No space left on device").
Proof.
  split.
  - apply (well_formed_tables_are_reported world_scenario
             [table_exportees; table_a_traiter]);
      try reflexivity. discriminate.
  - apply (well_formed_tables_are_reported world_disk_full
             [table_exportees; table_a_traiter]);
      try reflexivity. discriminate.
Defined.

(** ** The column the sort is by *)







(** ** Results that conform to the catalog *)

Lemma flat_map_flat_map : forall {A B C : Type} (f : B -> list C) (k : A -> list B) l,
  flat_map f (flat_map k l) = flat_map (fun x => flat_map f (k x)) l.
Proof.
  intros A B C f k. induction l as [|x l IH]; simpl.
  - reflexivity.
  - rewrite flat_map_app, IH. reflexivity.
Qed.

Lemma NoDup_flat_map_sub : forall {A : Type} (f g : A -> list string) l,
  (forall x, In x l -> g x = [] \/ g x = f x) ->
  NoDup (flat_map f l) -> NoDup (flat_map g l).
Proof.
  intros A f g. induction l as [|x l IH]; intros Hsub Hn; simpl in *.
  - constructor.
  - assert (Hrest : NoDup (flat_map g l)).
    { apply IH; [intros y Hy; apply Hsub; right; exact Hy|].
      eapply NoDup_app_remove_l. exact Hn. }
    destruct (Hsub x (or_introl eq_refl)) as [E|E]; rewrite E.
    + exact Hrest.
    + apply NoDup_app; [eapply NoDup_app_remove_r; exact Hn|exact Hrest|].
      intros a Ha Hg. apply (NoDup_app_disjoint _ _ a Hn Ha).
      apply in_flat_map in Hg. destruct Hg as [y [Hy Hay]].
      apply in_flat_map. exists y. split; [exact Hy|].
      destruct (Hsub y (or_intror Hy)) as [E'|E']; rewrite E' in Hay;
        [destruct Hay|exact Hay].
Qed.

Lemma compatible_of_names : forall dataframes t,
  (forall df, In df dataframes ->
              lookup (columns df) dossier = Some t /\
              names df = dossier :: other_names df) ->
  NoDup (flat_map other_names dataframes) ->
  compatible dataframes = true.
Proof.
  intros [|first rest] t Hall Hn; [reflexivity|].
  simpl. destruct (Hall first (or_introl eq_refl)) as [Hk Hnames].
  rewrite Hk. apply andb_true_iff. split.
  - apply forallb_forall. intros df Hin.
    destruct (Hall df (or_intror Hin)) as [Hk' _]. rewrite Hk'.
    destruct t; reflexivity.
  - apply negb_true_iff. apply has_dup_false. rewrite Hnames.
    simpl. constructor; [|exact Hn].
    intros Hin. change (In dossier (flat_map other_names (first :: rest))) in Hin.
    apply in_flat_map in Hin. destruct Hin as [df [_ Hin]].
    unfold other_names in Hin. apply filter_In in Hin. destruct Hin as [_ Hne].
    rewrite String.eqb_refl in Hne. discriminate Hne.
Qed.

Lemma kept_tables_in : forall w queries df,
  In df (kept_tables w queries) ->
  exists name q, In (name, q) queries /\
                 read_sql_query w q = inr df /\ empty df = false.
Proof.
  intros w queries df H. unfold kept_tables in H. apply in_flat_map in H.
  destruct H as [[name q] [Hin H]]. cbn [snd] in H.
  destruct (read_sql_query w q) as [e|df'] eqn:E; [destruct H|].
  destruct (empty df') eqn:Ee; [destruct H|].
  destruct H as [H|[]]. subst df'. exists name, q. auto.
Qed.

(** What the schema gives for a table of the catalog. *)
Lemma schema_facts : forall key_dtype name q,
  In (name, q) QUERIES ->
  exists cols,
    lookup (result_schema key_dtype) q = Some cols /\
    forall df, columns df = cols ->
      lookup (columns df) dossier = Some key_dtype /\
      names df = dossier :: other_names df /\
      has_column dossier df = true /\
      counts_are_numbers df = true /\
      columns df <> [].
Proof.
  intros key_dtype name q Hin.
  repeat (destruct Hin as [Hin|Hin];
          [inversion Hin; subst; eexists; split; [vm_compute; reflexivity|];
           intros df Hc; unfold names, has_column, names, counts_are_numbers, other_names, names;
           rewrite Hc; repeat split; try reflexivity; discriminate|]).
  destruct Hin.
Qed.

Lemma conforming_kept : forall w key_dtype df,
  conforming w key_dtype ->
  In df (kept_tables w QUERIES) ->
  lookup (columns df) dossier = Some key_dtype /\
  names df = dossier :: other_names df /\
  has_column dossier df = true /\
  counts_are_numbers df = true /\
  numeric_cells df = true.
Proof.
  intros w key_dtype df Hconf Hin.
  destruct (kept_tables_in _ _ _ Hin) as (name & q & Hq & Hr & _).
  destruct (schema_facts key_dtype name q Hq) as (cols & Hl & Hfacts).
  specialize (Hconf q df Hr). rewrite Hl in Hconf. destruct Hconf as [Hc Hn].
  destruct (Hfacts df Hc) as (H1 & H2 & H3 & H4 & _). auto.
Qed.

Lemma conforming_compatible : forall w key_dtype,
  conforming w key_dtype -> compatible (kept_tables w QUERIES) = true.
Proof.
  intros w key_dtype Hconf. apply (compatible_of_names _ key_dtype).
  - intros df Hin. destruct (conforming_kept w key_dtype df Hconf Hin) as (H1 & H2 & _).
    auto.
  - unfold kept_tables. rewrite flat_map_flat_map.
    apply (NoDup_flat_map_sub (schema_others key_dtype)).
    + intros [name q] Hin. cbn [snd].
      destruct (read_sql_query w q) as [e|df] eqn:Hr; [left; reflexivity|].
      destruct (empty df); [left; reflexivity|]. right. simpl. rewrite app_nil_r.
      destruct (schema_facts key_dtype name q Hin) as (cols & Hl & _).
      specialize (Hconf q df Hr). rewrite Hl in Hconf. destruct Hconf as [Hc _].
      unfold schema_others, other_names, names. cbn [snd]. rewrite Hl.
      f_equal. f_equal. exact Hc.
    + apply has_dup_false. vm_compute. reflexivity.
Qed.

Lemma connected_files_written : forall w cfg,
  connected w cfg ->
  files_written (fst (run w)) =
    match kept_tables w QUERIES with
    | [] => []
    | _ :: _ => match report_of w (kept_tables w QUERIES) with
                | OK doc => [(output_path w, doc)]
                | Raise _ => []
                end
    end /\
  pages_opened (fst (run w)) = map fst (files_written (fst (run w))).
Proof.
  intros w cfg H. rewrite (connected_run w cfg H). cbn [fst].
  destruct (tail_observations w) as (_ & _ & Hp & Hf).
  destruct (run_queries_spec w QUERIES []) as (_ & _ & Hqf & Hqp & _).
  rewrite !files_written_app, !pages_opened_app, Hqf, Hqp, Hf, Hp, Hf.
  split; cbn; rewrite !app_nil_r; reflexivity.
Qed.

(** X9.  With the connection open and results that conform to the
    catalog, the report is written as soon as the query
    [pieces_non_exportees] returns a row and the file can be written,
    whichever of the other five queries fail or return nothing. *)
Theorem conforming_results_are_reported : forall w cfg key_dtype df,
  connected w cfg ->
  conforming w key_dtype ->
  read_sql_query w sql_pieces_non_exportees = inr df ->
  rows df <> [] ->
  write_file w (output_path w) = None ->
  exists doc,
    files_written (fst (run w)) = [(output_path w, doc)] /\
    pages_opened (fst (run w)) = [output_path w] /\
    report_of w (kept_tables w QUERIES) = OK doc.
Proof.
  intros w cfg key_dtype df Hcon Hconf Hr Hrows Hw.
  assert (Hin : In df (kept_tables w QUERIES)).
  { unfold kept_tables. apply in_flat_map.
    exists ("pieces_non_exportees", sql_pieces_non_exportees).
    split; [right; right; left; reflexivity|]. cbn [snd]. rewrite Hr.
    destruct (schema_facts key_dtype _ _
                (or_intror (or_intror (or_introl eq_refl)) :
                   In ("pieces_non_exportees", sql_pieces_non_exportees) QUERIES))
      as (cols & Hl & Hfacts).
    pose proof (Hconf _ _ Hr) as Hc. rewrite Hl in Hc. destruct Hc as [Hc _].
    destruct (Hfacts df Hc) as (_ & _ & _ & _ & Hne).
    unfold empty. destruct (columns df); [congruence|].
    destruct (rows df); [congruence|]. left. reflexivity. }
  assert (Hsort : has_column "nb_pieces_a_traiter" df = true).
  { pose proof (Hconf _ _ Hr) as Hc.
    assert (Hl : lookup (result_schema key_dtype) sql_pieces_non_exportees =
                 Some [("dossier", key_dtype); ("nb_pieces_a_traiter", Number)])
      by (vm_compute; reflexivity).
    rewrite Hl in Hc. destruct Hc as [Hc _].
    unfold has_column, names. rewrite Hc. reflexivity. }
  destruct (final_table_render_safe (kept_tables w QUERIES)) as (final_df & Hf & Hsafe).
  - intros E. rewrite E in Hin. destruct Hin.
  - apply (conforming_compatible w key_dtype Hconf).
  - apply forallb_forall. intros d Hd.
    destruct (conforming_kept w key_dtype d Hconf Hd) as (_ & _ & H & _). exact H.
  - apply forallb_forall. intros d Hd.
    destruct (conforming_kept w key_dtype d Hconf Hd) as (_ & _ & _ & _ & H). exact H.
  - apply forallb_forall. intros d Hd.
    destruct (conforming_kept w key_dtype d Hconf Hd) as (_ & _ & _ & H & _). exact H.
  - apply existsb_exists. exists df. auto.
  - destruct (html_content_ok (now w) final_df Hsafe) as [doc Hd].
    assert (Hrep : report_of w (kept_tables w QUERIES) = OK doc).
    { unfold report_of, bind. rewrite Hf, Hd, Hw. reflexivity. }
    exists doc. destruct (connected_files_written w cfg Hcon) as [Hfw Hpo].
    rewrite Hpo, Hfw, Hrep.
    destruct (kept_tables w QUERIES); [destruct Hin|]. auto.
Qed.

Lemma world_scenario_conforming : conforming world_scenario Object.
Proof.
  intros q df H. unfold world_scenario, read_sql_query in H.
  destruct (String.eqb_spec q sql_pieces_exportees) as [E|E].
  { subst q. inversion H; subst df.
    replace (lookup (result_schema Object) sql_pieces_exportees)
      with (Some [("dossier", Object); ("nb_pieces_exportees", Number)])
      by (vm_compute; reflexivity).
    split; reflexivity. }
  destruct (String.eqb_spec q sql_pieces_non_exportees) as [E'|E'];
    [|discriminate H].
  subst q. inversion H; subst df.
  replace (lookup (result_schema Object) sql_pieces_non_exportees)
    with (Some [("dossier", Object); ("nb_pieces_a_traiter", Number)])
    by (vm_compute; reflexivity).
  split; reflexivity.
Qed.

Lemma conforming_results_are_reported_witness :
  exists doc,
    files_written (fst (run world_scenario)) = [(output_path world_scenario, doc)] /\
    pages_opened (fst (run world_scenario)) = [output_path world_scenario] /\
    report_of world_scenario (kept_tables world_scenario QUERIES) = OK doc.
Proof.
  apply (conforming_results_are_reported world_scenario config_example Object
           table_a_traiter).
  - exists "host=db.example". repeat split; reflexivity.
  - exact world_scenario_conforming.
  - reflexivity.
  - discriminate.
  - reflexivity.
Defined.

(** ** One row per dossier *)

Lemma matches_unique : forall k rs,
  NoDup (map (fun r => cell r dossier) rs) ->
  matches dossier k rs = [] \/ exists m, matches dossier k rs = [m].
Proof.
  intros k. induction rs as [|r rs IH]; intros Hn; simpl.
  - left. reflexivity.
  - simpl in Hn. inversion Hn as [|x l Hnotin Hn']; subst.
    destruct (value_eqb (cell r dossier) k) eqn:E.
    + right. exists r. f_equal.
      apply value_eqb_eq in E. subst k.
      apply matches_nil. exact Hnotin.
    + apply IH. exact Hn'.
Qed.

Lemma flat_map_head : forall {A B : Type} (f : A -> list B) x l,
  flat_map f (x :: l) = (f x ++ flat_map f l)%list.
Proof. reflexivity. Qed.

Lemma left_rows_key_list : forall left right t,
  lookup (columns left) dossier = Some t ->
  NoDup (key_values right) ->
  map (fun r => cell r dossier) (left_rows dossier left right) = key_values left.
Proof.
  intros left right t Hk Hn. unfold left_rows, key_values, column_values.
  induction (rows left) as [|l ls IH]; [reflexivity|].
  rewrite flat_map_head, map_app, IH, map_cons.
  change (cell l dossier :: map (fun r => cell r dossier) ls)
    with ([cell l dossier] ++ map (fun r => cell r dossier) ls)%list.
  f_equal.
  destruct (matches_unique (cell l dossier) (rows right) Hn) as [E|[m E]];
    rewrite E; cbn [map]; rewrite (join_row_key left right _ _ t Hk); reflexivity.
Qed.

Lemma NoDup_map_filter : forall {A B : Type} (f : A -> B) (p : A -> bool) l,
  NoDup (map f l) -> NoDup (map f (filter p l)).
Proof.
  intros A B f p. induction l as [|x l IH]; intros Hn; simpl in *.
  - constructor.
  - inversion Hn as [|y l' Hnotin Hn']; subst.
    destruct (p x); simpl; [|apply IH; exact Hn'].
    constructor; [|apply IH; exact Hn'].
    intros Hin. apply Hnotin. apply in_map_iff in Hin.
    destruct Hin as [z [E Hz]]. apply filter_In in Hz.
    apply in_map_iff. exists z. tauto.
Qed.

Lemma pd_merge_outer_unique : forall left right merged,
  pd_merge_outer dossier left right = OK merged ->
  NoDup (key_values left) -> NoDup (key_values right) ->
  NoDup (key_values merged).
Proof.
  intros left right merged H Hl Hr.
  destruct (pd_merge_outer_inv _ _ _ H) as (t & Hkl & _ & _ & _ & Hrows).
  unfold key_values at 1, column_values. rewrite Hrows.
  eapply Permutation_NoDup.
  { apply Permutation_map. apply stable_sort_perm. }
  rewrite map_app. rewrite (left_rows_key_list left right t Hkl Hr).
  apply NoDup_app.
  - exact Hl.
  - unfold right_only_rows. rewrite map_map.
    erewrite map_ext.
    + apply NoDup_map_filter. exact Hr.
    + intros r. cbv beta. rewrite (join_row_key left right _ _ t Hkl).
      unfold dossier at 1 2. simpl. reflexivity.
  - intros v Hv Hin.
    apply (right_only_rows_keys left right t v Hkl) in Hin. tauto.
Qed.

Lemma merge_loop_unique : forall rest first merged,
  merge_loop first rest = OK merged ->
  NoDup (key_values first) ->
  (forall df, In df rest -> NoDup (key_values df)) ->
  NoDup (key_values merged).
Proof.
  induction rest as [|df rest IH]; intros first merged H Hf Hall; simpl in H.
  - inversion H; subst. exact Hf.
  - unfold bind in H.
    destruct (pd_merge_outer dossier first df) as [m|] eqn:E; [|discriminate].
    apply (IH m merged H).
    + eapply pd_merge_outer_unique; eauto. apply Hall. left. reflexivity.
    + intros df' Hin. apply Hall. right. exact Hin.
Qed.

(** X10.  When the dossier is unique within each table handed to the
    merge (as [GROUP BY] makes it) and never missing, it is unique in the
    merged table: the report has one row per dossier. *)
Theorem merged_keys_unique : forall dataframes merged,
  dataframes <> [] ->
  forallb keyed dataframes = true ->
  (forall df, In df dataframes -> NoDup (key_values df)) ->
  merge_dataframes dataframes = OK merged ->
  NoDup (key_values merged) /\
  (forall final_df,
     sort_values "nb_pieces_a_traiter" false merged = OK final_df ->
     NoDup (key_values final_df)).
Proof.
  intros [|first rest] merged Hne Hkeyed Huniq H; [congruence|].
  destruct (merge_dataframes_inv _ _ _ H) as (joined & fill_row & Hj & Hc & Hr & Hfill).
  assert (Hjoined : NoDup (key_values joined)).
  { apply (merge_loop_unique rest first joined Hj).
    - apply Huniq. left. reflexivity.
    - intros df Hin. apply Huniq. right. exact Hin. }
  pose proof Hkeyed as Hkeyed'. rewrite forallb_forall in Hkeyed'.
  destruct (keyed_inv first (Hkeyed' first (or_introl eq_refl))) as [[t Hk] _].
  pose proof (merge_loop_key_column _ _ _ _ Hj Hk) as Hkj.
  assert (Hsame : key_values merged = key_values joined).
  { unfold key_values, column_values. rewrite Hr, map_map.
    apply map_ext_in. intros r Hin. rewrite Hfill, Hkj. apply filled_id.
    assert (Hx : In (cell r dossier) (key_values joined)).
    { unfold key_values, column_values.
      apply (in_map (fun r0 => cell r0 dossier)). exact Hin. }
    apply (merge_loop_keys _ _ _ _ Hj) in Hx.
    destruct Hx as [Hx|[df [Hdf Hx]]].
    - destruct (keyed_inv first (Hkeyed' first (or_introl eq_refl))) as [_ Hnn].
      apply Hnn. exact Hx.
    - destruct (keyed_inv df (Hkeyed' df (or_intror Hdf))) as [_ Hnn].
      apply Hnn. exact Hx. }
  assert (Hm : NoDup (key_values merged)) by (rewrite Hsame; exact Hjoined).
  split; [exact Hm|].
  intros final_df Hs. destruct (sort_values_desc _ _ _ Hs) as (_ & _ & Hp & _).
  eapply Permutation_NoDup; [|exact Hm].
  unfold key_values, column_values. apply Permutation_map. exact Hp.
Qed.

Lemma merged_keys_unique_witness :
  NoDup (key_values merged_scenario).
Proof.
  refine (proj1 (merged_keys_unique [table_exportees; table_a_traiter]
                   merged_scenario _ eq_refl _ eq_refl)).
  - discriminate.
  - intros df [E|[E|[]]]; subst df; vm_compute;
      repeat (constructor; [simpl; intuition discriminate|]); constructor.
Defined.

(** ** No value is lost *)

Lemma shared_column_is_key : forall left right c t t',
  NoDup (names left ++ other_names right) ->
  lookup (columns left) c = Some t ->
  lookup (columns right) c = Some t' ->
  c = dossier.
Proof.
  intros left right c t t' Hn Hl Hr.
  destruct (String.eqb_spec c dossier) as [E|E]; [exact E|].
  exfalso. apply (NoDup_app_disjoint _ _ c Hn).
  - apply lookup_in in Hl. unfold names. apply in_map_iff. exists (c, t). auto.
  - unfold other_names. apply filter_In. split.
    + apply lookup_in in Hr. unfold names. apply in_map_iff. exists (c, t'). auto.
    + apply negb_true_iff, String.eqb_neq. exact E.
Qed.

Lemma pd_merge_outer_keeps_left : forall left right merged l,
  NoDup (names left ++ other_names right) ->
  pd_merge_outer dossier left right = OK merged ->
  In l (rows left) ->
  exists r', In r' (rows merged) /\
    forall c t, lookup (columns left) c = Some t ->
                cell r' c = cell l c /\ lookup (columns merged) c = Some t.
Proof.
  intros left right merged l Hn H Hl.
  destruct (pd_merge_outer_inv _ _ _ H) as (tk & Hkl & Hkr & _ & Hcols & _).
  assert (Hex : exists rcell,
            In (join_row dossier left right (cell l) rcell)
               (left_rows dossier left right)).
  { destruct (matches dossier (cell l dossier) (rows right)) as [|m ms] eqn:E.
    - exists (fun _ => VNaN). unfold left_rows. apply in_flat_map.
      exists l. split; [exact Hl|]. rewrite E. left. reflexivity.
    - exists (cell m). unfold left_rows. apply in_flat_map.
      exists l. split; [exact Hl|]. rewrite E. left. reflexivity. }
  destruct Hex as [rcell Hin].
  exists (join_row dossier left right (cell l) rcell). split.
  - apply (merged_rows_in _ _ _ _ H). left. exact Hin.
  - intros c t Hc. split.
    + rewrite join_row_cell by exact Hn. rewrite Hc. reflexivity.
    + rewrite Hcols, merged_columns_plain, lookup_app, Hc by exact Hn. reflexivity.
Qed.

Lemma pd_merge_outer_keeps_right : forall left right merged m,
  NoDup (names left ++ other_names right) ->
  pd_merge_outer dossier left right = OK merged ->
  In m (rows right) ->
  exists r', In r' (rows merged) /\
    forall c t, lookup (columns right) c = Some t ->
                cell r' c = cell m c /\ lookup (columns merged) c = Some t.
Proof.
  intros left right merged m Hn H Hm.
  destruct (pd_merge_outer_inv _ _ _ H) as (tk & Hkl & Hkr & _ & Hcols & _).
  assert (Hex : exists lcell,
            lcell dossier = cell m dossier /\
            (In (join_row dossier left right lcell (cell m))
                (left_rows dossier left right) \/
             In (join_row dossier left right lcell (cell m))
                (right_only_rows dossier left right))).
  { destruct (matches dossier (cell m dossier) (rows left)) as [|l ls] eqn:E.
    - exists (fun c => if String.eqb c dossier then cell m dossier else VNaN).
      split; [reflexivity|]. right. unfold right_only_rows.
      apply (in_map (fun r => join_row dossier left right
                                (fun c => if String.eqb c dossier
                                          then cell r dossier else VNaN) (cell r))).
      apply filter_In. split; [exact Hm|]. rewrite E. reflexivity.
    - assert (Hl : In l (matches dossier (cell m dossier) (rows left)))
        by (rewrite E; left; reflexivity).
      apply matches_in in Hl. destruct Hl as [Hl Hk].
      exists (cell l). split; [exact Hk|]. left.
      unfold left_rows. apply in_flat_map. exists l. split; [exact Hl|].
      assert (Hmm : In m (matches dossier (cell l dossier) (rows right)))
        by (apply matches_in; auto).
      destruct (matches dossier (cell l dossier) (rows right)) as [|m' ms];
        [destruct Hmm|].
      apply (in_map (fun r => join_row dossier left right (cell l) (cell r))).
      exact Hmm. }
  destruct Hex as (lcell & Hkey & Hin).
  exists (join_row dossier left right lcell (cell m)). split.
  - apply (merged_rows_in _ _ _ _ H). exact Hin.
  - intros c t Hc.
    rewrite join_row_cell by exact Hn.
    rewrite Hcols, merged_columns_plain, lookup_app by exact Hn.
    destruct (lookup (columns left) c) as [t'|] eqn:El.
    + assert (c = dossier) by (eapply shared_column_is_key; eauto).
      subst c. split; [exact Hkey|]. congruence.
    + assert (Ho : lookup (others dossier right) c = Some t).
      { rewrite lookup_others. destruct (String.eqb_spec c dossier) as [E|E];
          [subst c; congruence|exact Hc]. }
      rewrite Ho. auto.
Qed.

Lemma merge_loop_keeps : forall rest first merged df r,
  NoDup (names first ++ flat_map other_names rest) ->
  merge_loop first rest = OK merged ->
  In df (first :: rest) -> In r (rows df) ->
  exists r', In r' (rows merged) /\
    forall c t, lookup (columns df) c = Some t ->
                cell r' c = cell r c /\ lookup (columns merged) c = Some t.
Proof.
  induction rest as [|nx rest IH]; intros first merged df r Hn H Hdf Hr; simpl in H.
  - inversion H; subst. destruct Hdf as [E|[]]. subst df.
    exists r. split; [exact Hr|]. auto.
  - unfold bind in H.
    destruct (pd_merge_outer dossier first nx) as [m|] eqn:E; [|discriminate].
    simpl in Hn. rewrite app_assoc in Hn.
    assert (Hn1 : NoDup (names first ++ other_names nx))
      by (eapply NoDup_app_remove_r; exact Hn).
    assert (Hnames : names m = (names first ++ other_names nx)%list).
    { destruct (pd_merge_outer_inv _ _ _ E) as (_ & _ & _ & _ & Hc & _).
      unfold names. rewrite Hc, merged_columns_plain, map_app, others_names
        by exact Hn1. reflexivity. }
    rewrite <- Hnames in Hn.
    assert (Hvia : forall r1,
      In r1 (rows m) ->
      (forall c t, lookup (columns df) c = Some t ->
                   cell r1 c = cell r c /\ lookup (columns m) c = Some t) ->
      exists r', In r' (rows merged) /\
        forall c t, lookup (columns df) c = Some t ->
                    cell r' c = cell r c /\ lookup (columns merged) c = Some t).
    { intros r1 Hr1 H1.
      destruct (IH m merged m r1 Hn H (or_introl eq_refl) Hr1) as (r' & Hr' & H2).
      exists r'. split; [exact Hr'|]. intros c t Hc.
      destruct (H1 c t Hc) as [Hv Hl]. destruct (H2 c t Hl) as [Hv' Hl'].
      split; [congruence|exact Hl']. }
    destruct Hdf as [Ef|[En|Hin]].
    + subst df.
      destruct (pd_merge_outer_keeps_left _ _ _ r Hn1 E Hr) as (r1 & Hr1 & H1).
      apply (Hvia r1 Hr1 H1).
    + subst df.
      destruct (pd_merge_outer_keeps_right _ _ _ r Hn1 E Hr) as (r1 & Hr1 & H1).
      apply (Hvia r1 Hr1 H1).
    + apply (IH m merged df r Hn H (or_intror Hin) Hr).
Qed.

(** X11.  The merge loses nothing: when the numbers of the tables are at
    most 2^53 in magnitude, so that a column turned into [float64] holds
    them exactly, for every row of every input table the merged table has a
    row that holds, under the same column names, each of its values (a
    missing one filled with 0 or the empty string), its dossier included. *)
Theorem merge_keeps_every_value : forall dataframes merged df r,
  compatible dataframes = true ->
  forallb (has_column dossier) dataframes = true ->
  forallb exact_cells dataframes = true ->
  merge_dataframes dataframes = OK merged ->
  In df dataframes -> In r (rows df) ->
  exists r', In r' (rows merged) /\
    forall c t, lookup (columns df) c = Some t ->
                cell r' c = filled t (cell r c).
Proof.
  intros [|first rest] merged df r Hcomp Hdos _ Hm Hdf Hr; [destruct Hdf|].
  rewrite forallb_forall in Hdos.
  destruct (compatible_inv first rest Hcomp (Hdos first (or_introl eq_refl)))
    as (t & Hk & Hall & Hn).
  destruct (merge_dataframes_inv _ _ _ Hm) as (joined & fill_row & Hj & Hc & Hrows & Hfill).
  destruct (merge_loop_keeps rest first joined df r Hn Hj Hdf Hr) as (r1 & Hr1 & H1).
  exists (fill_row r1). split.
  - rewrite Hrows. apply in_map. exact Hr1.
  - intros c t' Hl. destruct (H1 c t' Hl) as [Hv Hlj].
    rewrite Hfill, Hlj, Hv. reflexivity.
Qed.

Lemma merge_keeps_every_value_witness :
  exists r', In r' (rows merged_scenario) /\
    forall c t, lookup (columns table_a_traiter) c = Some t ->
                cell r' c =
                filled t (cell [("dossier", VStr "B"); ("nb_pieces_a_traiter", VNum 3)] c).
Proof.
  apply (merge_keeps_every_value [table_exportees; table_a_traiter]
           merged_scenario table_a_traiter); try reflexivity.
  - right. left. reflexivity.
  - right. left. reflexivity.
Defined.

(** ** The document *)

Lemma render_row_inv : forall df r tr,
  render_row df r = OK tr ->
  py_int (row_get df r "nb_pieces_a_traiter" (VNum 0)) = OK (td_pieces_a_traiter tr) /\
  py_int (row_get df r "nb_comptes_attente" (VNum 0)) = OK (td_comptes_attente tr) /\
  row_item df r "dossier" = OK (td_dossier tr) /\
  py_int (row_get df r "nb_pieces_exportees" (VNum 0)) = OK (td_pieces_exportees tr) /\
  py_int (row_get df r "nb_ecritures_exportees" (VNum 0))
    = OK (td_ecritures_exportees tr) /\
  py_int (row_get df r "nb_ecritures_a_traiter" (VNum 0))
    = OK (td_ecritures_a_traiter tr) /\
  td_pieces_class tr = pieces_class (td_pieces_a_traiter tr) /\
  td_comptes_class tr = comptes_class (td_comptes_attente tr) /\
  td_date_min tr = row_get df r "date_min_a_traiter" (VStr "") /\
  td_date_max tr = row_get df r "date_max_a_traiter" (VStr "").
Proof.
  intros df r tr. unfold render_row, bind.
  destruct (py_int (row_get df r "nb_pieces_a_traiter" (VNum 0))); [|discriminate].
  destruct (py_int (row_get df r "nb_comptes_attente" (VNum 0))); [|discriminate].
  destruct (row_item df r "dossier"); [|discriminate].
  destruct (py_int (row_get df r "nb_pieces_exportees" (VNum 0))); [|discriminate].
  destruct (py_int (row_get df r "nb_ecritures_exportees" (VNum 0))); [|discriminate].
  destruct (py_int (row_get df r "nb_ecritures_a_traiter" (VNum 0))); [|discriminate].
  intros H. inversion H; subst; simpl. repeat split; reflexivity.
Qed.

Lemma html_content_inv : forall now df doc,
  html_content now df = OK doc ->
  Forall2 (fun r tr => render_row df r = OK tr) (rows df) (table doc) /\
  card_dossiers doc = len df /\
  card_pieces_a_traiter doc = totals_get df "nb_pieces_a_traiter" /\
  card_ecritures_a_traiter doc = totals_get df "nb_ecritures_a_traiter" /\
  card_comptes_attente doc = totals_get df "nb_comptes_attente".
Proof.
  intros now df doc H. unfold html_content, bind in H.
  destruct (render_rows df (rows df)) as [trs|] eqn:E; [|discriminate].
  inversion H; subst doc; simpl. split; [apply render_rows_each; exact E|].
  repeat split; reflexivity.
Qed.

(** The total of a count column is the sum of what the rows show. *)
Lemma total_is_sum : forall df c (f : TableRow -> Z) rs trs,
  In c count_columns ->
  counts_are_numbers df = true ->
  (forall r, In r rs -> In r (rows df)) ->
  numeric_cells df = true ->
  Forall2 (fun r tr => py_int (row_get df r c (VNum 0)) = OK (f tr)) rs trs ->
  match lookup (columns df) c with
  | Some Number =>
      fold_right (fun r acc => match cell r c with VNum n => n + acc | _ => acc end) 0 rs
  | _ => 0
  end = sum_cells f trs.
Proof.
  intros df c f rs trs Hc Hcnt Hsub Hnum H.
  induction H as [|r tr rs trs Hr _ IH]; simpl.
  - destruct (lookup (columns df) c) as [[|]|]; reflexivity.
  - assert (IH' := IH (fun r0 Hr0 => Hsub r0 (or_intror Hr0))). clear IH.
    unfold row_get in Hr.
    destruct (lookup (columns df) c) as [t|] eqn:El.
    + assert (t = Number) by (eapply counts_are_numbers_inv; eauto). subst t.
      assert (Hh : has_column c df = true)
        by (apply has_column_lookup; exists Number; exact El).
      rewrite Hh in Hr.
      pose proof (numeric_cells_ok df Hnum r c (Hsub r (or_introl eq_refl)) El) as Hs.
      destruct (cell r c) as [n|s|]; simpl in *; try discriminate.
      inversion Hr. rewrite IH'. reflexivity.
    + assert (Hh : has_column c df = false).
      { destruct (has_column c df) eqn:Hh; [|reflexivity].
        apply has_column_lookup in Hh. destruct Hh as [t Hh]. congruence. }
      rewrite Hh in Hr. simpl in Hr. inversion Hr. rewrite <- IH'. reflexivity.
Qed.

(** X12.  The summary cards agree with the table of the document: the
    first card is the number of its rows, and the three totals are the
    sums of the cells shown in the corresponding columns, provided the
    count columns are numeric, hold no text, and add up, in magnitude, to
    2^53 at most (so that [sum] neither wraps nor rounds). *)
Theorem cards_are_column_totals : forall now df doc,
  counts_are_numbers df = true ->
  numeric_cells df = true ->
  exact_sums df = true ->
  html_content now df = OK doc ->
  card_dossiers doc = List.length (table doc) /\
  card_pieces_a_traiter doc = sum_cells td_pieces_a_traiter (table doc) /\
  card_ecritures_a_traiter doc = sum_cells td_ecritures_a_traiter (table doc) /\
  card_comptes_attente doc = sum_cells td_comptes_attente (table doc).
Proof.
  intros now df doc Hcnt Hnum _ H.
  destruct (html_content_inv _ _ _ H) as (Hrows & Hd & Hp & He & Hc).
  split; [rewrite Hd; unfold len; eapply Forall2_length; exact Hrows|].
  rewrite Hp, He, Hc. unfold totals_get, column_sum.
  repeat split.
  - apply (total_is_sum df "nb_pieces_a_traiter" td_pieces_a_traiter);
      auto; [simpl; tauto|].
    eapply Forall2_impl; [|exact Hrows]. intros r tr Hr.
    apply render_row_inv in Hr. tauto.
  - apply (total_is_sum df "nb_ecritures_a_traiter" td_ecritures_a_traiter);
      auto; [simpl; tauto|].
    eapply Forall2_impl; [|exact Hrows]. intros r tr Hr.
    apply render_row_inv in Hr. tauto.
  - apply (total_is_sum df "nb_comptes_attente" td_comptes_attente);
      auto; [simpl; tauto|].
    eapply Forall2_impl; [|exact Hrows]. intros r tr Hr.
    apply render_row_inv in Hr. tauto.
Qed.

Lemma cards_are_column_totals_witness :
  card_dossiers report_scenario = 2%nat /\
  card_pieces_a_traiter report_scenario = 63.
Proof.
  pose proof (cards_are_column_totals (now world_scenario) merged_scenario
                report_scenario eq_refl eq_refl eq_refl eq_refl) as H.
  split; [exact (proj1 H)|exact (proj1 (proj2 H))].
Defined.

(** X13.  A column the table lacks is shown with its default in every
    row: a count as 0, with the nominal class for the two classified
    ones, and a date as the empty string. *)
Theorem absent_columns_render_defaults : forall now df doc tr,
  html_content now df = OK doc ->
  In tr (table doc) ->
  (has_column "nb_pieces_a_traiter" df = false ->
   td_pieces_a_traiter tr = 0 /\ td_pieces_class tr = "good") /\
  (has_column "nb_comptes_attente" df = false ->
   td_comptes_attente tr = 0 /\ td_comptes_class tr = "good") /\
  (has_column "nb_pieces_exportees" df = false -> td_pieces_exportees tr = 0) /\
  (has_column "nb_ecritures_exportees" df = false -> td_ecritures_exportees tr = 0) /\
  (has_column "nb_ecritures_a_traiter" df = false -> td_ecritures_a_traiter tr = 0) /\
  (has_column "date_min_a_traiter" df = false -> td_date_min tr = VStr "") /\
  (has_column "date_max_a_traiter" df = false -> td_date_max tr = VStr "").
Proof.
  intros now df doc tr H Hin.
  destruct (html_content_inv _ _ _ H) as (Hrows & _).
  assert (Hr : exists r, render_row df r = OK tr).
  { clear H. induction Hrows as [|r tr' rs trs Hr _ IH]; [destruct Hin|].
    destruct Hin as [E|Hin]; [subst; exists r; exact Hr|apply IH; exact Hin]. }
  destruct Hr as [r Hr]. apply render_row_inv in Hr.
  destruct Hr as (H1 & H2 & _ & H4 & H5 & H6 & H7 & H8 & H9 & H10).
  unfold row_get in *.
  split; [intros Hc; rewrite Hc in H1; simpl in H1; inversion H1 as [E];
          rewrite H7, <- E; split; reflexivity|].
  split; [intros Hc; rewrite Hc in H2; simpl in H2; inversion H2 as [E];
          rewrite H8, <- E; split; reflexivity|].
  split; [intros Hc; rewrite Hc in H4; simpl in H4; congruence|].
  split; [intros Hc; rewrite Hc in H5; simpl in H5; congruence|].
  split; [intros Hc; rewrite Hc in H6; simpl in H6; congruence|].
  split; [intros Hc; rewrite Hc in H9; exact H9|].
  intros Hc; rewrite Hc in H10; exact H10.
Qed.

Lemma absent_columns_render_defaults_witness :
  td_comptes_attente (mkTableRow (VStr "B") 0 0 3 "" 0 0 "good" (VStr "") (VStr "")) = 0 /\
  td_date_min (mkTableRow (VStr "B") 0 0 3 "" 0 0 "good" (VStr "") (VStr "")) = VStr "".
Proof.
  pose proof (absent_columns_render_defaults (now world_scenario) merged_scenario
                report_scenario
                (mkTableRow (VStr "B") 0 0 3 "" 0 0 "good" (VStr "") (VStr ""))
                eq_refl (or_intror (or_introl eq_refl))) as H.
  split.
  - apply (proj1 (proj2 H)). reflexivity.
  - apply (proj1 (proj2 (proj2 (proj2 (proj2 (proj2 H)))))). reflexivity.
Defined.

(** X14.  The renderer needs the dossier column: on a table with rows
    and no such column it raises before the file is opened, so that nothing
    is written or printed; the exception is [KeyError] for the column when
    the two classified cells of the first row convert to integers.  On a
    table without rows the document has an empty table and counts no
    dossier. *)
Theorem render_needs_dossier : forall w df output_file,
  has_column dossier df = false ->
  (forall r rs,
     rows df = r :: rs ->
     (exists e, generate_html_report w df output_file = ([], Raise e)) /\
     (forall n1 n2,
        py_int (row_get df r "nb_pieces_a_traiter" (VNum 0)) = OK n1 ->
        py_int (row_get df r "nb_comptes_attente" (VNum 0)) = OK n2 ->
        generate_html_report w df output_file = ([], Raise (KeyError "dossier")))) /\
  (rows df = [] ->
   exists doc, html_content (now w) df = OK doc /\ table doc = [] /\
               card_dossiers doc = 0%nat).
Proof.
  intros w df output_file Hd. split.
  - intros r rs Hrows.
    unfold generate_html_report, html_content. rewrite Hrows.
    cbn [render_rows]. unfold render_row, bind, row_item.
    unfold dossier in Hd. rewrite Hd.
    destruct (py_int (row_get df r "nb_pieces_a_traiter" (VNum 0))) as [n1|e1].
    + destruct (py_int (row_get df r "nb_comptes_attente" (VNum 0))) as [n2|e2].
      * split; [eexists; reflexivity|]. intros; reflexivity.
      * split; [eexists; reflexivity|]. intros n1' n2' _ H. discriminate H.
    + split; [eexists; reflexivity|]. intros n1' n2' H. discriminate H.
  - intros He. unfold html_content, len. rewrite He. simpl.
    eexists. split; [reflexivity|]. split; reflexivity.
Qed.

Lemma render_needs_dossier_witness :
  generate_html_report world_scenario
    {| columns := [("nb_pieces_a_traiter", Number)];
       rows := [[("nb_pieces_a_traiter", VNum 4)]] |} "out.html"
    = ([], Raise (KeyError "dossier")) /\
  (exists doc,
     html_content (now world_scenario)
       {| columns := [("nb_pieces_a_traiter", Number)]; rows := [] |} = OK doc /\
     table doc = [] /\ card_dossiers doc = 0%nat).
Proof.
  split.
  - apply (proj2 (proj1 (render_needs_dossier world_scenario
                    {| columns := [("nb_pieces_a_traiter", Number)];
                       rows := [[("nb_pieces_a_traiter", VNum 4)]] |} "out.html" eq_refl)
                    _ _ eq_refl) 4 0); reflexivity.
  - apply (proj2 (render_needs_dossier world_scenario
                    {| columns := [("nb_pieces_a_traiter", Number)];
                       rows := [] |} "out.html" eq_refl)).
    reflexivity.
Defined.

(** ** The loader: what it stores, and decimal ports *)

Lemma lstrip_text_fixed : forall t,
  starts_with_space t = false -> PyStr.lstrip_text t = t.
Proof. intros [|c t] H; simpl in *; [reflexivity|rewrite H; reflexivity]. Qed.

Lemma rstrip_text_fixed : forall t,
  ends_with_space t = false -> PyStr.rstrip_text t = t.
Proof.
  induction t as [|c t IH]; intros H; [reflexivity|].
  destruct t as [|c' t'].
  - simpl in *. rewrite H. reflexivity.
  - change (ends_with_space (c' :: t') = false) in H.
    cbn [PyStr.rstrip_text]. cbn [PyStr.rstrip_text] in IH. rewrite (IH H). reflexivity.
Qed.

Lemma strip_text_fixed : forall t,
  starts_with_space t = false -> ends_with_space t = false -> PyStr.strip_text t = t.
Proof.
  intros t Hs He. unfold PyStr.strip_text.
  rewrite (lstrip_text_fixed _ Hs). apply rstrip_text_fixed. exact He.
Qed.

Lemma strip_text_idem : forall t,
  PyStr.strip_text (PyStr.strip_text t) = PyStr.strip_text t.
Proof.
  intros t. destruct (strip_text_spec t) as (l & r & _ & _ & _ & Hend & Hstart).
  apply strip_text_fixed; assumption.
Qed.

Lemma strip_idem : forall s, PyStr.strip (PyStr.strip s) = PyStr.strip s.
Proof.
  intros s. destruct (Utf8.decode s) as [t|] eqn:E.
  - unfold PyStr.strip at 1. unfold PyStr.on_text.
    rewrite (strip_decode _ _ E), strip_text_idem.
    unfold PyStr.strip, PyStr.on_text. rewrite E. reflexivity.
  - assert (Hs : PyStr.strip s = s).
    { unfold PyStr.strip, PyStr.on_text. rewrite E. reflexivity. }
    rewrite !Hs. reflexivity.
Qed.

(** A trimmed [str] has no whitespace at either end. *)
Lemma strip_trimmed : forall s t,
  Utf8.decode (PyStr.strip s) = Some t ->
  starts_with_space t = false /\ ends_with_space t = false.
Proof.
  intros s t H. destruct (Utf8.decode s) as [t0|] eqn:E.
  - rewrite (strip_decode _ _ E) in H. injection H as <-.
    destruct (strip_text_spec t0) as (l & r & _ & _ & _ & Hend & Hstart). auto.
  - unfold PyStr.strip, PyStr.on_text in H. rewrite E in H. congruence.
Qed.

(** *** Lower-casing *)

Lemma ends_with_space_app : forall l1 l2,
  l2 <> [] -> ends_with_space (l1 ++ l2) = ends_with_space l2.
Proof.
  induction l1 as [|c l1 IH]; intros l2 H; [reflexivity|].
  cbn [app]. specialize (IH l2 H).
  destruct (l1 ++ l2)%list as [|c' l] eqn:E.
  - destruct l1; [simpl in E; congruence|discriminate E].
  - exact IH.
Qed.

Lemma lowercase_images_ok :
  forallb (fun run => forallb lowered_ok (run_images run)) Unicode.lowercase = true.
Proof. vm_compute. reflexivity. Qed.

(** A character is its own lower case, or its lower case is read in the
    table. *)
Lemma to_lower_image : forall c,
  Unicode.to_lower c = c \/ lowered_ok (Unicode.to_lower c) = true.
Proof.
  intros c. unfold Unicode.to_lower.
  destruct (find _ Unicode.lowercase) as [[[[first last] stride] image]|] eqn:E;
    [|left; reflexivity].
  right. apply find_some in E. destruct E as [Hin Hrun].
  pose proof lowercase_images_ok as H. rewrite forallb_forall in H.
  specialize (H _ Hin). rewrite forallb_forall in H. apply H. clear H Hin.
  apply andb_true_iff in Hrun. destruct Hrun as [Hrun Hmod].
  apply andb_true_iff in Hrun. destruct Hrun as [Hlo Hhi].
  apply N.leb_le in Hlo. apply N.leb_le in Hhi. apply N.eqb_eq in Hmod.
  pose proof (N.Div0.div_mod (c - first) stride) as Hdiv. rewrite Hmod in Hdiv.
  assert (Hle : ((c - first) / stride <= (last - first) / stride)%N)
    by (apply N.Div0.div_le_mono; lia).
  unfold run_images. apply in_map_iff.
  exists (N.to_nat ((c - first) / stride)). split.
  - rewrite Nnat.N2Nat.id. f_equal. lia.
  - apply in_seq. clear Hdiv.
    generalize dependent ((c - first) / stride)%N.
    generalize dependent ((last - first) / stride)%N. intros. lia.
Qed.

Lemma lowered_ok_inv : forall c,
  lowered_ok c = true ->
  lower_fixed c = true /\ scalar c = true /\ Unicode.is_space c = false.
Proof.
  intros c H. unfold lowered_ok in H.
  apply andb_true_iff in H. destruct H as [H Hs].
  apply andb_true_iff in H. destruct H as [Hl Hc].
  apply negb_true_iff in Hs. auto.
Qed.

Lemma to_lower_ok : forall c,
  c <> 931%N -> c <> 304%N ->
  lower_fixed (Unicode.to_lower c) = true /\
  (scalar c = true -> scalar (Unicode.to_lower c) = true) /\
  (Unicode.is_space c = false -> Unicode.is_space (Unicode.to_lower c) = false).
Proof.
  intros c H1 H2. destruct (to_lower_image c) as [E|E].
  - rewrite E. split; [|auto]. unfold lower_fixed.
    rewrite E, N.eqb_refl.
    apply N.eqb_neq in H1. apply N.eqb_neq in H2. rewrite H1, H2. reflexivity.
  - apply lowered_ok_inv in E. destruct E as (Hl & Hc & Hs). auto.
Qed.

(** What one character is lower-cased to. *)
Lemma lower_char_ok : forall b c rest,
  PyStr.lower_char b c rest <> [] /\
  forallb lower_fixed (PyStr.lower_char b c rest) = true /\
  (scalar c = true -> forallb scalar (PyStr.lower_char b c rest) = true) /\
  (Unicode.is_space c = false ->
   starts_with_space (PyStr.lower_char b c rest) = false /\
   ends_with_space (PyStr.lower_char b c rest) = false).
Proof.
  intros b c rest. unfold PyStr.lower_char.
  destruct (N.eqb_spec c 931) as [E1|E1].
  - destruct (b && negb (PyStr.cased_follows rest));
      (split; [discriminate|]); repeat split; vm_compute; reflexivity.
  - destruct (N.eqb_spec c 304) as [E2|E2].
    + split; [discriminate|]. repeat split; vm_compute; reflexivity.
    + destruct (to_lower_ok c E1 E2) as (Hl & Hc & Hs).
      split; [discriminate|]. cbn [forallb starts_with_space ends_with_space].
      rewrite Hl. split; [reflexivity|]. split.
      * intros H. rewrite (Hc H). reflexivity.
      * intros H. rewrite (Hs H). auto.
Qed.

Lemma lower_text_not_empty : forall t b, t <> [] -> PyStr.lower_text b t <> [].
Proof.
  intros [|c t] b H; [congruence|]. cbn [PyStr.lower_text].
  destruct (lower_char_ok b c t) as (Hne & _).
  destruct (PyStr.lower_char b c t); [congruence|discriminate].
Qed.

Lemma lower_text_lower : forall t b, is_lower (PyStr.lower_text b t) = true.
Proof.
  unfold is_lower. induction t as [|c t IH]; intros b; [reflexivity|].
  cbn [PyStr.lower_text]. rewrite forallb_app, IH.
  destruct (lower_char_ok b c t) as (_ & Hl & _). rewrite Hl. reflexivity.
Qed.

Lemma lower_text_scalar : forall t b,
  forallb scalar t = true -> forallb scalar (PyStr.lower_text b t) = true.
Proof.
  induction t as [|c t IH]; intros b H; [reflexivity|].
  cbn [forallb] in H. apply andb_true_iff in H. destruct H as [Hc Ht].
  cbn [PyStr.lower_text]. rewrite forallb_app, (IH _ Ht).
  destruct (lower_char_ok b c t) as (_ & _ & Hs & _). rewrite (Hs Hc). reflexivity.
Qed.

Lemma lower_text_fixed : forall t b, is_lower t = true -> PyStr.lower_text b t = t.
Proof.
  unfold is_lower. induction t as [|c t IH]; intros b H; [reflexivity|].
  cbn [forallb] in H. apply andb_true_iff in H. destruct H as [Hc Ht].
  cbn [PyStr.lower_text]. rewrite (IH _ Ht).
  unfold lower_fixed in Hc.
  apply andb_true_iff in Hc. destruct Hc as [Hc H304].
  apply andb_true_iff in Hc. destruct Hc as [Hc H931].
  apply negb_true_iff in H304. apply negb_true_iff in H931. apply N.eqb_eq in Hc.
  unfold PyStr.lower_char. rewrite H931, H304, Hc. reflexivity.
Qed.

Lemma lower_text_starts : forall t b,
  starts_with_space t = false -> starts_with_space (PyStr.lower_text b t) = false.
Proof.
  intros [|c t] b Hs; [reflexivity|]. cbn [PyStr.lower_text].
  destruct (lower_char_ok b c t) as (Hne & _ & _ & Hsp).
  cbn [starts_with_space] in Hs. destruct (Hsp Hs) as [Hs' _].
  destruct (PyStr.lower_char b c t) as [|x l]; [congruence|exact Hs'].
Qed.

Lemma lower_text_ends : forall t b,
  ends_with_space t = false -> ends_with_space (PyStr.lower_text b t) = false.
Proof.
  induction t as [|c t IH]; intros b He; [reflexivity|].
  cbn [PyStr.lower_text].
  destruct t as [|c' t'].
  - cbn [PyStr.lower_text]. rewrite app_nil_r.
    destruct (lower_char_ok b c []) as (_ & _ & _ & Hsp).
    cbn [ends_with_space] in He. exact (proj2 (Hsp He)).
  - rewrite ends_with_space_app by (apply lower_text_not_empty; discriminate).
    apply IH. exact He.
Qed.

(** Lower-casing a [str], read on its characters. *)
Lemma lower_decode : forall s t,
  Utf8.decode s = Some t ->
  Utf8.decode (PyStr.lower s) = Some (PyStr.lower_text false t).
Proof.
  intros s t H. unfold PyStr.lower, PyStr.on_text. rewrite H.
  apply decode_encode, lower_text_scalar. exact (decode_scalar _ _ H).
Qed.

(** A lower-cased trimmed key is lower-case and trimmed. *)
Lemma key_normalised : forall key,
  let k := PyStr.lower (PyStr.strip key) in
  PyStr.lower k = k /\ PyStr.strip k = k /\
  (forall t, Utf8.decode k = Some t ->
             is_lower t = true /\
             starts_with_space t = false /\ ends_with_space t = false).
Proof.
  intros key k. subst k.
  destruct (Utf8.decode key) as [t0|] eqn:E.
  - pose proof (strip_decode _ _ E) as Hs.
    pose proof (lower_decode _ _ Hs) as Hl.
    destruct (strip_text_spec t0) as (l & r & _ & _ & _ & Hend & Hstart).
    set (u := PyStr.lower_text false (PyStr.strip_text t0)) in *.
    assert (Hu : is_lower u = true) by apply lower_text_lower.
    assert (Hus : starts_with_space u = false) by (apply lower_text_starts; exact Hstart).
    assert (Hue : ends_with_space u = false) by (apply lower_text_ends; exact Hend).
    split; [|split].
    + unfold PyStr.lower at 1. unfold PyStr.on_text. rewrite Hl.
      rewrite (lower_text_fixed _ _ Hu).
      unfold PyStr.lower, PyStr.on_text. rewrite Hs. reflexivity.
    + unfold PyStr.strip at 1. unfold PyStr.on_text. rewrite Hl.
      rewrite (strip_text_fixed _ Hus Hue).
      unfold PyStr.lower, PyStr.on_text. rewrite Hs. reflexivity.
    + intros t Ht. rewrite Hl in Ht. injection Ht as <-. auto.
  - assert (Hs : PyStr.strip key = key).
    { unfold PyStr.strip, PyStr.on_text. rewrite E. reflexivity. }
    assert (Hl : PyStr.lower key = key).
    { unfold PyStr.lower, PyStr.on_text. rewrite E. reflexivity. }
    rewrite !Hs, !Hl, !Hs. split; [reflexivity|]. split; [reflexivity|].
    intros t Ht. congruence.
Qed.

(** X15.  Whatever the file holds, the keys the loader stores are
    lower-case and trimmed, and the values are trimmed: [lower] and [strip]
    leave a key as it is, [strip] leaves a value as it is; no character of
    a key is changed by lower-casing, and neither the first nor the last
    character of a key or of a value is whitespace. *)
Theorem stored_bindings_are_normalised : forall config_txt config k v,
  read_config config_txt = OK config ->
  In (k, v) config ->
  (PyStr.lower k = k /\ PyStr.strip k = k /\ PyStr.strip v = v) /\
  (forall t, Utf8.decode k = Some t ->
             is_lower t = true /\
             starts_with_space t = false /\ ends_with_space t = false) /\
  (forall t, Utf8.decode v = Some t ->
             starts_with_space t = false /\ ends_with_space t = false).
Proof.
  intros config_txt config k v Hr.
  assert (Hinv : forall lines d,
    (forall k v, In (k, v) d ->
       exists key value, k = PyStr.lower (PyStr.strip key) /\ v = PyStr.strip value) ->
    forall k v, In (k, v) (fold_left load_line lines d) ->
       exists key value, k = PyStr.lower (PyStr.strip key) /\ v = PyStr.strip value).
  { induction lines as [|raw lines IH]; intros d Hd; simpl; [exact Hd|].
    apply IH. unfold load_line.
    destruct (line_kept (PyStr.strip raw)); [|exact Hd].
    destruct (PyStr.split1 "=" (PyStr.strip raw)) as [key value].
    intros k' v' [E|Hin]; [|apply (Hd k' v'); exact Hin].
    inversion E; subst k' v'. exists key, value. auto. }
  intros Hin.
  assert (Hkv : exists key value,
            k = PyStr.lower (PyStr.strip key) /\ v = PyStr.strip value).
  { destruct config_txt as [content|]; unfold read_config in Hr.
    - destruct (Utf8.decode content); [|discriminate].
      injection Hr as <-.
      refine (Hinv (PyStr.file_lines content) [] _ k v Hin). intros k' v' [].
    - injection Hr as <-. destruct Hin. }
  destruct Hkv as (key & value & -> & ->).
  destruct (key_normalised key) as (Hl & Hs & Hk).
  split; [split; [exact Hl|split; [exact Hs|apply strip_idem]]|].
  split; [exact Hk|].
  intros t Ht. apply (strip_trimmed value). exact Ht.
Qed.

Lemma stored_bindings_are_normalised_witness :
  PyStr.lower "host" = "host" /\ PyStr.strip "host" = "host"
  /\ PyStr.strip "db.example" = "db.example".
Proof.
  apply (stored_bindings_are_normalised (Some config_sample)
           [("user", "a=b"); ("port", "54_32"); ("host", "db.example")]
           "host" "db.example").
  - reflexivity.
  - do 2 right. left. reflexivity.
Defined.

(** *** ASCII texts *)

Lemma codes_cons : forall a s, codes (String a s) = N_of_ascii a :: codes s.
Proof. reflexivity. Qed.

Lemma codes_app : forall a b, codes (a ++ b) = (codes a ++ codes b)%list.
Proof.
  induction a as [|c a IH]; intros b; [reflexivity|].
  change (String c a ++ b) with (String c (a ++ b)).
  rewrite !codes_cons, IH. reflexivity.
Qed.

Lemma is_ascii_cons : forall a s,
  is_ascii (String a s) = (N_of_ascii a <? 128)%N && is_ascii s.
Proof. reflexivity. Qed.

Lemma is_ascii_app : forall a b, is_ascii (a ++ b) = is_ascii a && is_ascii b.
Proof.
  induction a as [|c a IH]; intros b; [reflexivity|].
  change (String c a ++ b) with (String c (a ++ b)).
  rewrite !is_ascii_cons, IH, andb_assoc. reflexivity.
Qed.

Lemma decode_ascii : forall s, is_ascii s = true -> Utf8.decode s = Some (codes s).
Proof.
  induction s as [|a s IH]; intros H; [reflexivity|].
  rewrite is_ascii_cons in H. apply andb_true_iff in H. destruct H as [Ha Hs].
  cbn [Utf8.decode]. cbv zeta. rewrite Ha, (IH Hs). reflexivity.
Qed.

Lemma encode_codes : forall s, is_ascii s = true -> Utf8.encode (codes s) = s.
Proof.
  induction s as [|a s IH]; intros H; [reflexivity|].
  rewrite is_ascii_cons in H. apply andb_true_iff in H. destruct H as [Ha Hs].
  rewrite codes_cons, encode_cons. unfold Utf8.encode_char. rewrite Ha.
  cbn [map string_of_list_ascii append].
  rewrite ascii_N_embedding, (IH Hs). reflexivity.
Qed.

Lemma strip_ascii : forall s,
  is_ascii s = true -> PyStr.strip s = Utf8.encode (PyStr.strip_text (codes s)).
Proof.
  intros s H. unfold PyStr.strip, PyStr.on_text. rewrite (decode_ascii _ H). reflexivity.
Qed.

Lemma strip_ascii_fixed : forall s,
  is_ascii s = true ->
  starts_with_space (codes s) = false -> ends_with_space (codes s) = false ->
  PyStr.strip s = s.
Proof.
  intros s H Hs He. rewrite (strip_ascii _ H), strip_text_fixed by assumption.
  apply encode_codes. exact H.
Qed.

(** *** Decimal texts *)

Lemma to_uint_not_nil : forall n, Nat.to_uint n <> Decimal.Nil.
Proof.
  intros n H.
  pose proof (DecimalNat.Unsigned.to_of (Nat.to_uint n)) as E.
  rewrite DecimalNat.Unsigned.of_to, H in E. discriminate E.
Qed.

Lemma digit_codes : forall d,
  Forall (fun c => (48 <= c <= 57)%N) (codes (NilEmpty.string_of_uint d)).
Proof.
  induction d; cbn [NilEmpty.string_of_uint]; [constructor|..];
    rewrite codes_cons; (constructor; [cbn; lia|exact IHd]).
Qed.

Lemma is_ascii_digits : forall d, is_ascii (NilEmpty.string_of_uint d) = true.
Proof.
  induction d; cbn [NilEmpty.string_of_uint]; [reflexivity|..];
    rewrite is_ascii_cons, IHd; reflexivity.
Qed.

Lemma digits_not_empty : forall d,
  d <> Decimal.Nil ->
  exists c t, codes (NilEmpty.string_of_uint d) = c :: t /\ (48 <= c <= 57)%N.
Proof.
  intros d Hd. pose proof (digit_codes d) as H.
  destruct d; [congruence|..]; cbn [NilEmpty.string_of_uint] in *;
    rewrite codes_cons in *; inversion H; subst; eauto.
Qed.

Lemma digits_no_space : forall d,
  d <> Decimal.Nil ->
  starts_with_space (codes (NilEmpty.string_of_uint d)) = false /\
  ends_with_space (codes (NilEmpty.string_of_uint d)) = false.
Proof.
  assert (Hdigit : forall c, (48 <= c <= 57)%N -> Unicode.is_space c = false).
  { intros c Hc. unfold Unicode.is_space, Unicode.in_ranges, Unicode.whitespace.
    cbn [existsb]. decide_N. reflexivity. }
  intros d Hd. split.
  - destruct (digits_not_empty d Hd) as (c & t & E & Hc). rewrite E.
    apply Hdigit. exact Hc.
  - pose proof (digit_codes d) as H. clear Hd.
    induction H as [|c t Hc _ IH]; [reflexivity|].
    destruct t as [|c' t']; [apply Hdigit; exact Hc|exact IH].
Qed.

Lemma scan_digits_uint : forall d a k,
  PyStr.scan_digits false (Z.of_nat a) k (codes (NilEmpty.string_of_uint d)) =
  Some (Z.of_nat (Nat.of_uint_acc d a),
        (k + N.of_nat (String.length (NilEmpty.string_of_uint d)))%N, []).
Proof.
  induction d; intros a k;
    cbn [NilEmpty.string_of_uint Nat.of_uint_acc String.length];
    [cbn; rewrite N.add_0_r; reflexivity|..];
    rewrite codes_cons; cbn [PyStr.scan_digits];
    lazymatch goal with
    | |- context [if ?b then _ else _] => change b with true
    end;
    cbv iota;
    lazymatch goal with
    | |- PyStr.scan_digits false ?acc _ _ = Some (Z.of_nat (Nat.of_uint_acc _ ?a'), _, _) =>
        replace acc with (Z.of_nat a')
          by (rewrite Nat.tail_mul_spec; cbn [N_of_ascii N_of_digits]; lia)
    end;
    rewrite IHd; f_equal; f_equal; f_equal; lia.
Qed.

Lemma to_ascii_small : forall t,
  Forall (fun c => (48 <= c <= 57)%N) t -> map PyStr.to_ascii t = t.
Proof.
  induction 1 as [|c t Hc _ IH]; [reflexivity|].
  cbn [map]. rewrite IH. unfold PyStr.to_ascii.
  replace (c <? 127)%N with true by (symmetry; apply N.ltb_lt; lia). reflexivity.
Qed.

(** [int] of a decimal text within the limit is the number it writes. *)
Lemma parse_int_uint : forall d,
  d <> Decimal.Nil ->
  (N.of_nat (String.length (NilEmpty.string_of_uint d)) <= PyStr.int_max_str_digits)%N ->
  PyStr.parse_int (codes (NilEmpty.string_of_uint d)) =
  PyStr.IntValue (Z.of_nat (Nat.of_uint d)).
Proof.
  intros d Hd Hlen. unfold PyStr.parse_int.
  rewrite (to_ascii_small _ (digit_codes d)).
  pose proof (scan_digits_uint d 0 0) as Hscan.
  destruct (digits_not_empty d Hd) as (c & t & E & Hc).
  assert (Hpos : (1 <= String.length (NilEmpty.string_of_uint d))%nat).
  { destruct d; [congruence|..]; cbn [NilEmpty.string_of_uint String.length]; lia. }
  unfold PyStr.int_max_str_digits in *.
  rewrite E in *. cbn [PyStr.skip_spaces]. unfold PyStr.is_c_space.
  replace (c <=? 13)%N with false by (symmetry; apply N.leb_gt; lia).
  replace (c =? 32)%N with false by (symmetry; apply N.eqb_neq; lia).
  rewrite andb_false_r. cbn [orb].
  replace (c =? 43)%N with false by (symmetry; apply N.eqb_neq; lia).
  replace (c =? 45)%N with false by (symmetry; apply N.eqb_neq; lia).
  replace (c =? 95)%N with false by (symmetry; apply N.eqb_neq; lia).
  change (Z.of_nat 0) with 0 in Hscan. rewrite Hscan.
  replace (4300 <? 0 + N.of_nat (String.length (NilEmpty.string_of_uint d)))%N
    with false by (symmetry; apply N.ltb_ge; lia).
  replace (0 + N.of_nat (String.length (NilEmpty.string_of_uint d)) =? 0)%N
    with false by (symmetry; apply N.eqb_neq; lia).
  reflexivity.
Qed.

Lemma int_of_str_nat : forall n,
  (N.of_nat (String.length (str_nat n)) <= PyStr.int_max_str_digits)%N ->
  PyStr.int_of_str (str_nat n) = Some (Z.of_nat n).
Proof.
  intros n Hlen. unfold PyStr.int_of_str, PyStr.int_outcome_of, str_nat in *.
  rewrite (decode_ascii _ (is_ascii_digits _)).
  rewrite (parse_int_uint _ (to_uint_not_nil n) Hlen).
  rewrite DecimalNat.Unsigned.of_to. reflexivity.
Qed.

Lemma universal_newlines_digits : forall d,
  PyStr.universal_newlines (NilEmpty.string_of_uint d) = NilEmpty.string_of_uint d.
Proof.
  induction d; simpl; [reflexivity|..]; rewrite IHd; reflexivity.
Qed.

Lemma split_lines_digits : forall d,
  d <> Decimal.Nil ->
  PyStr.split_lines (NilEmpty.string_of_uint d) = [NilEmpty.string_of_uint d].
Proof.
  induction d; intros Hd; [congruence|..];
    cbn [NilEmpty.string_of_uint PyStr.split_lines];
    match goal with
    | |- context [Ascii.eqb ?c PyStr.LF] =>
        change (Ascii.eqb c PyStr.LF) with false; cbv iota
    end;
    (destruct d; [reflexivity|..]; rewrite IHd by discriminate; reflexivity).
Qed.

Lemma port_line_loads : forall s n,
  is_ascii s = true ->
  starts_with_space (codes s) = false -> ends_with_space (codes s) = false ->
  s <> "" ->
  PyStr.universal_newlines s = s ->
  PyStr.split_lines s = [s] ->
  PyStr.int_of_str s = Some n ->
  load_config (Some ("PORT = " ++ s)) = OK (defaults_with_port n).
Proof.
  intros s n Ha Hs He Hne Hu Hl Hint.
  assert (Hcodes : codes s <> []).
  { destruct s; [congruence|discriminate]. }
  assert (Hline : is_ascii ("PORT = " ++ s) = true)
    by (rewrite is_ascii_app, Ha; reflexivity).
  unfold load_config, read_config, bind.
  rewrite (decode_ascii _ Hline). unfold PyStr.file_lines.
  assert (E1 : PyStr.universal_newlines ("PORT = " ++ s) = "PORT = " ++ s).
  { simpl. rewrite Hu. reflexivity. }
  rewrite E1.
  assert (E2 : PyStr.split_lines ("PORT = " ++ s) = ["PORT = " ++ s]).
  { simpl. rewrite Hl. reflexivity. }
  rewrite E2. cbn [fold_left]. unfold load_line.
  assert (E3 : PyStr.strip ("PORT = " ++ s) = "PORT = " ++ s).
  { apply strip_ascii_fixed; [exact Hline|reflexivity|].
    rewrite codes_app, ends_with_space_app by exact Hcodes. exact He. }
  rewrite E3.
  assert (E4 : line_kept ("PORT = " ++ s) = true) by reflexivity.
  rewrite E4.
  assert (E5 : PyStr.split1 "=" ("PORT = " ++ s) = ("PORT ", String " " s))
    by reflexivity.
  rewrite E5.
  assert (E6 : PyStr.strip (String " " s) = s).
  { rewrite strip_ascii by (rewrite is_ascii_cons, Ha; reflexivity).
    rewrite codes_cons. unfold PyStr.strip_text. cbn [PyStr.lstrip_text].
    change (Unicode.is_space (N_of_ascii " ")) with true. cbv iota.
    fold (PyStr.strip_text (codes s)).
    rewrite strip_text_fixed by assumption. apply encode_codes. exact Ha. }
  rewrite E6.
  assert (E7 : PyStr.lower (PyStr.strip "PORT ") = "port") by (vm_compute; reflexivity).
  rewrite E7.
  unfold descriptor_of, port_of, dict_set, dict_get_default, PyStr.int, bind.
  change (dict_get [("port", s)] "port") with (Some s).
  cbv iota beta. rewrite Hint. reflexivity.
Qed.

(** X16.  A port written in decimal is read back as that number: for
    every natural number [n] whose decimal text has no more digits than
    the interpreter's limit (4300), [int] of the text is [n], and the file [PORT = n] (upper-case
    key, spaces around the sign) loads with port [n] and the other fields
    at their defaults. *)
Theorem decimal_port_round_trip : forall n : nat,
  (N.of_nat (String.length (str_nat n)) <= PyStr.int_max_str_digits)%N ->
  PyStr.int_of_str (str_nat n) = Some (Z.of_nat n) /\
  load_config (Some ("PORT = " ++ str_nat n)) = OK (defaults_with_port (Z.of_nat n)).
Proof.
  intros n Hlen. split; [apply int_of_str_nat; exact Hlen|].
  pose proof (to_uint_not_nil n) as Hn.
  destruct (digits_no_space (Nat.to_uint n) Hn) as [Hs He].
  apply port_line_loads.
  - apply is_ascii_digits.
  - exact Hs.
  - exact He.
  - unfold str_nat. destruct (Nat.to_uint n); [congruence|..]; discriminate.
  - apply universal_newlines_digits.
  - apply split_lines_digits. exact Hn.
  - apply int_of_str_nat. exact Hlen.
Qed.

Lemma decimal_port_round_trip_witness :
  PyStr.int_of_str "1433" = Some 1433 /\
  load_config (Some "PORT = 1433") = OK (defaults_with_port 1433).
Proof.
  apply (decimal_port_round_trip 1433). vm_compute. discriminate.
Defined.

(** ** Columns of the merged table, and tables without the key *)

(** X17.  When the tables all have the dossier column and no other
    column name twice, the merged table has the columns of the first
    table followed by the columns, the dossier apart, of each further
    table in order, under their own names and dtypes. *)
Theorem merged_columns_in_order : forall first rest merged,
  compatible (first :: rest) = true ->
  has_column dossier first = true ->
  merge_dataframes (first :: rest) = OK merged ->
  columns merged = (columns first ++ flat_map (others dossier) rest)%list /\
  NoDup (names merged).
Proof.
  intros first rest merged Hcomp Hd Hm.
  destruct (compatible_inv first rest Hcomp Hd) as (t & Hk & Hall & Hn).
  destruct (merge_dataframes_inv _ _ _ Hm) as (joined & _ & Hj & Hc & _).
  destruct (merge_loop_plain rest first joined Hn Hj) as [Hcols _].
  split; [rewrite Hc; exact Hcols|].
  unfold names. rewrite Hc, Hcols, map_app, flat_map_others_names. exact Hn.
Qed.

Lemma merged_columns_in_order_witness :
  columns merged_scenario =
    [("dossier", Object); ("nb_pieces_exportees", Number);
     ("nb_pieces_a_traiter", Number)].
Proof.
  exact (proj1 (merged_columns_in_order table_exportees [table_a_traiter]
                  merged_scenario eq_refl eq_refl eq_refl)).
Defined.

Lemma merge_loop_missing_key : forall rest first,
  (exists df, In df rest /\ has_column dossier df = false) ->
  exists e, merge_loop first rest = Raise e.
Proof.
  induction rest as [|nx rest IH]; intros first [df [Hin Hd]]; [destruct Hin|].
  simpl. unfold bind.
  destruct (pd_merge_outer dossier first nx) as [m|e] eqn:E; [|exists e; reflexivity].
  apply IH. destruct Hin as [Eq|Hin]; [|exists df; auto].
  subst nx. exfalso.
  destruct (pd_merge_outer_inv _ _ _ E) as (t & _ & Hr & _).
  assert (Hh : has_column dossier df = true)
    by (apply has_column_lookup; exists t; exact Hr).
  congruence.
Qed.

(** X18.  Two or more tables of which one lacks the dossier column
    cannot be merged: the merge raises, and so do the sort and the
    report that depend on it. *)
Theorem merge_needs_key : forall w first rest,
  rest <> [] ->
  existsb (fun df => negb (has_column dossier df)) (first :: rest) = true ->
  exists e,
    merge_dataframes (first :: rest) = Raise e /\
    final_table (first :: rest) = Raise e /\
    report_of w (first :: rest) = Raise e.
Proof.
  intros w first rest Hne Hex.
  assert (Hloop : exists e, merge_loop first rest = Raise e).
  { apply existsb_exists in Hex. destruct Hex as [df [[E|Hin] Hd]].
    - subst df. apply negb_true_iff in Hd.
      destruct rest as [|nx rest]; [congruence|].
      simpl. unfold pd_merge_outer.
      destruct (lookup (columns first) dossier) as [t|] eqn:El.
      + assert (has_column dossier first = true)
          by (apply has_column_lookup; exists t; exact El).
        congruence.
      + eexists. reflexivity.
    - apply merge_loop_missing_key. exists df. split; [exact Hin|].
      apply negb_true_iff. exact Hd. }
  destruct Hloop as [e He]. exists e.
  unfold report_of, final_table, merge_dataframes, bind. rewrite He. auto.
Qed.

Lemma merge_needs_key_witness :
  exists e,
    merge_dataframes [table_exportees;
                      {| columns := [("nb_pieces_a_traiter", Number)];
                         rows := [[("nb_pieces_a_traiter", VNum 4)]] |}] = Raise e /\
    final_table [table_exportees;
                 {| columns := [("nb_pieces_a_traiter", Number)];
                    rows := [[("nb_pieces_a_traiter", VNum 4)]] |}] = Raise e /\
    report_of world_scenario
              [table_exportees;
               {| columns := [("nb_pieces_a_traiter", Number)];
                  rows := [[("nb_pieces_a_traiter", VNum 4)]] |}] = Raise e.
Proof.
  apply merge_needs_key; [discriminate|reflexivity].
Defined.
